(** * Booking reviews scraper: the parser, the paginator and the scrape loop

    A shallow embedding of [src/extractors/booking_parser.py],
    [src/extractors/pagination_handler.py], [merge_config] and
    [scrape_reviews] of [src/main.py] and [src/outputs/dataset_exporter.py],
    with the properties the specification states about them and further
    properties of the code.

    Conventions.
    - A Python [str] is a [string] whose characters are the code points
      below 256 (ASCII and the Latin-1 supplement); the character classes
      ([isspace], [isdigit], [isdecimal], [lower]) are the ones Python has
      on these code points.  Texts with other characters are not
      represented.
    - A raised exception is a value of [exc]; [try ... except] is
      [try_except] with the handler deciding which classes it catches.
    - The calls into libraries that cannot be written out here
      (the HTML parser, [json.loads], [float], [datetime.fromisoformat],
      [urljoin], the HTTP session) are the fields of the class [PyLib];
      the file operations of the exporter are those of [FileLib]. *)

From Stdlib Require Import QArith.
From stdpp Require Import base option list strings gmap.
From Stdlib Require Import Ascii String.

Set Warnings "-register-all,-clear-no-such-hyp".

Local Open Scope string_scope.
Local Open Scope list_scope.
Local Open Scope Z_scope.

(* ===================================================================== *)
(** ** Python strings *)
(* ===================================================================== *)

Module PyStr.

Definition code (c : ascii) : N := N_of_ascii c.

(** [str.isspace]: TAB, LF, VT, FF, CR, FS, GS, RS, US, SPACE, and of the
    Latin-1 supplement NEL (U+0085) and the no-break space (U+00A0). *)
Definition isspace (c : ascii) : bool :=
  let n := code c in
  ((9 <=? n) && (n <=? 13) || (28 <=? n) && (n <=? 32)
   || (n =? 133) || (n =? 160))%N.

(** [str.isdecimal]: the digits 0 to 9. *)
Definition isdecimal (c : ascii) : bool :=
  let n := code c in ((48 <=? n) && (n <=? 57))%N.

(** [str.isdigit]: the decimal digits, and the superscripts two, three
    and one (U+00B2, U+00B3, U+00B9), which are digits but not decimal. *)
Definition isdigit (c : ascii) : bool :=
  let n := code c in
  (isdecimal c || (n =? 178) || (n =? 179) || (n =? 185))%N.

(** [c.isascii() and c.isalpha()]: the ASCII letters. *)
Definition isalpha (c : ascii) : bool :=
  let n := code c in
  ((65 <=? n) && (n <=? 90) || (97 <=? n) && (n <=? 122))%N.

(** [str.lower] on one character: A to Z, and the capital letters of the
    Latin-1 supplement (U+00C0 to U+00DE without the multiplication sign
    U+00D7), each 32 below its small letter. *)
Definition lower_char (c : ascii) : ascii :=
  let n := code c in
  if ((65 <=? n) && (n <=? 90)
      || (192 <=? n) && (n <=? 222) && negb (n =? 215))%N
  then ascii_of_N (n + 32) else c.

Fixpoint lower (s : string) : string :=
  match s with
  | EmptyString => EmptyString
  | String c r => String (lower_char c) (lower r)
  end.

Fixpoint filter (p : ascii -> bool) (s : string) : string :=
  match s with
  | EmptyString => EmptyString
  | String c r => if p c then String c (filter p r) else filter p r
  end.

Definition is_empty (s : string) : bool :=
  match s with EmptyString => true | _ => false end.

(** [s.lstrip(chars)], the characters given by a predicate. *)
Fixpoint lstrip_by (p : ascii -> bool) (s : string) : string :=
  match s with
  | EmptyString => EmptyString
  | String c r => if p c then lstrip_by p r else s
  end.

Fixpoint rstrip_by (p : ascii -> bool) (s : string) : string :=
  match s with
  | EmptyString => EmptyString
  | String c r =>
      match rstrip_by p r with
      | EmptyString => if p c then EmptyString else String c EmptyString
      | r' => String c r'
      end
  end.

Definition strip (s : string) : string := rstrip_by isspace (lstrip_by isspace s).

(** [s.split()]: the maximal runs of non-whitespace characters. *)
Fixpoint split_go (cur : option string) (s : string) : list string :=
  match s with
  | EmptyString =>
      match cur with Some w => [String.rev w] | None => [] end
  | String c r =>
      if isspace c then
        match cur with
        | Some w => String.rev w :: split_go None r
        | None => split_go None r
        end
      else
        match cur with
        | Some w => split_go (Some (String c w)) r
        | None => split_go (Some (String c EmptyString)) r
        end
  end.

Definition split (s : string) : list string := split_go None s.

(** [sep.join(parts)]. *)
Fixpoint join (sep : string) (parts : list string) : string :=
  match parts with
  | [] => ""
  | [p] => p
  | p :: rest => p +:+ sep +:+ join sep rest
  end.

(** [s.replace(c, by)] for a one-character pattern. *)
Fixpoint replace (c : ascii) (by_ : string) (s : string) : string :=
  match s with
  | EmptyString => EmptyString
  | String d r =>
      if Ascii.eqb c d then by_ +:+ replace c by_ r else String d (replace c by_ r)
  end.

(** [needle in s]. *)
Fixpoint contains (needle s : string) : bool :=
  String.prefix needle s
  || match s with
     | EmptyString => false
     | String _ r => contains needle r
     end.

Fixpoint mem_char (c : ascii) (s : string) : bool :=
  match s with
  | EmptyString => false
  | String d r => Ascii.eqb c d || mem_char c r
  end.

Definition eqb (a b : string) : bool := bool_decide (a = b).

End PyStr.

(* ===================================================================== *)
(** ** Exceptions *)
(* ===================================================================== *)

(** The exception classes the modelled code can meet.  [JSONDecodeError]
    is a subclass of [ValueError]; all are subclasses of [Exception]. *)
Inductive exn : Type :=
| ValueError | JSONDecodeError | TypeError | IndexError | KeyError
| AttributeError | OverflowError | StopIteration | OtherError.

Definition is_ValueError (e : exn) : bool :=
  match e with ValueError | JSONDecodeError => true | _ => false end.

Definition is_TypeError (e : exn) : bool :=
  match e with TypeError => true | _ => false end.

Inductive exc (A : Type) : Type :=
| Ok (a : A)
| Raise (e : exn).
Arguments Ok {A} a.
Arguments Raise {A} e.

Definition exc_bind {A B} (m : exc A) (k : A -> exc B) : exc B :=
  match m with
  | Ok a => k a
  | Raise e => Raise e
  end.

(** [try: body except <classes>: handler]; an exception outside the
    handled classes goes on. *)
Definition try_except {A} (body : exc A) (catches : exn -> bool)
    (handler : exc A) : exc A :=
  match body with
  | Ok a => Ok a
  | Raise e => if catches e then handler else Raise e
  end.

Definition any_Exception (e : exn) : bool := true.

Declare Scope exc_scope.
Delimit Scope exc_scope with exc.
Notation "'let*' x ':=' m 'in' k" := (exc_bind m (fun x => k))
  (at level 10, x name, m at level 100, k at level 200) : exc_scope.

(* ===================================================================== *)
(** ** Python numbers and [int(...)] *)
(* ===================================================================== *)

(** A Python [float]: a finite value (kept as the rational it denotes), an
    infinity, or a NaN. *)
Inductive pyfloat : Type :=
| FFin (q : Q)
| FInf (negative : bool)
| FNan.

(** [sys.int_info.default_max_str_digits]: [int(s)] raises [ValueError]
    on a decimal string with more digits. *)
Definition int_max_str_digits : nat := 4300.

Module PyInt.

Definition digit_val (c : ascii) : Z := Z.of_N (PyStr.code c) - 48.

(** Horner evaluation of a digit string in which single underscores may
    separate digits; [prev] says whether the last character was a digit. *)
Fixpoint digits_go (acc : Z) (prev : bool) (s : string) : option Z :=
  match s with
  | EmptyString => if prev then Some acc else None
  | String c r =>
      if PyStr.isdecimal c then digits_go (10 * acc + digit_val c) true r
      else if Ascii.eqb c "_"%char then
        (if prev then digits_go acc false r else None)
      else None
  end.

Definition count_digits (s : string) : nat :=
  String.length (PyStr.filter PyStr.isdecimal s).

(** The whitespace [int] skips at both ends: of the ASCII characters
    those of C's [isspace] (TAB, LF, VT, FF, CR, SPACE; not FS to US), and
    the whitespace beyond ASCII. *)
Definition isspace (c : ascii) : bool :=
  let n := PyStr.code c in
  ((9 <=? n) && (n <=? 13) || (n =? 32) || (n =? 133) || (n =? 160))%N.

(** [int(s)] for a [str]: [None] stands for [ValueError]. *)
Definition of_str (s : string) : option Z :=
  let t := PyStr.rstrip_by isspace (PyStr.lstrip_by isspace s) in
  let '(neg, body) :=
    match t with
    | String "-"%char r => (true, r)
    | String "+"%char r => (false, r)
    | _ => (false, t)
    end in
  if (int_max_str_digits <? count_digits body)%nat then None
  else
    match digits_go 0 false body with
    | Some z => Some (if neg then - z else z)
    | None => None
    end.

End PyInt.

(* ===================================================================== *)
(** ** JSON values as [json.loads] returns them *)
(* ===================================================================== *)

Inductive json : Type :=
| JNull
| JBool (b : bool)
| JInt (z : Z)
| JFloat (f : pyfloat)
| JStr (s : string)
| JList (items : list json)
| JDict (fields : list (string * json)).

Module Json.

(** Python truth value. *)
Definition truthy (v : json) : bool :=
  match v with
  | JNull => false
  | JBool b => b
  | JInt z => negb (z =? 0)
  | JFloat (FFin q) => negb (Qnum q =? 0)
  | JFloat _ => true
  | JStr s => negb (PyStr.is_empty s)
  | JList l => match l with [] => false | _ => true end
  | JDict d => match d with [] => false | _ => true end
  end.

Fixpoint lookup (k : string) (d : list (string * json)) : option json :=
  match d with
  | [] => None
  | (k', v) :: r => if PyStr.eqb k k' then Some v else lookup k r
  end.

(** [d.get(k, default)] on the fields of a dict. *)
Definition get_default (k : string) (default : json) (d : list (string * json)) : json :=
  match lookup k d with Some v => v | None => default end.

(** [d.get(k)]: [None] when the key is missing. *)
Definition get (k : string) (d : list (string * json)) : json :=
  get_default k JNull d.

(** [a or b]. *)
Definition or_ (a b : json) : json := if truthy a then a else b.

(** [v[0]]. *)
Definition subscript0 (v : json) : exc json :=
  match v with
  | JList (x :: _) => Ok x
  | JList [] => Raise IndexError
  | JStr (String c _) => Ok (JStr (String c EmptyString))
  | JStr EmptyString => Raise IndexError
  | JDict _ => Raise KeyError
  | JNull | JBool _ | JInt _ | JFloat _ => Raise TypeError
  end.

(** [v.get(k)] on an arbitrary value: only a dict has the method. *)
Definition method_get (k : string) (v : json) : exc json :=
  match v with
  | JDict d => Ok (get k d)
  | _ => Raise AttributeError
  end.

(** [int(v)]. *)
Definition to_int (v : json) : exc Z :=
  match v with
  | JInt z => Ok z
  | JBool b => Ok (if b then 1 else 0)
  | JFloat (FFin q) => Ok (Z.quot (Qnum q) (Zpos (Qden q)))
  | JFloat (FInf _) => Raise OverflowError
  | JFloat FNan => Raise ValueError
  | JStr s =>
      match PyInt.of_str s with
      | Some z => Ok z
      | None => Raise ValueError
      end
  | JNull | JList _ | JDict _ => Raise TypeError
  end.

(** [str(v).lower() in {"hotel", "lodgingbusiness"}].  [str] of a value
    that is not a string is its [repr] (["None"], ["True"], a numeral,
    a bracketed list or dict), which in lower case is neither word. *)
Definition is_lodging_type (v : json) : bool :=
  match v with
  | JStr s =>
      let t := PyStr.lower s in
      PyStr.eqb t "hotel" || PyStr.eqb t "lodgingbusiness"
  | _ => false
  end.

End Json.

(* ===================================================================== *)
(** ** The document tree ([BeautifulSoup]) *)
(* ===================================================================== *)

(** A parse tree: strings and tags.  [visible] tells the strings that
    [get_text] returns (plain text and CDATA) from the others (comments,
    the contents of [script] and [style]).  The value of an attribute is
    the text written in the document; a multi-valued attribute ([class],
    [rel]) is split on whitespace where it is matched. *)
Inductive node : Type :=
| NText (visible : bool) (s : string)
| NElem (name : string) (attrs : list (string * string)) (children : list node).

(** A tag together with its chain of parents, nearest first. *)
Record tag_in_context : Type := InContext {
  card_ancestors : list node;
  card_node : node;
}.

Module Dom.

Fixpoint attr_lookup (k : string) (attrs : list (string * string)) : option string :=
  match attrs with
  | [] => None
  | (k', v) :: r => if PyStr.eqb k k' then Some v else attr_lookup k r
  end.

(** [tag.get(k)]. *)
Definition get (k : string) (n : node) : option string :=
  match n with
  | NElem _ attrs _ => attr_lookup k attrs
  | NText _ _ => None
  end.

(** [tag.has_attr(k)]. *)
Definition has_attr (k : string) (n : node) : bool :=
  match get k n with Some _ => true | None => false end.

(** [tag.descendants]: every node below the tag, in document order. *)
Fixpoint descendants (n : node) : list node :=
  match n with
  | NElem _ _ ch => flat_map (fun c => c :: descendants c) ch
  | NText _ _ => []
  end.

Fixpoint descendants_in_context (anc : list node) (n : node) : list tag_in_context :=
  match n with
  | NElem _ _ ch =>
      flat_map
        (fun c => InContext (n :: anc) c :: descendants_in_context (n :: anc) c) ch
  | NText _ _ => []
  end.

(** Matchers: all of them hold of tags only. *)
Definition is_tag (nm : string) (n : node) : bool :=
  match n with
  | NElem nm' _ _ => PyStr.eqb nm nm'
  | NText _ _ => false
  end.

(** [attrs={k: v}] or [k=v] for a single-valued attribute,
    and the CSS selector [[k="v"]]. *)
Definition attr_is (k v : string) (n : node) : bool :=
  match get k n with
  | Some v' => PyStr.eqb v v'
  | None => false
  end.

(** [k=v] for a multi-valued attribute ([class_=v], [rel=v]) with [v] free
    of whitespace, and the CSS selector [.v]: one of the tokens is [v]. *)
Definition attr_has_token (k v : string) (n : node) : bool :=
  match get k n with
  | Some s => existsb (PyStr.eqb v) (PyStr.split s)
  | None => false
  end.

(** [tag.find_all(...)], [tag.find(...)]. *)
Definition find_all (p : node -> bool) (n : node) : list node :=
  List.filter p (descendants n).

Definition find (p : node -> bool) (n : node) : option node :=
  head (find_all p n).

(** [soup.select(...)], the matches with their parents. *)
Definition select (p : node -> bool) (soup : node) : list tag_in_context :=
  List.filter (fun c => p (card_node c)) (descendants_in_context [] soup).

(** [tag.find_parent(nm)]. *)
Definition find_parent (nm : string) (c : tag_in_context) : option node :=
  head (List.filter (is_tag nm) (card_ancestors c)).

Definition stripped_string (n : node) : list string :=
  match n with
  | NText true s =>
      let t := PyStr.strip s in
      if PyStr.is_empty t then [] else [t]
  | _ => []
  end.

(** [tag.get_text(strip=True)]. *)
Definition get_text_strip (n : node) : string :=
  PyStr.join "" (flat_map stripped_string (descendants n)).

(** [tag.string]. *)
Fixpoint string_ (n : node) : option string :=
  match n with
  | NText _ s => Some s
  | NElem _ _ [c] => string_ c
  | NElem _ _ _ => None
  end.

(** [tag.name]. *)
Definition name (n : node) : option string :=
  match n with
  | NElem nm _ _ => Some nm
  | NText _ _ => None
  end.

End Dom.

(** [x or y] on optional strings ([None] and [""] are false). *)
Definition or_str (a b : option string) : option string :=
  match a with
  | Some s => if PyStr.is_empty s then b else Some s
  | None => b
  end.

(** [s or None]. *)
Definition or_None (s : string) : option string :=
  if PyStr.is_empty s then None else Some s.

(** [_safe_text(node)]. *)
Definition _safe_text (n : option node) : string :=
  match n with
  | None => ""
  | Some n => PyStr.join " " (PyStr.split (Dom.get_text_strip n))
  end.

(* ===================================================================== *)
(** ** [urllib.parse.urlparse]: the scheme and the network location *)
(* ===================================================================== *)

Module Url.

(** The characters [urlsplit] strips from the left: C0 controls and space. *)
Definition c0_or_space (c : ascii) : bool := (PyStr.code c <=? 32)%N.

(** The characters [urlsplit] removes everywhere: TAB, CR, LF. *)
Definition unsafe_byte (c : ascii) : bool :=
  let n := PyStr.code c in ((n =? 9) || (n =? 13) || (n =? 10))%N.

Definition scheme_char (c : ascii) : bool :=
  PyStr.isalpha c || PyStr.isdecimal c || PyStr.mem_char c "+-.".

(** [url[:i], url[i+1:]] for the first [i] with [url[i] == ':']. *)
Fixpoint cut_at_colon (url : string) : option (string * string) :=
  match url with
  | EmptyString => None
  | String c r =>
      if Ascii.eqb c ":"%char then Some (EmptyString, r)
      else
        match cut_at_colon r with
        | Some (a, b) => Some (String c a, b)
        | None => None
        end
  end.

Definition split_scheme (url : string) : string * string :=
  match cut_at_colon url with
  | Some (String c0 a, rest) =>
      if PyStr.isalpha c0 && forallb scheme_char (list_ascii_of_string (String c0 a))
      then (PyStr.lower (String c0 a), rest)
      else (EmptyString, url)
  | _ => (EmptyString, url)
  end.

(** The characters up to the first of [/], [?], [#]. *)
Fixpoint take_netloc (s : string) : string :=
  match s with
  | EmptyString => EmptyString
  | String c r =>
      if PyStr.mem_char c "/?#" then EmptyString else String c (take_netloc r)
  end.

(** [(urlparse(url).scheme, urlparse(url).netloc)], or [ValueError]. *)
Definition urlparse (host_ok : string -> bool) (url : string) : exc (string * string) :=
  let url := PyStr.lstrip_by c0_or_space url in
  let url := PyStr.filter (fun c => negb (unsafe_byte c)) url in
  let '(scheme, url) := split_scheme url in
  match url with
  | String "/"%char (String "/"%char r) =>
      let netloc := take_netloc r in
      let lb := PyStr.mem_char "["%char netloc in
      let rb := PyStr.mem_char "]"%char netloc in
      if (lb && negb rb) || (rb && negb lb) then Raise ValueError
      else if lb && rb && negb (host_ok netloc) then Raise ValueError
      else Ok (scheme, netloc)
  | _ => Ok (scheme, EmptyString)
  end.

(** The text [urlsplit] reads: the URL without the C0 controls and spaces
    at its left end and without any TAB, CR or LF. *)
Definition cleaned (url : string) : string :=
  PyStr.filter (fun c => negb (unsafe_byte c)) (PyStr.lstrip_by c0_or_space url).

(** What follows the two slashes a text starts with. *)
Definition after_slashes (url : string) : option string :=
  match url with
  | String "/"%char (String "/"%char r) => Some r
  | _ => None
  end.

(** The brackets of a network location are in order: both or none, and a
    bracketed host passes the library's check. *)
Definition brackets_ok (host_ok : string -> bool) (netloc : string) : bool :=
  let lb := PyStr.mem_char "["%char netloc in
  let rb := PyStr.mem_char "]"%char netloc in
  bool_decide (lb = rb) && (negb lb || host_ok netloc).

(** [s.partition(c)]: the text before the first [c], whether there is
    one, and the text after it. *)
Fixpoint partition (c : ascii) (s : string) : string * bool * string :=
  match s with
  | EmptyString => (EmptyString, false, EmptyString)
  | String d r =>
      if Ascii.eqb d c then (EmptyString, true, r)
      else let '(a, found, b) := partition c r in (String d a, found, b)
  end.

(** The last part of [s.rpartition(c)]: the text after the last [c], and
    all of [s] when it has none. *)
Fixpoint after_last (c : ascii) (s : string) : string :=
  match s with
  | EmptyString => EmptyString
  | String d r =>
      if PyStr.mem_char c r then after_last c r
      else if Ascii.eqb d c then r else s
  end.

(** [urlparse(url).hostname], from the network location: what follows the
    user information, up to the port, or between brackets; [None] when
    that is empty. *)
Definition hostname (netloc : string) : option string :=
  let hostinfo := after_last "@"%char netloc in
  let '(_, have_open_br, bracketed) := partition "["%char hostinfo in
  let host :=
    if have_open_br then fst (fst (partition "]"%char bracketed))
    else fst (fst (partition ":"%char hostinfo)) in
  if PyStr.is_empty host then None
  else
    let '(name, percent, zone) := partition "%"%char host in
    Some (PyStr.lower name +:+ (if percent then "%" else "") +:+ zone).

End Url.

(* ===================================================================== *)
(** ** The library calls *)
(* ===================================================================== *)

Class PyLib : Type := {
  (** The state of the network. *)
  World : Type;
  (** [BeautifulSoup(html, "lxml")]: the root of the parse tree. *)
  BeautifulSoup : string -> node;
  (** [json.loads(s)]. *)
  json_loads : string -> exc json;
  (** [float(s)] for a [str]; [None] is [ValueError]. *)
  float_of_str : string -> option pyfloat;
  (** [int(datetime.fromisoformat(s).timestamp())]. *)
  iso_timestamp : string -> exc Z;
  (** The check [urlsplit] makes of a host in brackets. *)
  bracketed_host_ok : string -> bool;
  (** [urljoin(base, href)]. *)
  urljoin : string -> string -> exc string;
  (** [session.get(url, ...)] followed by [raise_for_status()] and [.text];
      [None] is any exception raised on the way. *)
  session_get : string -> World -> option string * World;
}.

(* ===================================================================== *)
(** ** Data model *)
(* ===================================================================== *)

Record ScoreEntry : Type := {
  entry_score : pyfloat;
  translation : string;
  bounds_lower : option pyfloat;
  bounds_higher : option pyfloat;
}.

Record HotelStatistics : Type := {
  totalReviews : option Z;
  scores : gmap string ScoreEntry;
}.

Record Guest : Type := {
  guest_name : option string;
  guest_country : option string;
  guest_type : option string;
}.

Record Booking : Type := {
  roomType : option string;
  checkIn : option string;
  checkOut : option string;
  nights : option Z;
  customerType : option string;
}.

Record ReviewRecord : Type := {
  score : option pyfloat;
  reviewDate : option Z;
  title : string;
  positiveContent : string;
  negativeContent : string;
  language : option string;
  guest : Guest;
  booking : Booking;
  photos : list string;
}.

Definition set_totalReviews (v : option Z) (stats : HotelStatistics) : HotelStatistics :=
  {| totalReviews := v; scores := scores stats |}.

Definition set_score (key : string) (e : ScoreEntry) (stats : HotelStatistics) : HotelStatistics :=
  {| totalReviews := totalReviews stats; scores := <[key := e]> (scores stats) |}.

Definition is_None {A} (o : option A) : bool :=
  match o with None => true | Some _ => false end.

(* ===================================================================== *)
(** ** [BookingReviewParser] *)
(* ===================================================================== *)

Section BookingReviewParser.

Context `{lib : PyLib}.

(** [self.language_hint]. *)
Variable language_hint : option string.

Definition py_int (s : string) : exc Z :=
  match PyInt.of_str s with
  | Some z => Ok z
  | None => Raise ValueError
  end.

Definition py_float (s : string) : exc pyfloat :=
  match float_of_str s with
  | Some f => Ok f
  | None => Raise ValueError
  end.

Definition testid (v : string) : node -> bool := Dom.attr_is "data-testid" v.

Definition or_node (a b : option node) : option node :=
  match a with Some _ => a | None => b end.

(** *** Hotel-level statistics *)

Definition _extract_int_from_text (text : string) : exc (option Z) :=
  let digits := PyStr.filter PyStr.isdigit text in
  if PyStr.is_empty digits then Ok None
  else
    try_except (let* n := py_int digits in Ok (Some n))%exc
               is_ValueError (Ok None).

Definition _normalize_score_label (label : string) : string :=
  PyStr.replace "-"%char "_"
    (PyStr.replace " "%char "_" (PyStr.lower (PyStr.strip label))).

(** The lines that compute [data_type] from the dict [data]. *)
Definition jsonld_data_type (d : list (string * json)) : exc json :=
  (let* data_type :=
     (let t := Json.get "@type" d in
      if Json.truthy t then Ok t
      else
        let* first :=
          Json.subscript0 (Json.get_default "@graph" (JList [JDict []]) d) in
        Json.method_get "@type" first) in
   match data_type with
   | JList _ => Json.subscript0 data_type
   | _ => Ok data_type
   end)%exc.

Definition _populate_stats_from_jsonld (data : json) (stats : HotelStatistics)
  : exc HotelStatistics :=
  match data with
  | JDict d =>
      (let* data_type := jsonld_data_type d in
       if negb (Json.is_lodging_type data_type) then Ok stats
       else
         let aggregate := Json.or_ (Json.get "aggregateRating" d) (JDict []) in
         match aggregate with
         | JDict a =>
             let review_count :=
               Json.or_ (Json.get "reviewCount" a) (Json.get "ratingCount" a) in
             if Json.truthy review_count && is_None (totalReviews stats) then
               try_except
                 (let* n := Json.to_int review_count in
                  Ok (set_totalReviews (Some n) stats))
                 (fun e => is_TypeError e || is_ValueError e)
                 (Ok stats)
             else Ok stats
         | _ => Ok stats
         end)%exc
  | _ => Ok stats
  end.

(** The statements of strategy 1 change [stats] as they go, and what they
    have stored stays when a later one raises: a run gives the statistics
    it has reached and how it ended. *)
Fixpoint populate_items (items : list json) (stats : HotelStatistics)
  : HotelStatistics * exc unit :=
  match items with
  | [] => (stats, Ok tt)
  | item :: rest =>
      match _populate_stats_from_jsonld item stats with
      | Ok stats' => populate_items rest stats'
      | Raise e => (stats, Raise e)
      end
  end.

Definition script_payload (script : node) : string :=
  match Dom.string_ script with
  | Some s => if PyStr.is_empty s then "{}" else s
  | None => "{}"
  end.

Fixpoint scan_scripts (scripts : list node) (stats : HotelStatistics)
  : HotelStatistics * exc unit :=
  match scripts with
  | [] => (stats, Ok tt)
  | script :: rest =>
      match json_loads (script_payload script) with
      | Raise e => (stats, Raise e)
      | Ok data =>
          let items := match data with JList l => l | _ => [data] end in
          match populate_items items stats with
          | (stats', Ok _) => scan_scripts rest stats'
          | (stats', Raise e) => (stats', Raise e)
          end
      end
  end.

Definition ld_json_scripts (soup : node) : list node :=
  Dom.find_all
    (fun n => Dom.is_tag "script" n && Dom.attr_is "type" "application/ld+json" n)
    soup.

Definition score_block_step (stats : HotelStatistics) (score_block : node)
  : exc HotelStatistics :=
  let label := _safe_text (Dom.find (testid "review-subscore-title") score_block) in
  let score_text := _safe_text (Dom.find (testid "review-subscore-value") score_block) in
  if PyStr.is_empty label || PyStr.is_empty score_text then Ok stats
  else
    try_except
      (let* score_val := py_float (PyStr.replace ","%char "." score_text) in
       Ok (set_score (_normalize_score_label label)
             {| entry_score := score_val; translation := label;
                bounds_lower := None; bounds_higher := None |} stats))%exc
      is_ValueError (Ok stats).

Fixpoint for_each {A S} (step : S -> A -> exc S) (l : list A) (s : S) : exc S :=
  match l with
  | [] => Ok s
  | x :: r => (let* s' := step s x in for_each step r s')%exc
  end.

Definition strategy1 (soup : node) (stats : HotelStatistics)
  : HotelStatistics * exc unit :=
  let '(stats, r) := scan_scripts (ld_json_scripts soup) stats in
  (stats, try_except r any_Exception (Ok tt)).

Definition strategy2 (soup : node) (stats : HotelStatistics) : exc HotelStatistics :=
  if is_None (totalReviews stats) then
    match Dom.find (testid "review-score-subtitle") soup with
    | Some total_node =>
        (let* n := _extract_int_from_text (_safe_text (Some total_node)) in
         Ok (set_totalReviews n stats))%exc
    | None => Ok stats
    end
  else Ok stats.

Definition _extract_hotel_stats (soup : node) : exc HotelStatistics :=
  let stats := {| totalReviews := None; scores := ∅ |} in
  let '(stats, r) := strategy1 soup stats in
  (let* _ := r in
   let* stats := strategy2 soup stats in
   for_each score_block_step
     (map card_node (Dom.select (testid "review-subscore") soup)) stats)%exc.

(** *** Review-level data *)

Definition _parse_score (card : node) : exc (option pyfloat) :=
  let score_node :=
    match Dom.find (testid "review-score") card with
    | Some n => Some n
    | None =>
        or_node (Dom.find (Dom.attr_has_token "class" "bui-review-score__badge") card)
                (Dom.find (Dom.attr_is "itemprop" "ratingValue") card)
    end in
  let text := _safe_text score_node in
  if PyStr.is_empty text then Ok None
  else
    let text := PyStr.replace ","%char "." text in
    try_except (let* f := py_float text in Ok (Some f))%exc
               is_ValueError (Ok None).

Definition _parse_title (card : node) : string :=
  let title_node :=
    match Dom.find (testid "review-title") card with
    | Some n => Some n
    | None =>
        or_node (Dom.find (Dom.is_tag "h3") card)
                (Dom.find (Dom.attr_has_token "class" "review-title") card)
    end in
  _safe_text title_node.

Definition _parse_review_date (card : node) : exc (option Z) :=
  (let* from_time :=
     match Dom.find (Dom.is_tag "time") card with
     | Some time_node =>
         match Dom.get "datetime" time_node with
         | Some dt_val =>
             try_except
               (let* t := iso_timestamp (PyStr.replace "Z"%char "+00:00" dt_val) in
                Ok (Some t))
               any_Exception (Ok None)
         | None => Ok None
         end
     | None => Ok None
     end in
   match from_time with
   | Some t => Ok (Some t)
   | None =>
       let text := _safe_text (Dom.find (testid "review-date") card) in
       if PyStr.is_empty text then Ok None else Ok None
   end)%exc.

Definition _parse_review_text (card : node) : string * string :=
  let positive :=
    match Dom.find (testid "review-positive-text") card with
    | Some n => _safe_text (Some n)
    | None => ""
    end in
  let negative :=
    match Dom.find (testid "review-negative-text") card with
    | Some n => _safe_text (Some n)
    | None => ""
    end in
  if PyStr.is_empty positive && PyStr.is_empty negative then
    let paragraphs :=
      List.filter (fun p => negb (PyStr.is_empty (_safe_text (Some p))))
                  (Dom.find_all (Dom.is_tag "p") card) in
    match paragraphs with
    | [] => (positive, negative)
    | [p] => (_safe_text (Some p), negative)
    | p :: rest =>
        (_safe_text (Some p),
         PyStr.join " " (map (fun q => _safe_text (Some q)) rest))
    end
  else (positive, negative).

Definition _parse_language (card : tag_in_context) : option string :=
  if Dom.has_attr "lang" (card_node card) then Dom.get "lang" (card_node card)
  else
    match or_str (Dom.get "data-review-language" (card_node card)) None with
    | Some lang_attr => Some lang_attr
    | None =>
        match Dom.find_parent "html" card with
        | Some html =>
            if Dom.has_attr "lang" html then Dom.get "lang" html else None
        | None => None
        end
    end.

Definition _parse_guest_info (card : node) : Guest :=
  let name_node :=
    or_node (Dom.find (testid "reviewer-name") card)
            (Dom.find (Dom.attr_has_token "class" "bui-avatar-block__title") card) in
  let country_node :=
    or_node (Dom.find (testid "reviewer-country") card)
            (Dom.find (Dom.attr_has_token "class" "bui-avatar-block__subtitle") card) in
  {| guest_name := or_None (_safe_text name_node);
     guest_country := or_None (_safe_text country_node);
     guest_type :=
       match Dom.find (testid "reviewer-type") card with
       | Some type_node => or_None (_safe_text (Some type_node))
       | None => None
       end |}.

Definition _parse_booking_info (card : node) : exc Booking :=
  let room :=
    match Dom.find (testid "review-room-type") card with
    | Some room_node => or_None (_safe_text (Some room_node))
    | None => None
    end in
  (let* nights_ :=
     match Dom.find (testid "review-stay-date") card with
     | Some stay_node => _extract_int_from_text (_safe_text (Some stay_node))
     | None => Ok None
     end in
   let customer :=
     match Dom.find (testid "review-customer-type") card with
     | Some n => or_None (_safe_text (Some n))
     | None => None
     end in
   Ok {| roomType := room; checkIn := None; checkOut := None;
         nights := nights_; customerType := customer |})%exc.

(** [img.get("src") or img.get("data-src")]. *)
Definition img_source (img : node) : option string :=
  or_str (Dom.get "src" img) (Dom.get "data-src" img).

Definition urlparse := Url.urlparse bracketed_host_ok.

Definition photo_step (photos : list string) (img : node) : exc (list string) :=
  match or_str (img_source img) None with
  | None => Ok photos
  | Some src =>
      try_except
        (let* parsed := urlparse src in
         if PyStr.is_empty (fst parsed) || PyStr.is_empty (snd parsed)
         then Ok photos
         else Ok (photos ++ [src]))%exc
        any_Exception (Ok photos)
  end.

(** The loop that removes duplicates, with its [seen] set. *)
Fixpoint unique_loop (seen : gset string) (unique_photos : list string)
    (photos : list string) : list string :=
  match photos with
  | [] => unique_photos
  | p :: rest =>
      if bool_decide (p ∈ seen) then unique_loop seen unique_photos rest
      else unique_loop ({[p]} ∪ seen) (unique_photos ++ [p]) rest
  end.

Definition _parse_photos (card : node) : exc (list string) :=
  (let* photos := for_each photo_step (Dom.find_all (Dom.is_tag "img") card) [] in
   Ok (unique_loop ∅ [] photos))%exc.

Definition _parse_single_review (card : tag_in_context) : exc (option ReviewRecord) :=
  let c := card_node card in
  (let* score_ := _parse_score c in
   let title_ := _parse_title c in
   let* review_date := _parse_review_date c in
   let '(positive, negative) := _parse_review_text c in
   let language_ := _parse_language card in
   let guest_ := _parse_guest_info c in
   let* booking_ := _parse_booking_info c in
   let* photos_ := _parse_photos c in
   if PyStr.is_empty positive && PyStr.is_empty negative && PyStr.is_empty title_
   then Ok None
   else
     Ok (Some {| score := score_; reviewDate := review_date; title := title_;
                 positiveContent := positive; negativeContent := negative;
                 language := or_str language_ language_hint;
                 guest := guest_; booking := booking_; photos := photos_ |}))%exc.

Definition review_cards (soup : node) : list tag_in_context :=
  match Dom.select (testid "review-card") soup with
  | [] =>
      Dom.select
        (fun n => Dom.attr_has_token "class" "review_list_new_item_block" n
                  || Dom.attr_is "itemprop" "review" n)
        soup
  | cards => cards
  end.

Definition review_step (reviews : list ReviewRecord) (card : tag_in_context)
  : exc (list ReviewRecord) :=
  try_except
    (let* review := _parse_single_review card in
     match review with
     | Some r => Ok (reviews ++ [r])
     | None => Ok reviews
     end)%exc
    any_Exception (Ok reviews).

Definition _extract_reviews (soup : node) : exc (list ReviewRecord) :=
  for_each review_step (review_cards soup) [].

Definition parse (html : string) : exc (HotelStatistics * list ReviewRecord) :=
  let soup := BeautifulSoup html in
  (let* hotel_stats := _extract_hotel_stats soup in
   let* reviews := _extract_reviews soup in
   let hotel_stats :=
     if is_None (totalReviews hotel_stats)
     then set_totalReviews (Some (Z.of_nat (List.length reviews))) hotel_stats
     else hotel_stats in
   Ok (hotel_stats, reviews))%exc.

(** The record a card gives, if it gives one. *)
Definition review_of (card : tag_in_context) : option ReviewRecord :=
  match _parse_single_review card with
  | Ok (Some r) => Some r
  | _ => None
  end.

End BookingReviewParser.

(* ===================================================================== *)
(** ** [PaginationHandler] *)
(* ===================================================================== *)

Section PaginationHandler.

Context `{lib : PyLib}.

(** [self.max_retries]. *)
Variable max_retries : Z.

(** The attempts of [_fetch]; the sleeps between them change nothing here. *)
Fixpoint fetch_attempts (attempts : nat) (url : string) (w : World)
  : option string * World :=
  match attempts with
  | O => (None, w)
  | S rest =>
      match session_get url w with
      | (Some text, w') => (Some text, w')
      | (None, w') => fetch_attempts rest url w'
      end
  end.

Definition _fetch (url : string) (w : World) : option string * World :=
  fetch_attempts (Z.to_nat max_retries) url w.

Definition str_or_empty (o : option string) : string :=
  match or_str o None with Some s => s | None => "" end.

(** Strategy 2: the first link with "next" in its label or text and a
    non-empty [href]. *)
Fixpoint next_from_labels (anchors : list node) (current_url : string)
  : exc (option string) :=
  match anchors with
  | [] => Ok None
  | a :: rest =>
      let aria := PyStr.lower (PyStr.strip (str_or_empty (Dom.get "aria-label" a))) in
      let text := PyStr.lower (Dom.get_text_strip a) in
      if PyStr.contains "next" aria || PyStr.contains "next" text then
        match or_str (Dom.get "href" a) None with
        | Some href =>
            (let* next_url := urljoin current_url href in Ok (Some next_url))%exc
        | None => next_from_labels rest current_url
        end
      else next_from_labels rest current_url
  end.

Definition href_of (link : option node) : option string :=
  match link with
  | Some n => or_str (Dom.get "href" n) None
  | None => None
  end.

Definition _find_next_page_url (html current_url : string) : exc (option string) :=
  let soup := BeautifulSoup html in
  let next_link :=
    Dom.find (fun n => Dom.is_tag "a" n && Dom.attr_has_token "rel" "next" n) soup in
  match href_of next_link with
  | Some href => (let* next_url := urljoin current_url href in Ok (Some next_url))%exc
  | None =>
      (let* by_label := next_from_labels (Dom.find_all (Dom.is_tag "a") soup) current_url in
       match by_label with
       | Some next_url => Ok (Some next_url)
       | None =>
           let next_btn :=
             Dom.find (Dom.attr_is "data-testid" "review-paginator-next") soup in
           match next_btn with
           | Some btn =>
               if bool_decide (Dom.name btn = Some "a") then
                 match href_of next_btn with
                 | Some href =>
                     let* next_url := urljoin current_url href in Ok (Some next_url)
                 | None => Ok None
                 end
               else Ok None
           | None => Ok None
           end
       end)%exc
  end.

(** The generator [iter_pages], as the states in which it can be resumed:
    before its first statement, after a [yield], and finished. *)
Inductive generator : Type :=
| GenStart (start_url : string)
| GenYielded (html current_url : string) (visited_urls : gset string)
| GenDone.

(** What one [next()] on the generator does: the page it yields (none when
    it finishes), the URL it passed to [_fetch] (none when it did not
    fetch), the state it is left in and the network after it. *)
Record resumption : Type := {
  yielded : option string;
  fetched : option string;
  resumed : generator;
  network : World;
}.

(** From the loop test to the next [yield] or to the end. *)
Definition iter_pages_loop (current_url : string) (visited_urls : gset string) (w : World)
  : resumption :=
  if negb (PyStr.is_empty current_url) && negb (bool_decide (current_url ∈ visited_urls))
  then
    let visited_urls := {[current_url]} ∪ visited_urls in
    match _fetch current_url w with
    | (Some html, w') =>
        if PyStr.is_empty html then
          {| yielded := None; fetched := Some current_url;
             resumed := GenDone; network := w' |}
        else
          {| yielded := Some html; fetched := Some current_url;
             resumed := GenYielded html current_url visited_urls; network := w' |}
    | (None, w') =>
        {| yielded := None; fetched := Some current_url;
           resumed := GenDone; network := w' |}
    end
  else {| yielded := None; fetched := None; resumed := GenDone; network := w |}.

Definition iter_pages_next (g : generator) (w : World) : exc resumption :=
  match g with
  | GenStart start_url => Ok (iter_pages_loop start_url ∅ w)
  | GenYielded html current_url visited_urls =>
      (let* next_url :=
         try_except (_find_next_page_url html current_url) any_Exception (Ok None) in
       match or_str next_url None with
       | None => Ok {| yielded := None; fetched := None; resumed := GenDone; network := w |}
       | Some next_url => Ok (iter_pages_loop next_url visited_urls w)
       end)%exc
  | GenDone => Ok {| yielded := None; fetched := None; resumed := GenDone; network := w |}
  end.

(** The URLs fetched by the first [n] resumptions of [iter_pages], in order. *)
Fixpoint fetch_log (n : nat) (g : generator) (w : World) : list string :=
  match n with
  | O => []
  | S n' =>
      match iter_pages_next g w with
      | Ok r =>
          match fetched r with
          | Some u => u :: fetch_log n' (resumed r) (network r)
          | None => fetch_log n' (resumed r) (network r)
          end
      | Raise _ => []
      end
  end.

(** The set [visited_urls] of a suspended generator. *)
Definition visited_of (g : generator) : gset string :=
  match g with
  | GenYielded _ _ visited_urls => visited_urls
  | _ => ∅
  end.

(** The log of the resumptions that follow on [r], [r]'s own fetch first. *)
Definition log_from (n : nat) (r : resumption) : list string :=
  match fetched r with
  | Some u => u :: fetch_log n (resumed r) (network r)
  | None => fetch_log n (resumed r) (network r)
  end.

(** The log of [n] resumptions has no URL twice and none the generator had
    visited before, from whatever state it starts. *)
Definition fresh_log (n : nat) : Prop :=
  forall g w,
    NoDup (fetch_log n g w)
    /\ forall u, u ∈ fetch_log n g w -> u ∉ visited_of g.

End PaginationHandler.

(* ===================================================================== *)
(** ** [scrape_reviews] *)
(* ===================================================================== *)

Section ScrapeReviews.

Context `{lib : PyLib}.

Variable max_items : Z.
Variable language : option string.
Variable max_retries : Z.

(** The inner loop: append, then test the cap; [Raise StopIteration] is the
    [raise] of the source.  The list it has built stays either way. *)
Fixpoint append_reviews (page_reviews : list ReviewRecord) (all_reviews : list ReviewRecord)
  : list ReviewRecord * exc unit :=
  match page_reviews with
  | [] => (all_reviews, Ok tt)
  | r :: rest =>
      let all_reviews := all_reviews ++ [r] in
      if Z.of_nat (List.length all_reviews) >=? max_items
      then (all_reviews, Raise StopIteration)
      else append_reviews rest all_reviews
  end.

Record progress : Type := {
  all_reviews : list ReviewRecord;
  hotel_stats : option HotelStatistics;
}.

(** The body of the [for] loop for one page.  A parsed statistics dict has
    its two keys, so it is true; [not hotel_stats] holds of [None] only. *)
Definition page_body (page_html : string) (st : progress) : progress * exc unit :=
  match parse language page_html with
  | Raise e => (st, Raise e)
  | Ok (parsed_stats, page_reviews) =>
      let hotel_stats :=
        match hotel_stats st with
        | None => Some parsed_stats
        | Some s => Some s
        end in
      let '(all_reviews, r) := append_reviews page_reviews (all_reviews st) in
      ({| all_reviews := all_reviews; hotel_stats := hotel_stats |}, r)
  end.

(** The [for] loop over the generator, inside its [try]: both handlers
    ([StopIteration], [Exception]) only log, so the loop gives the progress
    made when it ends, whatever ended it.  [None]: more than [fuel] pages. *)
Fixpoint pages_loop (fuel : nat) (g : generator) (w : World) (st : progress)
  : option progress :=
  match fuel with
  | O => None
  | S fuel' =>
      match iter_pages_next max_retries g w with
      | Raise _ => Some st
      | Ok r =>
          match yielded r with
          | None => Some st
          | Some page_html =>
              match page_body page_html st with
              | (st', Raise _) => Some st'
              | (st', Ok _) => pages_loop fuel' (resumed r) (network r) st'
              end
          end
      end
  end.

Record scrape_result : Type := {
  hotelStats : HotelStatistics;
  reviews : list ReviewRecord;
}.

Definition finish (st : progress) : scrape_result :=
  {| hotelStats :=
       match hotel_stats st with
       | Some s => s
       | None =>
           {| totalReviews := Some (Z.of_nat (List.length (all_reviews st)));
              scores := ∅ |}
       end;
     reviews := all_reviews st |}.

Definition scrape_reviews (fuel : nat) (hotel_url : string) (w : World)
  : option scrape_result :=
  match pages_loop fuel (GenStart hotel_url) w {| all_reviews := []; hotel_stats := None |} with
  | Some st => Some (finish st)
  | None => None
  end.

End ScrapeReviews.

(* ===================================================================== *)
(** ** Properties and their vocabulary *)
(* ===================================================================== *)

(** [returns m]: the computation ends with a value, not with an exception. *)
Definition returns {A} (m : exc A) : Prop := exists a, m = Ok a.

(** *** Fields left unset *)

Section Vocabulary.

Context `{lib : PyLib}.

Definition lacks (p : node -> bool) (c : node) : Prop := Dom.find p c = None.

(** The optional fields of a record are unset where the card has nothing
    to read them from. *)
Definition unset_when_absent (language_hint : option string)
    (card : tag_in_context) (r : ReviewRecord) : Prop :=
  let c := card_node card in
  (lacks (testid "review-score") c ->
   lacks (Dom.attr_has_token "class" "bui-review-score__badge") c ->
   lacks (Dom.attr_is "itemprop" "ratingValue") c -> score r = None)
  /\ (lacks (Dom.is_tag "time") c -> reviewDate r = None)
  /\ (lacks (testid "reviewer-name") c ->
      lacks (Dom.attr_has_token "class" "bui-avatar-block__title") c ->
      guest_name (guest r) = None)
  /\ (lacks (testid "reviewer-country") c ->
      lacks (Dom.attr_has_token "class" "bui-avatar-block__subtitle") c ->
      guest_country (guest r) = None)
  /\ (lacks (testid "reviewer-type") c -> guest_type (guest r) = None)
  /\ (lacks (testid "review-room-type") c -> roomType (booking r) = None)
  /\ (lacks (testid "review-stay-date") c -> nights (booking r) = None)
  /\ (lacks (testid "review-customer-type") c -> customerType (booking r) = None)
  /\ checkIn (booking r) = None
  /\ checkOut (booking r) = None
  /\ (Dom.find_all (Dom.is_tag "img") c = [] -> photos r = [])
  /\ (Dom.has_attr "lang" c = false ->
      Dom.get "data-review-language" c = None ->
      Dom.find_parent "html" card = None ->
      language_hint = None -> language r = None).

(** *** Photos *)

(** The sources the photo loop goes on with: [src], else [data-src], when
    not empty. *)
Definition photo_sources (card : node) : list string :=
  omap (fun img => or_str (img_source img) None) (Dom.find_all (Dom.is_tag "img") card).

(** A string that parses as an absolute URL: a scheme and a network
    location, both present. *)
Definition absolute_url (src : string) : Prop :=
  exists scheme netloc,
    urlparse src = Ok (scheme, netloc) /\ scheme <> "" /\ netloc <> "".

Definition is_absolute_url (src : string) : bool :=
  match urlparse src with
  | Ok (scheme, netloc) => negb (PyStr.is_empty scheme) && negb (PyStr.is_empty netloc)
  | Raise _ => false
  end.

End Vocabulary.

(** The elements of [l] at their first occurrence, in the order of [l]:
    the element at index [i] stays when it is neither in [pre] nor among
    the [i] elements before it. *)
Definition first_seen_after (pre l : list string) : list string :=
  omap (fun i =>
          match l !! i with
          | Some x => if bool_decide (x ∈ pre ++ take i l) then None else Some x
          | None => None
          end)
       (seq 0 (List.length l)).

Definition first_seen (l : list string) : list string := first_seen_after [] l.

(** The items [_populate_stats_from_jsonld] is called on for a block. *)
Definition block_items (data : json) : list json :=
  match data with JList l => l | _ => [data] end.

(** An item that the scan reads without an error and that is no lodging
    entity: not an object at all, or an object whose type is computed and
    is neither word. *)
Definition no_lodging_type (item : json) : Prop :=
  match item with
  | JDict d => exists t, jsonld_data_type d = Ok t /\ Json.is_lodging_type t = false
  | _ => True
  end.

(** A block that the scan passes over: it decodes, and none of its items
    has a lodging type. *)
Definition passed_over `{lib : PyLib} (script : node) : Prop :=
  exists data,
    json_loads (script_payload script) = Ok data
    /\ Forall no_lodging_type (block_items data).

(** A lodging entity whose aggregate rating is the object [a]. *)
Definition lodging_with_aggregate (d a : list (string * json)) : Prop :=
  (exists t, jsonld_data_type d = Ok t /\ Json.is_lodging_type t = true)
  /\ Json.get "aggregateRating" d = JDict a.

(** *** The spec's reading of two fields *)

(** The first contiguous run of digits of a text, as the specification
    words the derivation of [nights]. *)
Fixpoint digit_run (s : string) : string :=
  match s with
  | EmptyString => EmptyString
  | String c r => if PyStr.isdigit c then String c (digit_run r) else EmptyString
  end.

Definition first_digit_run (s : string) : string :=
  digit_run (PyStr.lstrip_by (fun c => negb (PyStr.isdigit c)) s).

(** The first non-empty value of a chain of sources, as the specification
    words the choice of [language]. *)
Fixpoint first_non_empty (sources : list (option string)) : option string :=
  match sources with
  | [] => None
  | Some s :: rest => if PyStr.is_empty s then first_non_empty rest else Some s
  | None :: rest => first_non_empty rest
  end.

Definition language_sources (language_hint : option string) (card : tag_in_context)
  : list (option string) :=
  [ Dom.get "lang" (card_node card);
    Dom.get "data-review-language" (card_node card);
    match Dom.find_parent "html" card with
    | Some html => Dom.get "lang" html
    | None => None
    end;
    language_hint ].

(* ===================================================================== *)
(** ** A library instance and documents to run the model on *)
(* ===================================================================== *)

Module Demo.

Definition text (s : string) : node := NText true s.

Definition document (body : list node) (html_attrs : list (string * string)) : node :=
  NElem "[document]" [] [NElem "html" html_attrs [NElem "body" [] body]].

Definition ld_json (payload : string) : node :=
  NElem "script" [("type", "application/ld+json")] [NText false payload].

Definition review_card (attrs : list (string * string)) (children : list node) : node :=
  NElem "div" (("data-testid", "review-card") :: attrs) children.

Definition img (src : string) : node := NElem "img" [("src", src)] [].

(** The payloads of the scripts, by name, and what each decodes to:
    [graph] is an object with an empty ["@graph"] list and no ["@type"],
    [organization] an object of type Organization, [hotel42] a Hotel with
    [aggregateRating.reviewCount] 42. *)
Definition payloads : list (string * json) :=
  [ ("graph", JDict [("@graph", JList [])]);
    ("organization", JDict [("@type", JStr "Organization")]);
    ("hotel42",
     JDict [("@type", JStr "Hotel");
            ("aggregateRating", JDict [("reviewCount", JInt 42)])]);
    ("hotel0",
     JDict [("@type", JStr "Hotel");
            ("aggregateRating", JDict [("reviewCount", JInt 0); ("ratingCount", JInt 17)])]) ].

Definition empty_page : node := NElem "[document]" [] [].

Definition graph_then_hotel : node :=
  document [ld_json "graph"; ld_json "hotel42"] [].

Definition organization_then_hotel : node :=
  document [ld_json "organization"; ld_json "hotel42"] [].

Definition hotel_zero_count : node := document [ld_json "hotel0"] [].

Definition stay_card : node :=
  review_card []
    [ NElem "h3" [] [text "Great"];
      NElem "span" [("data-testid", "review-stay-date")]
        [text "Stayed 2 nights in August 2022"] ].

Definition photo_card : node :=
  review_card []
    [ NElem "h3" [] [text "Great"];
      img "/img/a.jpg"; img "https://x.com/b.jpg"; img "https://x.com/b.jpg" ].

Definition title_only_card : node := review_card [] [NElem "h3" [] [text "Great"]].

Definition empty_card : node := review_card [] [NElem "div" [] []].

Definition empty_lang_card : node :=
  review_card [("lang", ""); ("data-review-language", "fr")]
    [NElem "h3" [] [text "Tres bien"]].

Definition one_review_page : node := document [title_only_card] [].

Definition mixed_page : node := document [empty_card; title_only_card] [].

Definition empty_lang_page : node := document [empty_lang_card] [("lang", "de")].

Definition first_page : node :=
  document [title_only_card;
            NElem "a" [("rel", "next"); ("href", "https://h.example/reviews?page=2")]
              [text "2"]] [].

Definition second_page : node :=
  document [title_only_card;
            NElem "a" [("aria-label", "Next page"); ("href", "https://h.example/reviews")]
              [text ">"]] [].

(** The pages, by the text the network serves for them; the network serves
    the URL itself as the text of a page. *)
Definition pages : list (string * node) :=
  [ ("https://h.example/graph", graph_then_hotel);
    ("https://h.example/organization", organization_then_hotel);
    ("https://h.example/zero", hotel_zero_count);
    ("https://h.example/one", one_review_page);
    ("https://h.example/mixed", mixed_page);
    ("https://h.example/lang", empty_lang_page);
    ("https://h.example/reviews", first_page);
    ("https://h.example/reviews?page=2", second_page) ].

Fixpoint assoc {A} (k : string) (l : list (string * A)) : option A :=
  match l with
  | [] => None
  | (k', v) :: r => if PyStr.eqb k k' then Some v else assoc k r
  end.

Definition lib : PyLib :=
  {| World := nat;
     BeautifulSoup := fun html =>
       match assoc html pages with Some d => d | None => empty_page end;
     json_loads := fun s =>
       match assoc s payloads with Some v => Ok v | None => Raise JSONDecodeError end;
     float_of_str := fun _ => None;
     iso_timestamp := fun _ => Raise ValueError;
     bracketed_host_ok := fun _ => true;
     urljoin := fun _ href => Ok href;
     session_get := fun url requests => (Some url, S requests) |}.

(** The card of [page] in its place in the document. *)
Definition first_card (page : node) : option tag_in_context :=
  head (review_cards page).

(** The [i]-th review card of [page]. *)
Definition card_at (page : node) (i : nat) : tag_in_context :=
  nth i (review_cards page) (InContext [] empty_page).

End Demo.

(* ===================================================================== *)
(** ** More vocabulary: the characters of a text *)
(* ===================================================================== *)

(** Every character of [s] passes the test [p]. *)
Fixpoint all_chars (p : ascii -> bool) (s : string) : Prop :=
  match s with
  | EmptyString => True
  | String c r => p c = true /\ all_chars p r
  end.

(** The same as a test. *)
Fixpoint every_char (p : ascii -> bool) (s : string) : bool :=
  match s with
  | EmptyString => true
  | String c r => p c && every_char p r
  end.

Definition not_space (c : ascii) : bool := negb (PyStr.isspace c).

(** The form [scheme://location], followed by nothing or by a path, a
    query or a fragment, read off the characters of the text: the scheme
    starts with an ASCII letter and goes on with letters, digits, [+],
    [-] and [.]; the location is not empty and runs up to the first [/],
    [?] or [#]. *)
Definition scheme_and_location (src scheme location : string) : Prop :=
  exists rest,
    Url.cleaned src = scheme +:+ "://" +:+ location +:+ rest
    /\ match scheme with
       | EmptyString => False
       | String c _ => PyStr.isalpha c = true
       end
    /\ all_chars Url.scheme_char scheme
    /\ location <> ""
    /\ all_chars (fun c => negb (PyStr.mem_char c "/?#")) location
    /\ match rest with
       | EmptyString => True
       | String c _ => PyStr.mem_char c "/?#" = true
       end.

(** A string that parses with a scheme and a host, both present: the
    absolute URL of the specification. *)
Definition has_scheme_and_host `{lib : PyLib} (src : string) : Prop :=
  exists scheme netloc host,
    urlparse src = Ok (scheme, netloc) /\ scheme <> "" /\ Url.hostname netloc = Some host.

(** A word: not empty and free of whitespace. *)
Definition word (w : string) : Prop := w <> "" /\ all_chars not_space w.

(** The text with each character replaced by its image. *)
Fixpoint map_string (f : ascii -> ascii) (s : string) : string :=
  match s with
  | EmptyString => EmptyString
  | String c r => String (f c) (map_string f r)
  end.

(** The number a string of decimal digits denotes. *)
Fixpoint decimal_from (acc : Z) (digits : string) : Z :=
  match digits with
  | EmptyString => acc
  | String c r => decimal_from (10 * acc + PyInt.digit_val c) r
  end.

Definition decimal_value (digits : string) : Z := decimal_from 0 digits.

Definition is_upper (c : ascii) : bool :=
  let n := PyStr.code c in ((65 <=? n) && (n <=? 90))%N.

(** What [_normalize_score_label] does to one character. *)
Definition key_char (c : ascii) : ascii :=
  let c := PyStr.lower_char c in
  let c := if Ascii.eqb " "%char c then "_"%char else c in
  if Ascii.eqb "-"%char c then "_"%char else c.

(** A text that does not start with whitespace. *)
Definition starts_clean (s : string) : Prop :=
  match s with
  | EmptyString => True
  | String c _ => PyStr.isspace c = false
  end.

Section ReadFromCard.

Context `{lib : PyLib}.

(** The elements the score, the guest's name and the guest's country are
    read from. *)
Definition score_element (c : node) : option node :=
  match Dom.find (testid "review-score") c with
  | Some n => Some n
  | None =>
      or_node (Dom.find (Dom.attr_has_token "class" "bui-review-score__badge") c)
              (Dom.find (Dom.attr_is "itemprop" "ratingValue") c)
  end.

Definition name_element (c : node) : option node :=
  or_node (Dom.find (testid "reviewer-name") c)
          (Dom.find (Dom.attr_has_token "class" "bui-avatar-block__title") c).

Definition country_element (c : node) : option node :=
  or_node (Dom.find (testid "reviewer-country") c)
          (Dom.find (Dom.attr_has_token "class" "bui-avatar-block__subtitle") c).

(** Every optional field of a record holds what the card gives for it
    and nothing else: the number [float] reads from the text of the score
    element, the timestamp the ISO parser reads from the [datetime] of the
    first [time] element, the text of the element of each text field when
    it is not empty, the number [int] reads from the digits of the stay
    element; where there is nothing to read, or the reader rejects it,
    the field is unset.  [checkIn] and [checkOut] are never set.  The
    language is one of its sources, and the photos are sources of
    images. *)
Definition read_from_card (language_hint : option string)
    (card : tag_in_context) (r : ReviewRecord) : Prop :=
  let c := card_node card in
  let score_text := _safe_text (score_element c) in
  score r
  = (if PyStr.is_empty score_text then None
     else float_of_str (PyStr.replace ","%char "." score_text))
  /\ reviewDate r
     = match Dom.find (Dom.is_tag "time") c with
       | Some time_node =>
           match Dom.get "datetime" time_node with
           | Some dt_val =>
               match iso_timestamp (PyStr.replace "Z"%char "+00:00" dt_val) with
               | Ok t => Some t
               | Raise _ => None
               end
           | None => None
           end
       | None => None
       end
  /\ guest_name (guest r) = or_None (_safe_text (name_element c))
  /\ guest_country (guest r) = or_None (_safe_text (country_element c))
  /\ guest_type (guest r) = or_None (_safe_text (Dom.find (testid "reviewer-type") c))
  /\ roomType (booking r)
     = or_None (_safe_text (Dom.find (testid "review-room-type") c))
  /\ customerType (booking r)
     = or_None (_safe_text (Dom.find (testid "review-customer-type") c))
  /\ nights (booking r)
     = match Dom.find (testid "review-stay-date") c with
       | Some stay_node =>
           let digits := PyStr.filter PyStr.isdigit (_safe_text (Some stay_node)) in
           if PyStr.is_empty digits then None else PyInt.of_str digits
       | None => None
       end
  /\ checkIn (booking r) = None
  /\ checkOut (booking r) = None
  /\ (forall l, language r = Some l -> Some l ∈ language_sources language_hint card)
  /\ (forall p, p ∈ photos r -> p ∈ photo_sources c).

End ReadFromCard.

Section ScoreVocabulary.

Context `{lib : PyLib}.

(** The score blocks of a document, in document order. *)
Definition score_blocks (soup : node) : list node :=
  map card_node (Dom.select (testid "review-subscore") soup).

(** The key and entry a score block stores, if it stores one. *)
Definition score_block_entry (score_block : node) : option (string * ScoreEntry) :=
  let label := _safe_text (Dom.find (testid "review-subscore-title") score_block) in
  let score_text := _safe_text (Dom.find (testid "review-subscore-value") score_block) in
  if PyStr.is_empty label || PyStr.is_empty score_text then None
  else
    match float_of_str (PyStr.replace ","%char "." score_text) with
    | Some score_val =>
        Some (_normalize_score_label label,
              {| entry_score := score_val; translation := label;
                 bounds_lower := None; bounds_higher := None |})
    | None => None
    end.

(** The last of the entries stored under [key]. *)
Definition last_entry (key : string) (entries : list (string * ScoreEntry))
  : option ScoreEntry :=
  snd <$> last (List.filter (fun p => bool_decide (fst p = key)) entries).

End ScoreVocabulary.

(** The result of a run that has parsed no page. *)
Definition empty_result : scrape_result :=
  {| hotelStats := {| totalReviews := Some 0; scores := ∅ |}; reviews := [] |}.




(* ===================================================================== *)
(** ** [merge_config] of [main.py] *)
(* ===================================================================== *)

(** The command-line arguments [merge_config] reads. *)
Record Namespace : Type := {
  args_hotel_url : option string;
  args_max_items : option Z;
  args_language : option string;
  args_output : option string;
  args_formats : option string;
}.

(** The dictionary [merge_config] returns; a value taken from a JSON file
    is whatever the file holds. *)
Record Config : Type := {
  cfg_hotel_url : json;
  cfg_max_items : Z;
  cfg_language : json;
  cfg_output_path : json;
  cfg_formats : json;
  cfg_settings : json;
}.

Module Main.

(** An optional argument as a Python value. *)
Definition of_arg (o : option string) : json :=
  match o with
  | Some s => JStr s
  | None => JNull
  end.

(** [v.get(k, default)] on an arbitrary value. *)
Definition method_get_default (k : string) (default : json) (v : json) : exc json :=
  match v with
  | JDict d => Ok (Json.get_default k default d)
  | _ => Raise AttributeError
  end.

(** [s.split(sep)] for a one-character separator. *)
Fixpoint split_on (sep : ascii) (s : string) : list string :=
  match s with
  | EmptyString => [EmptyString]
  | String c r =>
      if Ascii.eqb c sep then EmptyString :: split_on sep r
      else
        match split_on sep r with
        | piece :: pieces => String c piece :: pieces
        | [] => [String c EmptyString]
        end
  end.

(** [[fmt.strip().lower() for fmt in formats.split(",") if fmt.strip()]]. *)
Definition cli_formats (formats : string) : list string :=
  map (fun fmt => PyStr.lower (PyStr.strip fmt))
      (List.filter (fun fmt => negb (PyStr.is_empty (PyStr.strip fmt)))
                   (split_on ","%char formats)).

Section MergeConfig.

(** [str(v)] for a value that is not a string. *)
Variable repr : json -> string.

Definition py_str (v : json) : string :=
  match v with
  | JStr s => s
  | _ => repr v
  end.

Definition merge_config (settings : json) (input_cfg : list (string * json))
    (args : Namespace) : exc Config :=
  let hotel_url :=
    Json.or_ (of_arg (args_hotel_url args))
             (Json.or_ (Json.get "hotelUrl" input_cfg) (Json.get "hotel_url" input_cfg)) in
  if negb (Json.truthy hotel_url) then Raise ValueError
  else
    (let* max_items :=
       match args_max_items args with
       | Some n => Ok (JInt n)
       | None =>
           match Json.get "maxItems" input_cfg with
           | JNull => method_get_default "default_max_items" (JInt 250) settings
           | v => Ok v
           end
       end in
     let* max_items_int := Json.to_int max_items in
     let language_ :=
       Json.or_ (of_arg (args_language args)) (Json.get "language" input_cfg) in
     let* output_cfg := method_get_default "output" (JDict []) settings in
     let* output_path :=
       if Json.truthy (of_arg (args_output args)) then Ok (of_arg (args_output args))
       else if Json.truthy (Json.get "outputPath" input_cfg)
            then Ok (Json.get "outputPath" input_cfg)
            else
              let* path := Json.method_get "path" output_cfg in
              Ok (Json.or_ path (JStr "data/output.sample.json")) in
     let from_files :=
       match Json.get "formats" input_cfg with
       | JList l => Ok (JList (map (fun fmt => JStr (PyStr.lower (py_str fmt))) l))
       | _ => method_get_default "formats" (JList [JStr "json"]) output_cfg
       end in
     let* formats :=
       match args_formats args with
       | Some given =>
           if PyStr.is_empty given then from_files
           else Ok (JList (map JStr (cli_formats given)))
       | None => from_files
       end in
     let formats := if Json.truthy formats then formats else JList [JStr "json"] in
     Ok {| cfg_hotel_url := hotel_url; cfg_max_items := max_items_int;
           cfg_language := language_; cfg_output_path := output_path;
           cfg_formats := formats; cfg_settings := settings |})%exc.

End MergeConfig.

End Main.

(* ===================================================================== *)
(** ** [dataset_exporter.py]: the output paths *)
(* ===================================================================== *)

(** The file operations of [export_dataset], each of which can fail:
    [os.makedirs(d, exist_ok=True)], [open] with [json.dump],
    [DataFrame.to_csv] and [DataFrame.to_excel].  An operation is given
    the state of the file system and gives back how it ended and the state
    it left; what it writes is determined by the statistics and the
    reviews. *)
Class FileLib : Type := {
  Files : Type;
  makedirs : string -> Files -> exc unit * Files;
  dump_json : string -> HotelStatistics -> list ReviewRecord -> Files -> exc unit * Files;
  to_csv : string -> HotelStatistics -> list ReviewRecord -> Files -> exc unit * Files;
  to_excel : string -> HotelStatistics -> list ReviewRecord -> Files -> exc unit * Files;
}.

(** Statements in sequence over the file system: an exception ends the
    sequence and leaves the state reached. *)
Definition and_then `{files : FileLib} (first : Files -> exc unit * Files)
    (rest : Files -> exc unit * Files) (fs : Files) : exc unit * Files :=
  match first fs with
  | (Ok _, fs') => rest fs'
  | (Raise e, fs') => (Raise e, fs')
  end.

Definition nothing `{files : FileLib} (fs : Files) : exc unit * Files := (Ok tt, fs).

Module Exporter.

(** [s.rfind(c)] on the characters of a text; [None] is -1. *)
Fixpoint rfind (c : ascii) (l : list ascii) : option nat :=
  match l with
  | [] => None
  | x :: r =>
      match rfind c r with
      | Some i => Some (S i)
      | None => if Ascii.eqb x c then Some O else None
      end
  end.

(** [os.path.splitext(p)] with [/] as the separator: the extension starts
    at the last dot of the last component, unless nothing but dots stands
    before it there. *)
Definition splitext (p : string) : string * string :=
  let l := list_ascii_of_string p in
  let filename_index := match rfind "/"%char l with Some i => S i | None => O end in
  match rfind "."%char l with
  | Some dot_index =>
      if (filename_index <=? dot_index)%nat
         && existsb (fun c => negb (Ascii.eqb c "."%char))
                    (take (dot_index - filename_index) (drop filename_index l))
      then (string_of_list_ascii (take dot_index l),
            string_of_list_ascii (drop dot_index l))
      else (p, EmptyString)
  | None => (p, EmptyString)
  end.

(** The key a format name is filed under, if it is a known name. *)
Definition format_key (fmt_lower : string) : option string :=
  if PyStr.eqb fmt_lower "json" then Some "json"
  else if PyStr.eqb fmt_lower "csv" then Some "csv"
  else if PyStr.eqb fmt_lower "xlsx" || PyStr.eqb fmt_lower "excel" then Some "xlsx"
  else None.

(** The path written for a key. *)
Definition target (base_output_path : string) (key : string) : string :=
  let '(root, ext) := splitext base_output_path in
  let keeps :=
    if PyStr.eqb key "xlsx" then PyStr.eqb ext ".xlsx" || PyStr.eqb ext ".xls"
    else PyStr.eqb ext ("." +:+ key) in
  if keeps || PyStr.is_empty ext then base_output_path
  else root +:+ "." +:+ key.

Definition _derive_paths (base_output_path : string) (formats : list string)
  : gmap string string :=
  let '(root, ext) := splitext base_output_path in
  foldl
    (fun paths fmt =>
       let fmt_lower := PyStr.lower fmt in
       if PyStr.eqb fmt_lower "json" then
         <["json" := if PyStr.eqb ext ".json" || PyStr.is_empty ext
                     then base_output_path else root +:+ ".json"]> paths
       else if PyStr.eqb fmt_lower "csv" then
         <["csv" := if PyStr.eqb ext ".csv" || PyStr.is_empty ext
                    then base_output_path else root +:+ ".csv"]> paths
       else if PyStr.eqb fmt_lower "xlsx" || PyStr.eqb fmt_lower "excel" then
         <["xlsx" := if (PyStr.eqb ext ".xlsx" || PyStr.eqb ext ".xls")
                        || PyStr.is_empty ext
                     then base_output_path else root +:+ ".xlsx"]> paths
       else paths)
    ∅ formats.

(** [os.path.dirname(p)] with [/] as the separator. *)
Definition dirname (p : string) : string :=
  let l := list_ascii_of_string p in
  let i := match rfind "/"%char l with Some i => S i | None => O end in
  let head := string_of_list_ascii (take i l) in
  if existsb (fun c => negb (Ascii.eqb c "/"%char)) (take i l)
  then PyStr.rstrip_by (fun c => Ascii.eqb c "/"%char) head
  else head.

(** The key [_derive_paths] inserts first: a dict keeps its keys in the
    order of their first insertion, so this is the key of the first
    format with a known name. *)
Definition first_key (formats : list string) : option string :=
  head (omap (fun fmt => format_key (PyStr.lower fmt)) formats).

(** [list(paths.values())[0]]. *)
Definition first_path (base_output_path : string) (formats : list string)
  : exc string :=
  match first_key formats with
  | Some key =>
      match _derive_paths base_output_path formats !! key with
      | Some p => Ok p
      | None => Raise IndexError
      end
  | None => Raise IndexError
  end.

Definition export_dataset `{files : FileLib} (hotel_stats : HotelStatistics)
    (reviews : list ReviewRecord) (base_output_path : string) (formats : list string)
    (fs : Files) : exc unit * Files :=
  let paths := _derive_paths base_output_path formats in
  if bool_decide (paths = ∅) then (Raise ValueError, fs)
  else
    match first_path base_output_path formats with
    | Raise e => (Raise e, fs)
    | Ok first =>
        let dir := dirname first in
        and_then (makedirs (if PyStr.is_empty dir then "." else dir))
          (and_then
             (match paths !! "json" with
              | Some json_path => dump_json json_path hotel_stats reviews
              | None => nothing
              end)
             (and_then
                (match paths !! "csv" with
                 | Some csv_path => to_csv csv_path hotel_stats reviews
                 | None => nothing
                 end)
                (match paths !! "xlsx" with
                 | Some xlsx_path => to_excel xlsx_path hotel_stats reviews
                 | None => nothing
                 end)))
          fs
    end.

(** The [photos] column of a flattened review. *)
Definition photos_column (r : ReviewRecord) : string := PyStr.join ";" (photos r).

End Exporter.

(** Some format of the list is filed under [key]. *)
Definition format_wanted (key : string) (formats : list string) : bool :=
  existsb (fun fmt => bool_decide (Exporter.format_key (PyStr.lower fmt) = Some key))
          formats.

(** A file operation with the path it is given. *)
Inductive file_op : Type :=
| OpMakedirs (dir : string)
| OpJson (path : string)
| OpCsv (path : string)
| OpExcel (path : string).

Section FileOps.

Context `{files : FileLib}.
Variable hotel_stats : HotelStatistics.
Variable reviews_ : list ReviewRecord.

Definition run_op (op : file_op) : Files -> exc unit * Files :=
  match op with
  | OpMakedirs dir => makedirs dir
  | OpJson path => dump_json path hotel_stats reviews_
  | OpCsv path => to_csv path hotel_stats reviews_
  | OpExcel path => to_excel path hotel_stats reviews_
  end.

(** The operations one after the other, up to the first that raises. *)
Fixpoint run_ops (ops : list file_op) (fs : Files) : exc unit * Files :=
  match ops with
  | [] => (Ok tt, fs)
  | op :: rest =>
      match run_op op fs with
      | (Ok _, fs') => run_ops rest fs'
      | (Raise e, fs') => (Raise e, fs')
      end
  end.

End FileOps.

(** The writes of an export: one for each key that is wanted, JSON first,
    to the path derived for the key. *)
Definition writes_of (base : string) (formats : list string) : list file_op :=
  (if format_wanted "json" formats then [OpJson (Exporter.target base "json")] else [])
  ++ (if format_wanted "csv" formats then [OpCsv (Exporter.target base "csv")] else [])
  ++ (if format_wanted "xlsx" formats then [OpExcel (Exporter.target base "xlsx")] else []).

(** The directory an export makes sure of: that of the path of [key]. *)
Definition directory_of (base key : string) : string :=
  let dir := Exporter.dirname (Exporter.target base key) in
  if PyStr.is_empty dir then "." else dir.

(** A photo source that can stand in the [photos] column: not empty and
    free of semicolons. *)
Definition column_safe (src : string) : Prop :=
  src <> "" /\ all_chars (fun c => negb (Ascii.eqb c ";"%char)) src.

(* ===================================================================== *)
(** ** A second sample site: scores, dates and an unreadable count *)
(* ===================================================================== *)

Module Sample.

(** What [float] reads, by text. *)
Definition floats : list (string * pyfloat) :=
  [ ("8.5", FFin (85 # 10)); ("9.1", FFin (91 # 10)); ("7.9", FFin (79 # 10)) ].

(** What the ISO parser reads, by text. *)
Definition timestamps : list (string * Z) :=
  [ ("2022-08-26T00:00:00+00:00", 1661472000) ].

Definition payloads : list (string * json) :=
  [ ("hotel_comma",
     JDict [("@type", JStr "Hotel");
            ("aggregateRating", JDict [("reviewCount", JStr "1,234")])]);
    ("hotel42",
     JDict [("@type", JStr "Hotel");
            ("aggregateRating", JDict [("reviewCount", JInt 42)])]) ].

Definition score_block (label value : string) : node :=
  NElem "div" [("data-testid", "review-subscore")]
    [ NElem "span" [("data-testid", "review-subscore-title")] [Demo.text label];
      NElem "span" [("data-testid", "review-subscore-value")] [Demo.text value] ].

Definition scores_page : node :=
  Demo.document
    [ score_block "Staff" "8,5"; score_block "Free WiFi" "7.9";
      score_block "Comfort" "n/a"; score_block "staff" "9.1" ] [].

Definition dated_card : node :=
  Demo.review_card []
    [ NElem "time" [("datetime", "2022-08-26T00:00:00Z")] [Demo.text "26 August 2022"];
      NElem "span" [("data-testid", "reviewer-name")] [Demo.text "Ann"];
      NElem "span" [("data-testid", "reviewer-country")] [];
      NElem "p" [] [Demo.text " "];
      NElem "p" [] [Demo.text "Nice  rooms"];
      NElem "p" [] [Demo.text "Noisy"] ].

Definition dated_page : node := Demo.document [dated_card] [].

Definition comma_then_hotel : node :=
  Demo.document [Demo.ld_json "hotel_comma"; Demo.ld_json "hotel42"] [].

Definition pages : list (string * node) :=
  [ ("https://s.example/scores", scores_page);
    ("https://s.example/dated", dated_page);
    ("https://s.example/comma", comma_then_hotel) ].

Definition lib : PyLib :=
  {| World := nat;
     BeautifulSoup := fun html =>
       match Demo.assoc html pages with Some d => d | None => Demo.empty_page end;
     json_loads := fun s =>
       match Demo.assoc s payloads with Some v => Ok v | None => Raise JSONDecodeError end;
     float_of_str := fun s => Demo.assoc s floats;
     iso_timestamp := fun s =>
       match Demo.assoc s timestamps with Some t => Ok t | None => Raise ValueError end;
     bracketed_host_ok := fun _ => true;
     urljoin := fun _ href => Ok href;
     session_get := fun url requests => (Some url, S requests) |}.

(** A site of two pages that link to each other, read by a parser for
    which every text is a page: the text of a page is the address its next
    link points to. *)
Definition site : list (string * string) :=
  [ ("https://s.example/a", "https://s.example/b");
    ("https://s.example/b", "https://s.example/a") ].

Definition linking_lib : PyLib :=
  {| World := nat;
     BeautifulSoup := fun html =>
       Demo.document
         [ Demo.title_only_card;
           NElem "a" [("rel", "next"); ("href", html)] [Demo.text "next"] ] [];
     json_loads := fun _ => Raise JSONDecodeError;
     float_of_str := fun _ => None;
     iso_timestamp := fun _ => Raise ValueError;
     bracketed_host_ok := fun _ => true;
     urljoin := fun _ href => Ok href;
     session_get := fun url requests => (Demo.assoc url site, S requests) |}.

(** A file system that records the operations done on it, and whose
    Excel writer rejects a path without an extension. *)
Definition picky_files : FileLib :=
  {| Files := list (string * string);
     makedirs := fun dir fs => (Ok tt, fs ++ [("makedirs", dir)]);
     dump_json := fun path _ _ fs => (Ok tt, fs ++ [("json", path)]);
     to_csv := fun path _ _ fs => (Ok tt, fs ++ [("csv", path)]);
     to_excel := fun path _ _ fs =>
       if PyStr.is_empty (snd (Exporter.splitext path)) then (Raise ValueError, fs)
       else (Ok tt, fs ++ [("xlsx", path)]) |}.

(** A card with a photo whose address has a port and no host. *)
Definition hostless_card : node :=
  Demo.review_card []
    [ NElem "h3" [] [Demo.text "Great"]; Demo.img "http://:80/a.jpg" ].

(** A record that has nothing but a title and photos. *)
Definition record_with_photos (sources : list string) : ReviewRecord :=
  {| score := None; reviewDate := None; title := "Great";
     positiveContent := ""; negativeContent := ""; language := None;
     guest := {| guest_name := None; guest_country := None; guest_type := None |};
     booking := {| roomType := None; checkIn := None; checkOut := None;
                   nights := None; customerType := None |};
     photos := sources |}.

End Sample.

(* ===================================================================== *)
(** ** The model at work *)
(* ===================================================================== *)

Example split_collapses_whitespace :
  PyStr.join " " (PyStr.split "  Stayed 2
 nights ") = "Stayed 2 nights".
Proof. reflexivity. Qed.

Example int_accepts_sign_and_underscores : PyInt.of_str " -1_000 " = Some (-1000).
Proof. reflexivity. Qed.

Example int_rejects_decimal_point : PyInt.of_str "4.5" = None.
Proof. reflexivity. Qed.

Example label_to_key : _normalize_score_label "Value for Money" = "value_for_money".
Proof. reflexivity. Qed.

Example digits_are_joined : _extract_int_from_text "Based on 1,234 reviews" = Ok (Some 1234).
Proof. reflexivity. Qed.

Example no_digits_no_value : _extract_int_from_text "Based on reviews" = Ok None.
Proof. reflexivity. Qed.

Example urlparse_absolute :
  Url.urlparse (fun _ => true) "https://x.com/b.jpg" = Ok ("https", "x.com").
Proof. reflexivity. Qed.

Example urlparse_relative : Url.urlparse (fun _ => true) "/img/a.jpg" = Ok ("", "").
Proof. reflexivity. Qed.

Example urlparse_scheme_relative :
  Url.urlparse (fun _ => true) "//x.com/b.jpg" = Ok ("", "x.com").
Proof. reflexivity. Qed.

Example urlparse_open_bracket :
  Url.urlparse (fun _ => true) "http://[::1/b.jpg" = Raise ValueError.
Proof. reflexivity. Qed.

Example type_of_graph_member :
  jsonld_data_type [("@graph", JList [JDict [("@type", JList [JStr "Hotel"])]])]
  = Ok (JStr "Hotel").
Proof. reflexivity. Qed.

Example ratingCount_when_reviewCount_is_zero :
  parse (lib := Demo.lib) None "https://h.example/zero"
  = Ok ({| totalReviews := Some 17; scores := ∅ |}, []).
Proof. reflexivity. Qed.

Example pagination_stops_at_a_cycle :
  fetch_log (lib := Demo.lib) 3 5 (GenStart "https://h.example/reviews") 0%nat
  = ["https://h.example/reviews"; "https://h.example/reviews?page=2"].
Proof. reflexivity. Qed.

Example two_pages_two_reviews :
  option_map (fun r => List.length (reviews r))
    (scrape_reviews (lib := Demo.lib) 250 None 3 5 "https://h.example/reviews" 0%nat)
  = Some 2%nat.
Proof. reflexivity. Qed.

(* ===================================================================== *)
(** ** Calls that return *)
(* ===================================================================== *)

Lemma returns_Ok {A} (a : A) : returns (Ok a).
Proof. by exists a. Qed.

Lemma returns_bind {A B} (m : exc A) (k : A -> exc B) :
  returns m -> (forall a, returns (k a)) -> returns (exc_bind m k).
Proof. intros [a ->] Hk. apply Hk. Qed.

Lemma returns_try_any {A} (body handler : exc A) :
  returns handler -> returns (try_except body any_Exception handler).
Proof. intros Hh. destruct body; simpl; [apply returns_Ok | exact Hh]. Qed.

Lemma returns_for_each {A S} (step : S -> A -> exc S) (l : list A) :
  (forall s x, returns (step s x)) -> forall s, returns (for_each step l s).
Proof.
  intros Hstep. induction l as [|x l IH]; intros s; simpl.
  - apply returns_Ok.
  - destruct (Hstep s x) as [s' ->]. simpl. apply IH.
Qed.

Section ParserReturns.

Context `{lib : PyLib}.
Variable language_hint : option string.

Lemma py_int_raises s e : py_int s = Raise e -> e = ValueError.
Proof. unfold py_int. destruct (PyInt.of_str s); congruence. Qed.

Lemma py_float_raises s e : py_float s = Raise e -> e = ValueError.
Proof. unfold py_float. destruct (float_of_str s); congruence. Qed.

Lemma _extract_int_from_text_returns text : returns (_extract_int_from_text text).
Proof.
  unfold _extract_int_from_text.
  destruct (PyStr.is_empty _); [apply returns_Ok|].
  destruct (py_int _) as [n|e] eqn:E; simpl; [apply returns_Ok|].
  apply py_int_raises in E as ->. apply returns_Ok.
Qed.

Lemma strategy1_returns soup stats : exists stats', strategy1 soup stats = (stats', Ok tt).
Proof.
  unfold strategy1. destruct (scan_scripts _ _) as [stats' [[]|e]]; by exists stats'.
Qed.

Lemma strategy2_returns soup stats : returns (strategy2 soup stats).
Proof.
  unfold strategy2. destruct (is_None _); [|apply returns_Ok].
  destruct (Dom.find _ _); [|apply returns_Ok].
  apply returns_bind; [apply _extract_int_from_text_returns | intros; apply returns_Ok].
Qed.

Lemma score_block_step_returns stats block : returns (score_block_step stats block).
Proof.
  unfold score_block_step. destruct (_ || _); [apply returns_Ok|].
  destruct (py_float _) as [f|e] eqn:E; simpl; [apply returns_Ok|].
  apply py_float_raises in E as ->. apply returns_Ok.
Qed.

Lemma _extract_hotel_stats_returns soup : returns (_extract_hotel_stats soup).
Proof.
  unfold _extract_hotel_stats.
  destruct (strategy1_returns soup {| totalReviews := None; scores := ∅ |}) as [s1 ->].
  simpl. apply returns_bind; [apply strategy2_returns|].
  intros s2. apply returns_for_each, score_block_step_returns.
Qed.

Lemma _parse_score_returns card : returns (_parse_score card).
Proof.
  unfold _parse_score. destruct (PyStr.is_empty _); [apply returns_Ok|].
  destruct (py_float _) as [f|e] eqn:E; simpl; [apply returns_Ok|].
  apply py_float_raises in E as ->. apply returns_Ok.
Qed.

Lemma _parse_review_date_returns card : returns (_parse_review_date card).
Proof.
  unfold _parse_review_date. apply returns_bind.
  - destruct (Dom.find _ _); [|apply returns_Ok].
    destruct (Dom.get _ _); [|apply returns_Ok].
    apply returns_try_any, returns_Ok.
  - intros [t|]; [apply returns_Ok|]. destruct (PyStr.is_empty _); apply returns_Ok.
Qed.

Lemma _parse_booking_info_returns card : returns (_parse_booking_info card).
Proof.
  unfold _parse_booking_info. apply returns_bind.
  - destruct (Dom.find _ _); [apply _extract_int_from_text_returns | apply returns_Ok].
  - intros; apply returns_Ok.
Qed.

Lemma photo_step_returns photos img : returns (photo_step photos img).
Proof.
  unfold photo_step. destruct (or_str _ _); [|apply returns_Ok].
  apply returns_try_any, returns_Ok.
Qed.

Lemma _parse_photos_returns card : returns (_parse_photos card).
Proof.
  unfold _parse_photos. apply returns_bind.
  - apply returns_for_each, photo_step_returns.
  - intros; apply returns_Ok.
Qed.

(** What the card is turned into, field by field, once every call has
    returned. *)
Lemma _parse_single_review_returns card :
  exists score_ review_date booking_ photos_,
    _parse_score (card_node card) = Ok score_ /\
    _parse_review_date (card_node card) = Ok review_date /\
    _parse_booking_info (card_node card) = Ok booking_ /\
    _parse_photos (card_node card) = Ok photos_ /\
    _parse_single_review language_hint card =
      Ok (let title_ := _parse_title (card_node card) in
          let pn := _parse_review_text (card_node card) in
          if PyStr.is_empty (fst pn) && PyStr.is_empty (snd pn) && PyStr.is_empty title_
          then None
          else Some {| score := score_; reviewDate := review_date; title := title_;
                       positiveContent := fst pn; negativeContent := snd pn;
                       language := or_str (_parse_language card) language_hint;
                       guest := _parse_guest_info (card_node card);
                       booking := booking_; photos := photos_ |}).
Proof.
  destruct (_parse_score_returns (card_node card)) as [sc Hsc].
  destruct (_parse_review_date_returns (card_node card)) as [rd Hrd].
  destruct (_parse_booking_info_returns (card_node card)) as [bk Hbk].
  destruct (_parse_photos_returns (card_node card)) as [ph Hph].
  exists sc, rd, bk, ph. repeat split; try assumption.
  unfold _parse_single_review. rewrite Hsc, Hrd. simpl.
  destruct (_parse_review_text (card_node card)) as [pos neg]. simpl.
  rewrite Hbk, Hph. simpl. by destruct (_ && _).
Qed.

Lemma review_step_spec reviews card :
  review_step language_hint reviews card =
    Ok (reviews ++ match review_of language_hint card with Some r => [r] | None => [] end).
Proof.
  unfold review_step, review_of.
  destruct (_parse_single_review_returns card) as (? & ? & ? & ? & _ & _ & _ & _ & ->).
  simpl. destruct (_ && _); simpl; [by rewrite app_nil_r | done].
Qed.

Lemma for_each_review_step cards reviews :
  for_each (review_step language_hint) cards reviews =
    Ok (reviews ++ omap (review_of language_hint) cards).
Proof.
  revert reviews. induction cards as [|c cards IH]; intros reviews; simpl.
  - by rewrite app_nil_r.
  - rewrite review_step_spec. simpl. rewrite IH.
    destruct (review_of language_hint c); simpl; by rewrite <- app_assoc.
Qed.

Lemma _extract_reviews_spec soup :
  _extract_reviews language_hint soup =
    Ok (omap (review_of language_hint) (review_cards soup)).
Proof. unfold _extract_reviews. by rewrite for_each_review_step. Qed.

Lemma parse_spec html :
  exists observed,
    _extract_hotel_stats (BeautifulSoup html) = Ok observed /\
    parse language_hint html =
      Ok (let reviews :=
            omap (review_of language_hint) (review_cards (BeautifulSoup html)) in
          (if is_None (totalReviews observed)
           then set_totalReviews (Some (Z.of_nat (List.length reviews))) observed
           else observed, reviews)).
Proof.
  destruct (_extract_hotel_stats_returns (BeautifulSoup html)) as [observed Hobs].
  exists observed. split; [done|].
  unfold parse. rewrite Hobs. simpl. by rewrite _extract_reviews_spec.
Qed.

End ParserReturns.


(* ===================================================================== *)
(** ** What strategy 1 and the score blocks leave alone *)
(* ===================================================================== *)

Section StatsInvariants.

Context `{lib : PyLib}.

Lemma is_empty_true s : PyStr.is_empty s = true <-> s = "".
Proof. destruct s; simpl; split; congruence. Qed.

Lemma is_empty_false s : PyStr.is_empty s = false <-> s <> "".
Proof. destruct s; simpl; split; congruence. Qed.

Lemma populate_scores item stats stats' :
  _populate_stats_from_jsonld item stats = Ok stats' -> scores stats' = scores stats.
Proof.
  unfold _populate_stats_from_jsonld. destruct item; try (intros [= <-]; done).
  destruct (jsonld_data_type fields) as [t|e]; simpl; [|done].
  destruct (negb _); [intros [= <-]; done|].
  destruct (Json.or_ _ _); try (intros [= <-]; done).
  destruct (_ && _); [|intros [= <-]; done].
  destruct (Json.to_int _) as [n|e]; simpl; [intros [= <-]; done|].
  destruct (_ || _); [intros [= <-]; done | done].
Qed.

Lemma populate_keeps_total item stats stats' n :
  totalReviews stats = Some n ->
  _populate_stats_from_jsonld item stats = Ok stats' -> stats' = stats.
Proof.
  intros Hn. unfold _populate_stats_from_jsonld. destruct item; try (intros [= <-]; done).
  destruct (jsonld_data_type fields) as [t|e]; simpl; [|done].
  destruct (negb _); [intros [= <-]; done|].
  destruct (Json.or_ _ _); try (intros [= <-]; done).
  rewrite Hn. simpl. rewrite andb_false_r. by intros [= <-].
Qed.

Lemma populate_items_scores items stats :
  scores (fst (populate_items items stats)) = scores stats.
Proof.
  revert stats. induction items as [|item items IH]; intros stats; simpl; [done|].
  destruct (_populate_stats_from_jsonld item stats) as [s'|e] eqn:E; simpl; [|done].
  rewrite IH. by apply populate_scores in E.
Qed.

Lemma populate_items_keeps_total items stats n :
  totalReviews stats = Some n -> fst (populate_items items stats) = stats.
Proof.
  intros Hn. induction items as [|item items IH]; simpl; [done|].
  destruct (_populate_stats_from_jsonld item stats) as [s'|e] eqn:E; simpl; [|done].
  apply (populate_keeps_total _ _ _ n Hn) in E as ->. exact IH.
Qed.

Lemma scan_scripts_scores scripts stats :
  scores (fst (scan_scripts scripts stats)) = scores stats.
Proof.
  revert stats. induction scripts as [|script scripts IH]; intros stats; simpl; [done|].
  destruct (json_loads _) as [data|e]; simpl; [|done].
  pose proof (populate_items_scores (match data with JList l => l | _ => [data] end) stats) as Hs.
  destruct (populate_items _ stats) as [s' [[]|e]]; simpl in *; [|done].
  by rewrite IH.
Qed.

(** First value found wins: a count once stored is not replaced. *)
Lemma scan_scripts_keeps_total scripts stats n :
  totalReviews stats = Some n -> fst (scan_scripts scripts stats) = stats.
Proof.
  intros Hn. induction scripts as [|script scripts IH]; simpl; [done|].
  destruct (json_loads _) as [data|e]; simpl; [|done].
  pose proof (populate_items_keeps_total
                (match data with JList l => l | _ => [data] end) stats n Hn) as Hs.
  destruct (populate_items _ stats) as [s' [[]|e]]; simpl in *; subst s'; done.
Qed.

Lemma strategy2_scores soup stats stats' :
  strategy2 soup stats = Ok stats' -> scores stats' = scores stats.
Proof.
  unfold strategy2. destruct (is_None _); [|by intros [= <-]].
  destruct (Dom.find _ _); [|by intros [= <-]].
  destruct (_extract_int_from_text _); simpl; [by intros [= <-] | done].
Qed.

Lemma strategy2_keeps_total soup stats n :
  totalReviews stats = Some n -> strategy2 soup stats = Ok stats.
Proof. intros Hn. unfold strategy2. by rewrite Hn. Qed.

Lemma score_block_step_total stats block stats' :
  score_block_step stats block = Ok stats' -> totalReviews stats' = totalReviews stats.
Proof.
  unfold score_block_step. destruct (_ || _); [by intros [= <-]|].
  destruct (py_float _); simpl; [by intros [= <-]|].
  destruct (is_ValueError _); [by intros [= <-] | done].
Qed.

Lemma score_blocks_total blocks stats stats' :
  for_each score_block_step blocks stats = Ok stats' ->
  totalReviews stats' = totalReviews stats.
Proof.
  revert stats. induction blocks as [|b blocks IH]; intros stats; simpl.
  - by intros [= <-].
  - destruct (score_block_step stats b) as [s1|e] eqn:E; simpl; [|done].
    intros H. apply IH in H. rewrite H. by apply score_block_step_total in E.
Qed.

(** [_extract_hotel_stats], with strategy 1 named. *)
Lemma _extract_hotel_stats_unfold soup :
  exists after1 after2 observed,
    fst (scan_scripts (ld_json_scripts soup) {| totalReviews := None; scores := ∅ |}) = after1
    /\ strategy2 soup after1 = Ok after2
    /\ for_each score_block_step
         (map card_node (Dom.select (testid "review-subscore") soup)) after2 = Ok observed
    /\ _extract_hotel_stats soup = Ok observed.
Proof.
  unfold _extract_hotel_stats, strategy1.
  destruct (scan_scripts _ _) as [after1 r]. simpl.
  destruct (strategy2_returns soup after1) as [after2 H2].
  destruct (returns_for_each score_block_step
              (map card_node (Dom.select (testid "review-subscore") soup))
              score_block_step_returns after2) as [observed H3].
  exists after1, after2, observed. repeat split; try done.
  destruct r as [[]|e]; simpl; rewrite H2; simpl; exact H3.
Qed.

End StatsInvariants.

(* ===================================================================== *)
(** ** The parser returns, and leaves unset what it cannot read *)
(* ===================================================================== *)

Section ParseProperties.

Context `{lib : PyLib}.
Variable language_hint : option string.

Lemma review_of_Some card r :
  review_of language_hint card = Some r <->
  _parse_single_review language_hint card = Ok (Some r).
Proof.
  unfold review_of. destruct (_parse_single_review _ _) as [[r'|]|e]; split; congruence.
Qed.

Lemma _parse_booking_info_fields c bk :
  _parse_booking_info c = Ok bk ->
  roomType bk = match Dom.find (testid "review-room-type") c with
                | Some n => or_None (_safe_text (Some n))
                | None => None
                end
  /\ checkIn bk = None
  /\ checkOut bk = None
  /\ customerType bk = match Dom.find (testid "review-customer-type") c with
                       | Some n => or_None (_safe_text (Some n))
                       | None => None
                       end
  /\ (lacks (testid "review-stay-date") c -> nights bk = None).
Proof.
  unfold _parse_booking_info, lacks.
  destruct (Dom.find (testid "review-stay-date") c) as [stay|];
    [destruct (_extract_int_from_text _) as [n|e]|]; simpl; try done;
    intros [= <-]; simpl; repeat split; done.
Qed.

Lemma record_unset_when_absent card r :
  _parse_single_review language_hint card = Ok (Some r) ->
  unset_when_absent language_hint card r.
Proof.
  destruct (_parse_single_review_returns language_hint card)
    as (sc & rd & bk & ph & Hsc & Hrd & Hbk & Hph & ->).
  simpl. destruct (_ && _); [done|]. intros [= <-]. unfold unset_when_absent, lacks. simpl.
  repeat split.
  - intros H1 H2 H3. revert Hsc. unfold _parse_score. rewrite H1, H2, H3. simpl. congruence.
  - intros H1. revert Hrd. unfold _parse_review_date. rewrite H1. simpl.
    destruct (PyStr.is_empty _); congruence.
  - intros H1 H2. unfold _parse_guest_info. rewrite H1, H2. reflexivity.
  - intros H1 H2. unfold _parse_guest_info. rewrite H1, H2. reflexivity.
  - intros H1. unfold _parse_guest_info. rewrite H1. reflexivity.
  - intros H1. by destruct (_parse_booking_info_fields _ _ Hbk) as (-> & _); rewrite H1.
  - intros H1. by apply (_parse_booking_info_fields _ _ Hbk).
  - intros H1. by destruct (_parse_booking_info_fields _ _ Hbk) as (_ & _ & _ & -> & _); rewrite H1.
  - by apply (_parse_booking_info_fields _ _ Hbk).
  - by apply (_parse_booking_info_fields _ _ Hbk).
  - intros H1. revert Hph. unfold _parse_photos. rewrite H1. simpl. by intros [= <-].
  - intros H1 H2 H3 ->. unfold _parse_language. rewrite H1, H2, H3. reflexivity.
Qed.

Lemma no_score_blocks_no_scores soup observed :
  Dom.select (testid "review-subscore") soup = [] ->
  _extract_hotel_stats soup = Ok observed -> scores observed = ∅.
Proof.
  intros Hsel.
  destruct (_extract_hotel_stats_unfold soup) as (a1 & a2 & obs & H1 & H2 & H3 & ->).
  intros [= <-]. rewrite Hsel in H3. simpl in H3. injection H3 as <-.
  apply strategy2_scores in H2. rewrite H2, <- H1. apply scan_scripts_scores.
Qed.

(** C3. A card whose title, positive content and negative content are all
    empty gives no record; a card with a title gives a record (with that
    title), whatever its contents; the sequence [parse] returns is the
    records of the cards that give one, in the order of the cards, and
    each record in it has a title, a positive or a negative content. *)
Theorem empty_cards_are_dropped :
  (forall card,
     _parse_title (card_node card) = "" ->
     _parse_review_text (card_node card) = ("", "") ->
     _parse_single_review language_hint card = Ok None
     /\ review_of language_hint card = None)
  /\ (forall card,
        _parse_title (card_node card) <> "" ->
        exists r,
          _parse_single_review language_hint card = Ok (Some r)
          /\ review_of language_hint card = Some r
          /\ title r = _parse_title (card_node card))
  /\ (forall html stats reviews,
        parse language_hint html = Ok (stats, reviews) ->
        reviews = omap (review_of language_hint) (review_cards (BeautifulSoup html))
        /\ Forall (fun r => title r <> "" \/ positiveContent r <> ""
                            \/ negativeContent r <> "") reviews).
Proof.
  split; [|split].
  - intros card Ht Hpn.
    destruct (_parse_single_review_returns language_hint card)
      as (sc & rd & bk & ph & _ & _ & _ & _ & E).
    unfold review_of. rewrite E, Ht, Hpn. by simpl.
  - intros card Ht.
    destruct (_parse_single_review_returns language_hint card)
      as (sc & rd & bk & ph & _ & _ & _ & _ & E).
    unfold review_of. rewrite E. simpl.
    apply is_empty_false in Ht. rewrite Ht, andb_false_r.
    eexists. repeat split.
  - intros html stats reviews Hp.
    destruct (parse_spec language_hint html) as (observed & _ & Hparse).
    rewrite Hparse in Hp. injection Hp as _ <-. split; [done|].
    apply Forall_forall. intros r Hr.
    apply list_elem_of_omap in Hr as (card & _ & Hrev).
    apply review_of_Some in Hrev.
    destruct (_parse_single_review_returns language_hint card)
      as (sc & rd & bk & ph & _ & _ & _ & _ & E).
    rewrite E in Hrev. simpl in Hrev.
    destruct (PyStr.is_empty (fst _)) eqn:E1;
      destruct (PyStr.is_empty (snd _)) eqn:E2;
      destruct (PyStr.is_empty (_parse_title _)) eqn:E3;
      simpl in Hrev; try discriminate; injection Hrev as <-; simpl;
      rewrite <- ?is_empty_false; auto.
Qed.

End ParseProperties.

(* ===================================================================== *)
(** ** Photos *)
(* ===================================================================== *)

Section Photos.

Context `{lib : PyLib}.

Lemma omap_pointwise {A B} (f g : A -> option B) (l : list A) :
  (forall x, f x = g x) -> omap f l = omap g l.
Proof. intros Hfg. induction l as [|x l IH]; csimpl; [done|]. by rewrite Hfg, IH. Qed.

Lemma omap_seq_S {B} (f : nat -> option B) (a n : nat) :
  omap f (seq (S a) n) = omap (fun i => f (S i)) (seq a n).
Proof. revert a. induction n as [|n IH]; intros a; csimpl; [done|]. by rewrite IH. Qed.

Lemma first_seen_after_cons (pre : list string) (p : string) (rest : list string) :
  first_seen_after pre (p :: rest) =
    (if bool_decide (p ∈ pre) then [] else [p]) ++ first_seen_after (pre ++ [p]) rest.
Proof.
  unfold first_seen_after. simpl. rewrite app_nil_r, omap_seq_S.
  rewrite (omap_pointwise _
             (fun i => match rest !! i with
                       | Some x =>
                           if bool_decide (x ∈ (pre ++ [p]) ++ take i rest)
                           then None else Some x
                       | None => None
                       end)).
  - by destruct (bool_decide (p ∈ pre)).
  - intros i. simpl. by rewrite <- app_assoc.
Qed.

(** The loop over [photos] with its [seen] set keeps first occurrences. *)
Lemma unique_loop_first_seen (photos : list string) :
  forall (seen : gset string) (acc pre : list string),
    (forall x, x ∈ seen <-> x ∈ pre) ->
    unique_loop seen acc photos = acc ++ first_seen_after pre photos.
Proof.
  induction photos as [|p rest IH]; intros seen acc pre Hseen; simpl.
  - by rewrite app_nil_r.
  - rewrite first_seen_after_cons.
    rewrite (bool_decide_ext (p ∈ seen) (p ∈ pre)) by apply Hseen.
    destruct (bool_decide (p ∈ pre)) eqn:E.
    + apply bool_decide_eq_true in E. simpl. apply IH.
      intros x. rewrite Hseen. set_solver.
    + simpl. rewrite (IH ({[p]} ∪ seen) (acc ++ [p]) (pre ++ [p])).
      * by rewrite <- app_assoc.
      * intros x. rewrite elem_of_union, elem_of_singleton, Hseen. set_solver.
Qed.

Lemma unique_loop_elem (photos : list string) :
  forall (seen : gset string) (acc : list string) (x : string),
    x ∈ unique_loop seen acc photos <-> x ∈ acc \/ (x ∈ photos /\ x ∉ seen).
Proof.
  induction photos as [|p rest IH]; intros seen acc x; simpl.
  - set_solver.
  - destruct (bool_decide (p ∈ seen)) eqn:E.
    + apply bool_decide_eq_true in E. rewrite IH. set_solver.
    + apply bool_decide_eq_false in E. rewrite IH.
      rewrite elem_of_app, elem_of_union, !elem_of_cons, elem_of_singleton, elem_of_nil.
      destruct (decide (x = p)) as [->|Hne]; naive_solver.
Qed.

Lemma unique_loop_NoDup (photos : list string) :
  forall (seen : gset string) (acc : list string),
    NoDup acc -> (forall x, x ∈ acc -> x ∈ seen) ->
    NoDup (unique_loop seen acc photos).
Proof.
  induction photos as [|p rest IH]; intros seen acc Hnd Hsub; simpl; [done|].
  destruct (bool_decide (p ∈ seen)) eqn:E.
  - by apply IH.
  - apply bool_decide_eq_false in E. apply IH.
    + apply NoDup_app. split; [done|]. split; [|apply NoDup_singleton].
      intros x Hx. rewrite elem_of_cons. intros [->|H]; [by apply E, Hsub | set_solver].
    + intros x. rewrite elem_of_app, elem_of_union. set_solver.
Qed.

Lemma is_absolute_url_spec src : is_absolute_url src = true <-> absolute_url src.
Proof.
  unfold is_absolute_url, absolute_url. destruct (urlparse src) as [[scheme netloc]|e].
  - rewrite andb_true_iff, !negb_true_iff, !is_empty_false. split.
    + intros [H1 H2]. by exists scheme, netloc.
    + intros (s' & n' & [= <- <-] & H1 & H2). done.
  - split; [done|]. by intros (? & ? & ? & _).
Qed.

Lemma photo_step_spec photos img :
  photo_step photos img =
    Ok (photos ++ List.filter is_absolute_url
                    (match or_str (img_source img) None with
                     | Some src => [src]
                     | None => []
                     end)).
Proof.
  unfold photo_step, is_absolute_url.
  destruct (or_str (img_source img) None) as [src|]; simpl; [|by rewrite app_nil_r].
  destruct (urlparse src) as [[scheme netloc]|e]; simpl; [|by rewrite app_nil_r].
  destruct (PyStr.is_empty scheme), (PyStr.is_empty netloc); simpl;
    by rewrite ?app_nil_r.
Qed.

Lemma photo_loop_spec imgs photos :
  for_each photo_step imgs photos =
    Ok (photos ++ List.filter is_absolute_url
                    (omap (fun img => or_str (img_source img) None) imgs)).
Proof.
  revert photos. induction imgs as [|img imgs IH]; intros photos; simpl.
  - by rewrite app_nil_r.
  - rewrite photo_step_spec. simpl. rewrite IH, <- app_assoc. f_equal. f_equal.
    destruct (or_str (img_source img) None) as [src|]; simpl; [|done].
    by destruct (is_absolute_url src).
Qed.

Lemma _parse_photos_spec card :
  _parse_photos card =
    Ok (first_seen (List.filter is_absolute_url (photo_sources card))).
Proof.
  unfold _parse_photos, photo_sources. rewrite photo_loop_spec. simpl.
  f_equal. unfold first_seen.
  rewrite (unique_loop_first_seen _ ∅ [] []) by set_solver. done.
Qed.

Lemma cut_at_colon_Some u a b :
  Url.cut_at_colon u = Some (a, b) -> u = a +:+ ":" +:+ b.
Proof.
  revert a. induction u as [|c u IH]; intros a; simpl; [done|].
  destruct (Ascii.eqb c ":"%char) eqn:E.
  - apply Ascii.eqb_eq in E as ->. by intros [= <- <-].
  - destruct (Url.cut_at_colon u) as [[a' b']|]; [|done].
    intros [= <- <-]. simpl. by rewrite (IH a' eq_refl).
Qed.

Lemma cut_at_colon_app a b :
  all_chars (fun c => negb (Ascii.eqb c ":"%char)) a ->
  Url.cut_at_colon (a +:+ ":" +:+ b) = Some (a, b).
Proof.
  induction a as [|c a IH]; simpl; [done|]. intros [Hc Ha].
  apply negb_true_iff in Hc. by rewrite Hc, (IH Ha).
Qed.

Lemma scheme_char_no_colon c :
  Url.scheme_char c = true -> negb (Ascii.eqb c ":"%char) = true.
Proof. destruct c as [[] [] [] [] [] [] [] []]; try reflexivity; discriminate. Qed.

Lemma scheme_chars_no_colon s :
  all_chars Url.scheme_char s -> all_chars (fun c => negb (Ascii.eqb c ":"%char)) s.
Proof.
  induction s as [|c s IH]; simpl; [done|]. intros [Hc Hs].
  split; [by apply scheme_char_no_colon | by apply IH].
Qed.

Lemma forallb_all_chars p s :
  forallb p (list_ascii_of_string s) = true <-> all_chars p s.
Proof.
  induction s as [|c s IH]; simpl; [done|]. by rewrite andb_true_iff, IH.
Qed.

Lemma take_netloc_split r :
  exists rest,
    r = Url.take_netloc r +:+ rest
    /\ all_chars (fun c => negb (PyStr.mem_char c "/?#")) (Url.take_netloc r)
    /\ match rest with
       | EmptyString => True
       | String c _ => PyStr.mem_char c "/?#" = true
       end.
Proof.
  induction r as [|c r (rest & Hr & Hloc & Hrest)]; [by exists ""|].
  cbn [Url.take_netloc].
  destruct (PyStr.mem_char c "/?#") eqn:E.
  - exists (String c r). by repeat split.
  - exists rest. split; [|split; [|done]].
    + change (String c r = String c (Url.take_netloc r +:+ rest)). f_equal. exact Hr.
    + cbn [all_chars]. split; [by rewrite E | done].
Qed.

Lemma take_netloc_app loc rest :
  all_chars (fun c => negb (PyStr.mem_char c "/?#")) loc ->
  match rest with
  | EmptyString => True
  | String c _ => PyStr.mem_char c "/?#" = true
  end ->
  Url.take_netloc (loc +:+ rest) = loc.
Proof.
  intros Hloc Hrest. induction loc as [|c loc IH].
  - change ("" +:+ rest) with rest.
    destruct rest as [|c r]; [done|]. cbn [Url.take_netloc]. by rewrite Hrest.
  - destruct Hloc as [Hc Hloc]. apply negb_true_iff in Hc.
    change (String c loc +:+ rest) with (String c (loc +:+ rest)).
    cbn [Url.take_netloc]. by rewrite Hc, (IH Hloc).
Qed.

Lemma brackets_ok_spec host_ok netloc :
  Url.brackets_ok host_ok netloc = true
  <-> (let lb := PyStr.mem_char "["%char netloc in
       let rb := PyStr.mem_char "]"%char netloc in
       (lb && negb rb) || (rb && negb lb) = false
       /\ lb && rb && negb (host_ok netloc) = false).
Proof.
  unfold Url.brackets_ok. cbn zeta.
  destruct (PyStr.mem_char "[" netloc), (PyStr.mem_char "]" netloc), (host_ok netloc);
    simpl; split; (try done); intros []; done.
Qed.

Lemma after_slashes_Some u r : Url.after_slashes u = Some r <-> u = "//" +:+ r.
Proof.
  split; [|by intros ->].
  destruct u as [|s1 [|s2 u]]; try done.
  - destruct s1 as [[] [] [] [] [] [] [] []]; done.
  - destruct s1 as [[] [] [] [] [] [] [] []]; try done.
    destruct s2 as [[] [] [] [] [] [] [] []]; try done.
    by intros [= <-].
Qed.

Lemma match_slashes {A} (u : string) (f : string -> A) (d : A) :
  match u with
  | String "/"%char (String "/"%char r) => f r
  | _ => d
  end = match Url.after_slashes u with Some r => f r | None => d end.
Proof.
  destruct u as [|s1 [|s2 u]]; try done.
  - destruct s1 as [[] [] [] [] [] [] [] []]; done.
  - destruct s1 as [[] [] [] [] [] [] [] []]; try done.
    destruct s2 as [[] [] [] [] [] [] [] []]; done.
Qed.

(** What [urlparse] accepts with a scheme and a network location is what
    has the form [scheme://location] with its brackets in order. *)
Lemma urlparse_form host_ok src scheme netloc :
  (Url.urlparse host_ok src = Ok (scheme, netloc) /\ scheme <> "" /\ netloc <> "")
  <-> exists written,
        scheme = PyStr.lower written
        /\ scheme_and_location src written netloc
        /\ Url.brackets_ok host_ok netloc = true.
Proof.
  unfold Url.urlparse. fold (Url.cleaned src).
  destruct (Url.split_scheme (Url.cleaned src)) as [sch u] eqn:Esplit.
  rewrite match_slashes. split.
  - intros (Hparse & Hs & Hn). revert Hparse.
    destruct (Url.after_slashes u) as [r|] eqn:Eu; [|by intros [= <- <-]].
    apply (proj1 (after_slashes_Some _ _)) in Eu. subst u. cbn zeta.
    destruct (_ || _) eqn:Eb1; [done|].
    destruct (_ && negb (host_ok _)) eqn:Eb2; [done|].
    intros [= <- <-].
    revert Esplit. unfold Url.split_scheme.
    destruct (Url.cut_at_colon (Url.cleaned src)) as [[[|c0 a] after]|] eqn:Ecut;
      try (intros [= <- _]; done).
    destruct (PyStr.isalpha c0 && _) eqn:Evalid; [|intros [= <- _]; done].
    intros [= <- ->].
    apply andb_true_iff in Evalid as [Halpha Hchars].
    apply forallb_all_chars in Hchars.
    apply cut_at_colon_Some in Ecut.
    exists (String c0 a). split; [done|]. split.
    + destruct (take_netloc_split r) as (rest & Hr & Hloc & Hrest).
      exists rest. split.
      { rewrite Ecut. rewrite Hr at 1. reflexivity. }
      split; [done|]. split; [done|]. split; [done|]. split; done.
    + by apply brackets_ok_spec.
  - intros (written & -> & (rest & Hform & Hfirst & Hchars & Hne & Hloc & Hrest) & Hbr).
    destruct written as [|c0 a]; [done|].
    revert Esplit. unfold Url.split_scheme. rewrite Hform.
    change (String c0 a +:+ "://" +:+ netloc +:+ rest)
      with (String c0 a +:+ ":" +:+ ("//" +:+ netloc +:+ rest)).
    rewrite cut_at_colon_app by (by apply scheme_chars_no_colon).
    rewrite Hfirst. rewrite (proj2 (forallb_all_chars _ _) Hchars). cbn [andb].
    intros [= <- <-].
    change (Url.after_slashes ("//" +:+ netloc +:+ rest)) with (Some (netloc +:+ rest)).
    cbn iota beta zeta. rewrite (take_netloc_app _ _ Hloc Hrest).
    apply brackets_ok_spec in Hbr as [Hb1 Hb2]. cbn zeta in Hb1, Hb2.
    rewrite Hb1, Hb2. split; [done|]. split; [|done].
    by destruct c0.
Qed.

Lemma host_needs_location (p : string) :
  has_scheme_and_host p -> absolute_url p.
Proof.
  intros (scheme & netloc & host & Hparse & Hs & Hhost).
  exists scheme, netloc. split; [done|]. split; [done|]. by intros ->.
Qed.

(** C5. The photos of a card are the sources of its images that
    [urlparse] splits into a scheme and a network location, both present,
    each kept at its first occurrence and in the order of the images:
    every photo is such a source, no photo occurs twice, and every such
    source is among the photos; a source with a scheme and a host is one
    of them.  These are the texts of the form [scheme://location] with a
    location that is not empty and whose brackets are in order; the
    location need not name a host.  The sources /img/a.jpg,
    https://x.com/b.jpg, https://x.com/b.jpg give the one photo
    https://x.com/b.jpg. *)
Theorem photos_absolute_first_seen :
  (forall card,
     exists photos_,
       _parse_photos card = Ok photos_
       /\ photos_ = first_seen (List.filter is_absolute_url (photo_sources card))
       /\ NoDup photos_
       /\ (forall p, p ∈ photos_ <-> p ∈ photo_sources card /\ absolute_url p)
       /\ (forall p, p ∈ photo_sources card -> has_scheme_and_host p -> p ∈ photos_))
  /\ (forall p,
        absolute_url p
        <-> exists scheme location,
              scheme_and_location p scheme location
              /\ Url.brackets_ok bracketed_host_ok location = true)
  /\ (forall card,
        photo_sources card = ["/img/a.jpg"; "https://x.com/b.jpg"; "https://x.com/b.jpg"] ->
        ~ absolute_url "/img/a.jpg"
        /\ _parse_photos card = Ok ["https://x.com/b.jpg"]).
Proof.
  split; [|split].
  - intros card. eexists. split; [apply _parse_photos_spec|]. split; [done|].
    unfold first_seen. rewrite <- (app_nil_l (first_seen_after _ _)).
    rewrite <- (unique_loop_first_seen _ ∅ [] []) by set_solver.
    assert (forall p,
              p ∈ unique_loop ∅ [] (List.filter is_absolute_url (photo_sources card))
              <-> p ∈ photo_sources card /\ absolute_url p) as Hin.
    { intros p. rewrite unique_loop_elem, <- is_absolute_url_spec.
      assert (p ∈ List.filter is_absolute_url (photo_sources card)
              <-> p ∈ photo_sources card /\ is_absolute_url p = true) as ->.
      { rewrite !list_elem_of_In. apply filter_In. }
      set_solver. }
    split; [|split].
    + apply unique_loop_NoDup; [apply NoDup_nil_2 | set_solver].
    + exact Hin.
    + intros p Hp Hhost. apply Hin. split; [done|]. by apply host_needs_location.
  - intros p. unfold absolute_url, urlparse. split.
    + intros (scheme & netloc & H).
      apply urlparse_form in H as (written & _ & Hform & Hbr).
      by exists written, netloc.
    + intros (written & location & Hform & Hbr).
      exists (PyStr.lower written), location.
      apply urlparse_form. by exists written.
  - intros card Hsrc. split.
    + rewrite <- is_absolute_url_spec. by vm_compute.
    + rewrite _parse_photos_spec, Hsrc. reflexivity.
Qed.

End Photos.

(* ===================================================================== *)
(** ** Structured data: which count is stored *)
(* ===================================================================== *)

Section StructuredData.

Context `{lib : PyLib}.
Variable language_hint : option string.

Lemma populate_no_lodging_type item stats :
  no_lodging_type item -> _populate_stats_from_jsonld item stats = Ok stats.
Proof.
  destruct item; simpl; try done.
  intros (t & -> & Ht). simpl. by rewrite Ht.
Qed.

Lemma populate_items_passed items stats :
  Forall no_lodging_type items -> populate_items items stats = (stats, Ok tt).
Proof.
  induction 1 as [|item items Hitem _ IH]; simpl; [done|].
  by rewrite (populate_no_lodging_type _ _ Hitem).
Qed.

Lemma scan_scripts_passed_over before rest stats :
  Forall passed_over before ->
  scan_scripts (before ++ rest) stats = scan_scripts rest stats.
Proof.
  induction 1 as [|script before (data & Hload & Hitems) _ IH]; simpl; [done|].
  rewrite Hload. unfold block_items in Hitems.
  by rewrite (populate_items_passed _ _ Hitems).
Qed.

Lemma populate_items_app_passed before rest stats :
  Forall no_lodging_type before ->
  populate_items (before ++ rest) stats = populate_items rest stats.
Proof.
  induction 1 as [|item before Hitem _ IH]; simpl; [done|].
  by rewrite (populate_no_lodging_type _ _ Hitem).
Qed.

(** A block in which a lodging entity stores a count: the count is there
    when the scan is over, however the scan ends. *)
Lemma scan_scripts_stores script rest stats data items_before d items_after n :
  json_loads (script_payload script) = Ok data ->
  block_items data = items_before ++ JDict d :: items_after ->
  Forall no_lodging_type items_before ->
  _populate_stats_from_jsonld (JDict d) stats = Ok (set_totalReviews (Some n) stats) ->
  fst (scan_scripts (script :: rest) stats) = set_totalReviews (Some n) stats.
Proof.
  intros Hload Hitems Hbefore Hstore. cbn [scan_scripts]. rewrite Hload.
  unfold block_items in Hitems. rewrite Hitems.
  rewrite (populate_items_app_passed _ _ _ Hbefore). cbn [populate_items].
  rewrite Hstore.
  pose proof (populate_items_keeps_total items_after
                (set_totalReviews (Some n) stats) n eq_refl) as Hk.
  destruct (populate_items items_after _) as [s1 r]. simpl in Hk. subst s1.
  destruct r as [[]|e]; [|done].
  by apply (scan_scripts_keeps_total rest (set_totalReviews (Some n) stats) n).
Qed.

Lemma scan_scripts_cons_dict script rest stats d :
  json_loads (script_payload script) = Ok (JDict d) ->
  scan_scripts (script :: rest) stats =
    match _populate_stats_from_jsonld (JDict d) stats with
    | Ok stats' => scan_scripts rest stats'
    | Raise e => (stats, Raise e)
    end.
Proof.
  intros Hload. cbn [scan_scripts]. rewrite Hload. cbn [populate_items].
  by destruct (_populate_stats_from_jsonld (JDict d) stats).
Qed.

(** What a lodging entity with an aggregate-rating object does to the
    statistics: the count comes from [reviewCount or ratingCount]. *)
Lemma populate_lodging d a stats :
  lodging_with_aggregate d a ->
  _populate_stats_from_jsonld (JDict d) stats =
    let review_count := Json.or_ (Json.get "reviewCount" a) (Json.get "ratingCount" a) in
    if Json.truthy review_count && is_None (totalReviews stats) then
      try_except
        (let* n := Json.to_int review_count in Ok (set_totalReviews (Some n) stats))%exc
        (fun e => is_TypeError e || is_ValueError e) (Ok stats)
    else Ok stats.
Proof.
  intros [(t & Ht & Hlodging) Hagg]. unfold _populate_stats_from_jsonld.
  rewrite Ht. simpl. rewrite Hlodging, Hagg. simpl.
  unfold Json.or_ at 1. by destruct a.
Qed.

Lemma populate_lodging_stores d a stats count n :
  lodging_with_aggregate d a ->
  Json.or_ (Json.get "reviewCount" a) (Json.get "ratingCount" a) = count ->
  Json.truthy count = true ->
  Json.to_int count = Ok n ->
  totalReviews stats = None ->
  _populate_stats_from_jsonld (JDict d) stats = Ok (set_totalReviews (Some n) stats).
Proof.
  intros Hl Hc Ht Hn Hs. rewrite (populate_lodging _ _ _ Hl). simpl.
  by rewrite Hc, Ht, Hs, Hn.
Qed.

(** The count [parse] returns once strategy 1 has stored one. *)
Lemma parse_total_from_strategy1 html stats1 n :
  fst (scan_scripts (ld_json_scripts (BeautifulSoup html))
         {| totalReviews := None; scores := ∅ |}) = stats1 ->
  totalReviews stats1 = Some n ->
  exists stats reviews,
    parse language_hint html = Ok (stats, reviews) /\ totalReviews stats = Some n.
Proof.
  intros H1 Hn.
  destruct (parse_spec language_hint html) as (observed & Hobs & Hparse).
  destruct (_extract_hotel_stats_unfold (BeautifulSoup html))
    as (a1 & a2 & obs & E1 & E2 & E3 & E).
  rewrite E in Hobs. injection Hobs as ->.
  rewrite H1 in E1. subst a1.
  rewrite (strategy2_keeps_total _ _ _ Hn) in E2. injection E2 as <-.
  apply score_blocks_total in E3. rewrite Hn in E3.
  eexists _, _. split; [exact Hparse|]. simpl. by rewrite E3.
Qed.

(** C6, as the code has it.  When everything before a lodging entity is
    passed over by the scan (each earlier block decodes, and each item of
    it, like each earlier item of the entity's own block, is no object or
    an object whose type is computed and is no lodging type), and the
    entity's aggregate rating carries a [reviewCount] that is a non-zero
    number [n] (42, say), [parse] returns [totalReviews = n].  Within a
    lodging entity the count is [reviewCount] when that is true in
    Python's sense and [ratingCount] otherwise, and a count once stored is
    not replaced by a later block.  A block on which the scan raises is
    not passed over: the scan ends there. *)
Theorem first_lodging_count_wins :
  (forall html before hit after data items_before d items_after a n,
     ld_json_scripts (BeautifulSoup html) = before ++ hit :: after ->
     Forall passed_over before ->
     json_loads (script_payload hit) = Ok data ->
     block_items data = items_before ++ JDict d :: items_after ->
     Forall no_lodging_type items_before ->
     lodging_with_aggregate d a ->
     Json.get "reviewCount" a = JInt n ->
     n <> 0 ->
     exists stats reviews_,
       parse language_hint html = Ok (stats, reviews_)
       /\ totalReviews stats = Some n)
  /\ (forall d a stats count n,
        lodging_with_aggregate d a ->
        totalReviews stats = None ->
        count = (if Json.truthy (Json.get "reviewCount" a)
                 then Json.get "reviewCount" a
                 else Json.get "ratingCount" a) ->
        Json.truthy count = true ->
        Json.to_int count = Ok n ->
        _populate_stats_from_jsonld (JDict d) stats
        = Ok (set_totalReviews (Some n) stats))
  /\ (forall scripts stats n,
        totalReviews stats = Some n ->
        fst (scan_scripts scripts stats) = stats).
Proof.
  split; [|split].
  - intros html before hit after data items_before d items_after a n
      Hscripts Hbefore Hload Hitems Hitems_before Hl Hrc Hn.
    apply (parse_total_from_strategy1 html
             (set_totalReviews (Some n) {| totalReviews := None; scores := ∅ |}) n);
      [|done].
    rewrite Hscripts, (scan_scripts_passed_over _ _ _ Hbefore).
    apply (scan_scripts_stores _ _ _ data items_before d items_after n);
      try done.
    apply (populate_lodging_stores d a _ (JInt n) n Hl); try done.
    + unfold Json.or_. rewrite Hrc. simpl.
      by destruct (n =? 0) eqn:E; [apply Z.eqb_eq in E|].
    + simpl. by destruct (n =? 0) eqn:E; [apply Z.eqb_eq in E|].
  - intros d a stats count n Hl Hs Hc Ht Hn.
    by apply (populate_lodging_stores d a stats count n Hl).
  - intros scripts stats n Hn. by apply (scan_scripts_keeps_total _ _ n).
Qed.

(** C10. In a lodging entity whose aggregate rating has a [reviewCount]
    that is false in Python's sense (the number 0, for one, or a missing
    key), the count is read from [ratingCount]; when that is missing or
    false as well, the block stores nothing and the statistics go on to
    the later strategies as they were: a document with that one block gets
    its count from the subtitle element or, failing that, from the number
    of its records. *)
Theorem falsy_reviewCount_falls_back :
  Json.truthy (JInt 0) = false
  /\ Json.truthy (Json.get "reviewCount" []) = false
  /\ (forall d a stats,
        lodging_with_aggregate d a ->
        Json.truthy (Json.get "reviewCount" a) = false ->
        (forall n,
           Json.truthy (Json.get "ratingCount" a) = true ->
           Json.to_int (Json.get "ratingCount" a) = Ok n ->
           totalReviews stats = None ->
           _populate_stats_from_jsonld (JDict d) stats
           = Ok (set_totalReviews (Some n) stats))
        /\ (Json.truthy (Json.get "ratingCount" a) = false ->
            _populate_stats_from_jsonld (JDict d) stats = Ok stats))
  /\ (forall html hit d a,
        ld_json_scripts (BeautifulSoup html) = [hit] ->
        json_loads (script_payload hit) = Ok (JDict d) ->
        lodging_with_aggregate d a ->
        Json.truthy (Json.get "reviewCount" a) = false ->
        Json.truthy (Json.get "ratingCount" a) = false ->
        exists after2 stats reviews,
          strategy2 (BeautifulSoup html) {| totalReviews := None; scores := ∅ |}
          = Ok after2
          /\ parse language_hint html = Ok (stats, reviews)
          /\ totalReviews stats
             = match totalReviews after2 with
               | Some n => Some n
               | None => Some (Z.of_nat (List.length reviews))
               end).
Proof.
  split; [done|]. split; [done|]. split.
  - intros d a stats Hl Hrc. split.
    + intros n Ht Hn Hs.
      apply (populate_lodging_stores d a stats (Json.get "ratingCount" a) n Hl); try done.
      unfold Json.or_. by rewrite Hrc.
    + intros Hf. rewrite (populate_lodging _ _ _ Hl). simpl.
      unfold Json.or_. by rewrite Hrc, Hf.
  - intros html hit d a Hscripts Hload Hl Hrc Hf.
    destruct (parse_spec language_hint html) as (observed & Hobs & Hparse).
    destruct (_extract_hotel_stats_unfold (BeautifulSoup html))
      as (a1 & a2 & obs & E1 & E2 & E3 & E).
    rewrite E in Hobs. injection Hobs as ->.
    rewrite Hscripts, (scan_scripts_cons_dict _ _ _ _ Hload) in E1.
    rewrite (populate_lodging _ _ _ Hl) in E1. cbn zeta in E1.
    unfold Json.or_ in E1. rewrite Hrc, Hf in E1. simpl in E1. subst a1.
    apply score_blocks_total in E3.
    eexists a2, _, _. split; [exact E2|]. split; [exact Hparse|].
    simpl. rewrite <- E3. by destruct (totalReviews observed) eqn:Eo; simpl.
Qed.

End StructuredData.

(* ===================================================================== *)
(** ** Pagination: the pages fetched *)
(* ===================================================================== *)

Section Pagination.

Context `{lib : PyLib}.
Variable max_retries : Z.

Lemma fetch_log_done n w : fetch_log max_retries n GenDone w = [].
Proof. revert w. induction n as [|n IH]; intros w; simpl; [done|]. apply IH. Qed.

Lemma iter_pages_loop_log n current_url visited_urls w :
  fresh_log max_retries n ->
  NoDup (log_from max_retries n (iter_pages_loop max_retries current_url visited_urls w))
  /\ forall u,
       u ∈ log_from max_retries n (iter_pages_loop max_retries current_url visited_urls w) ->
       u ∉ visited_urls.
Proof.
  intros IH. unfold iter_pages_loop, log_from.
  destruct (negb (PyStr.is_empty current_url)) eqn:Hne; simpl;
    [|rewrite fetch_log_done; split; [apply NoDup_nil_2 | set_solver]].
  destruct (bool_decide (current_url ∈ visited_urls)) eqn:Hin; simpl;
    [rewrite fetch_log_done; split; [apply NoDup_nil_2 | set_solver]|].
  apply bool_decide_eq_false in Hin.
  destruct (_fetch max_retries current_url w) as [[html|] w']; simpl.
  - destruct (PyStr.is_empty html); simpl.
    + rewrite fetch_log_done. split; [apply NoDup_singleton | set_solver].
    + destruct (IH (GenYielded html current_url ({[current_url]} ∪ visited_urls)) w')
        as [Hnd Hfresh]. simpl in Hfresh. split.
      * apply NoDup_cons. split; [|done]. intros Hu. apply Hfresh in Hu. set_solver.
      * intros u. rewrite elem_of_cons. intros [->|Hu]; [done|].
        apply Hfresh in Hu. set_solver.
  - rewrite fetch_log_done. split; [apply NoDup_singleton | set_solver].
Qed.

Lemma fetch_log_fresh n : fresh_log max_retries n.
Proof.
  induction n as [|n IH]; intros g w; simpl.
  - split; [apply NoDup_nil_2 | set_solver].
  - destruct g as [start_url|html current_url visited_urls|]; simpl.
    + destruct (iter_pages_loop_log n start_url ∅ w IH) as [Hnd _]. split; [exact Hnd|].
      set_solver.
    + destruct (_find_next_page_url html current_url) as [[next_url|]|e]; simpl;
        try (rewrite fetch_log_done; split; [apply NoDup_nil_2 | set_solver]).
      destruct (PyStr.is_empty next_url); simpl;
        [rewrite fetch_log_done; split; [apply NoDup_nil_2 | set_solver]|].
      apply (iter_pages_loop_log n next_url visited_urls w IH).
    + rewrite fetch_log_done. split; [apply NoDup_nil_2 | set_solver].
Qed.

(** C8. However many times the generator is resumed, the URLs it has
    passed to [_fetch] are pairwise distinct; and when the resolution of
    the next page, by whichever of its three strategies, gives a URL that
    was visited before, the generator ends without fetching it. *)
Theorem no_url_fetched_twice :
  (forall start_url n w, NoDup (fetch_log max_retries n (GenStart start_url) w))
  /\ (forall html current_url visited_urls w next_url,
        _find_next_page_url html current_url = Ok (Some next_url) ->
        next_url ∈ visited_urls ->
        exists r,
          iter_pages_next max_retries (GenYielded html current_url visited_urls) w = Ok r
          /\ yielded r = None /\ fetched r = None /\ resumed r = GenDone)
  /\ (forall n g w u,
        u ∈ fetch_log max_retries n g w -> u ∉ visited_of g).
Proof.
  split; [|split].
  - intros start_url n w. apply fetch_log_fresh.
  - intros html current_url visited_urls w next_url Hnext Hin. simpl. rewrite Hnext. simpl.
    destruct (PyStr.is_empty next_url) eqn:E; simpl; [by eexists|].
    unfold iter_pages_loop. rewrite E. simpl. rewrite (bool_decide_eq_true_2 _ Hin). simpl.
    by eexists.
  - intros n g w. apply fetch_log_fresh.
Qed.

End Pagination.

(* ===================================================================== *)
(** ** The item cap *)
(* ===================================================================== *)

Section ItemCap.

Context `{lib : PyLib}.
Variable max_items : Z.
Variable language : option string.
Variable max_retries : Z.

Lemma append_reviews_cap page_reviews all_reviews :
  1 <= max_items ->
  Z.of_nat (List.length all_reviews) < max_items ->
  Z.of_nat (List.length (fst (append_reviews max_items page_reviews all_reviews))) <= max_items
  /\ (snd (append_reviews max_items page_reviews all_reviews) = Ok tt ->
      Z.of_nat (List.length (fst (append_reviews max_items page_reviews all_reviews)))
      < max_items).
Proof.
  intros Hpos. revert all_reviews.
  induction page_reviews as [|r rest IH]; intros all_reviews Hlt; simpl.
  - split; [lia | done].
  - destruct (Z.of_nat (List.length (all_reviews ++ [r])) >=? max_items) eqn:E; simpl.
    + split; [|done]. rewrite length_app in *. simpl in *. lia.
    + apply IH. lia.
Qed.

(** With a cap of one or more the loop never holds more than the cap. *)
Lemma pages_loop_cap fuel g w st st' :
  1 <= max_items ->
  Z.of_nat (List.length (all_reviews st)) < max_items ->
  pages_loop max_items language max_retries fuel g w st = Some st' ->
  Z.of_nat (List.length (all_reviews st')) <= max_items.
Proof.
  intros Hpos. revert g w st.
  induction fuel as [|fuel IH]; intros g w st Hlt; simpl; [done|].
  destruct (iter_pages_next max_retries g w) as [r|e]; [|intros [= <-]; lia].
  destruct (yielded r) as [page_html|]; [|intros [= <-]; lia].
  unfold page_body.
  destruct (parse language page_html) as [[parsed_stats page_reviews]|e];
    [|intros [= <-]; lia].
  pose proof (append_reviews_cap page_reviews (all_reviews st) Hpos Hlt) as [Hle Hok].
  destruct (append_reviews max_items page_reviews (all_reviews st)) as [all' [[]|e]];
    simpl in *.
  - apply IH. simpl. by apply Hok.
  - by intros [= <-].
Qed.

End ItemCap.

(* ===================================================================== *)
(** ** Who derives the total *)
(* ===================================================================== *)

Section Aggregation.

Context `{lib : PyLib}.
Variable language_hint : option string.
Variable max_items : Z.
Variable max_retries : Z.

Lemma page_body_stats page_html st :
  (forall s, hotel_stats st = Some s ->
             hotel_stats (fst (page_body max_items language_hint page_html st)) = Some s)
  /\ (hotel_stats st = None ->
      forall stats reviews_,
        parse language_hint page_html = Ok (stats, reviews_) ->
        hotel_stats (fst (page_body max_items language_hint page_html st)) = Some stats).
Proof.
  unfold page_body.
  destruct (parse language_hint page_html) as [[parsed_stats page_reviews]|e]; simpl.
  - destruct (append_reviews max_items page_reviews (all_reviews st)) as [all' r]. simpl.
    split.
    + by intros s ->.
    + by intros -> stats reviews_ [= <- _].
  - split; [done | by intros _ stats reviews_].
Qed.

(** While the caller has no statistics it has no reviews either. *)
Lemma pages_loop_no_stats fuel g w st st' :
  (hotel_stats st = None -> all_reviews st = []) ->
  pages_loop max_items language_hint max_retries fuel g w st = Some st' ->
  hotel_stats st' = None -> all_reviews st' = [].
Proof.
  revert g w st. induction fuel as [|fuel IH]; intros g w st Hinv; simpl; [done|].
  destruct (iter_pages_next max_retries g w) as [r|e]; [|by intros [= <-]].
  destruct (yielded r) as [page_html|]; [|by intros [= <-]].
  unfold page_body.
  destruct (parse language_hint page_html) as [[parsed_stats page_reviews]|e];
    [|by intros [= <-]].
  destruct (append_reviews max_items page_reviews (all_reviews st)) as [all' [[]|e]].
  - apply IH. simpl. by destruct (hotel_stats st).
  - intros [= <-]. simpl. by destruct (hotel_stats st).
Qed.

(** C2, as the code has it.  When no strategy has observed a count on the
    page, [parse] itself stores the number of records it returns for that
    page, so the count it returns is never unset; an observed count is
    returned as observed.  The caller takes the statistics of a page while
    it has none and keeps them from then on; at the end of a run it has
    either the statistics of a page, which it returns, or no statistics
    and no reviews, and only then it stores a count of its own, 0. *)
Theorem parse_derives_totalReviews :
  (forall html,
     exists observed stats reviews_,
       _extract_hotel_stats (BeautifulSoup html) = Ok observed
       /\ parse language_hint html = Ok (stats, reviews_)
       /\ (totalReviews observed = None ->
           totalReviews stats = Some (Z.of_nat (List.length reviews_)))
       /\ (forall n, totalReviews observed = Some n -> totalReviews stats = Some n)
       /\ totalReviews stats <> None)
  /\ (forall page_html st,
        (forall s, hotel_stats st = Some s ->
           hotel_stats (fst (page_body max_items language_hint page_html st)) = Some s)
        /\ (hotel_stats st = None ->
            forall stats reviews_,
              parse language_hint page_html = Ok (stats, reviews_) ->
              hotel_stats (fst (page_body max_items language_hint page_html st))
              = Some stats))
  /\ (forall fuel hotel_url w st,
        pages_loop max_items language_hint max_retries fuel (GenStart hotel_url) w
          {| all_reviews := []; hotel_stats := None |} = Some st ->
        match hotel_stats st with
        | Some s => hotelStats (finish st) = s
        | None =>
            all_reviews st = []
            /\ totalReviews (hotelStats (finish st)) = Some 0
        end).
Proof.
  split; [|split].
  - intros html.
    destruct (parse_spec language_hint html) as (observed & Hobs & Hparse).
    eexists observed, _, _. split; [exact Hobs|]. split; [exact Hparse|].
    repeat split.
    + intros ->. reflexivity.
    + intros n Hn. rewrite Hn. exact Hn.
    + destruct (totalReviews observed) eqn:E; simpl; [by rewrite E | done].
  - apply page_body_stats.
  - intros fuel hotel_url w st Hloop.
    assert (hotel_stats st = None -> all_reviews st = []) as Hinv.
    { eapply pages_loop_no_stats; [|exact Hloop]. done. }
    unfold finish. simpl. destruct (hotel_stats st); [done|].
    rewrite (Hinv eq_refl). by split.
Qed.

End Aggregation.

(* ===================================================================== *)
(** ** Where the code and the specification part *)
(* ===================================================================== *)

Lemma _extract_int_from_text_spec (text : string) :
  _extract_int_from_text text =
    Ok (let digits := PyStr.filter PyStr.isdigit text in
        if PyStr.is_empty digits then None else PyInt.of_str digits).
Proof.
  unfold _extract_int_from_text, py_int.
  destruct (PyStr.is_empty _); [done|]. by destruct (PyInt.of_str _).
Qed.

(** C4. For the stay description "Stayed 2 nights in August 2022" the code
    stores 22022 nights: [_extract_int_from_text] joins every digit of
    the text, the year's with the count's, where the first run of digits
    is 2. *)
Theorem nights_joins_every_digit :
  _parse_booking_info Demo.stay_card
  = Ok {| roomType := None; checkIn := None; checkOut := None;
          nights := Some 22022; customerType := None |}
  /\ first_digit_run "Stayed 2 nights in August 2022" = "2"
  /\ PyInt.of_str (first_digit_run "Stayed 2 nights in August 2022") = Some 2
  /\ _extract_int_from_text "Stayed 2 nights in August 2022" = Ok (Some 22022).
Proof. repeat split; reflexivity. Qed.

Lemma empty_lang_attribute_is_returned (card : tag_in_context) :
  Dom.get "lang" (card_node card) = Some "" ->
  _parse_language card = Some "".
Proof. intros H. unfold _parse_language, Dom.has_attr. by rewrite H. Qed.

(** C7. A card with an empty [lang] attribute and
    [data-review-language] "fr", in a document whose root has [lang] "de":
    the first non-empty source of the chain is "fr", and the record's
    language is unset when there is no hint, and is the hint "en" when
    that is given.  The empty [lang] ends the chain: the data attribute
    and the root element are not consulted. *)
Theorem empty_lang_skips_later_sources :
  exists card r r',
    Demo.first_card Demo.empty_lang_page = Some card
    /\ language_sources None card = [Some ""; Some "fr"; Some "de"; None]
    /\ first_non_empty (language_sources None card) = Some "fr"
    /\ first_non_empty (language_sources (Some "en") card) = Some "fr"
    /\ _parse_single_review (lib := Demo.lib) None card = Ok (Some r)
    /\ language r = None
    /\ _parse_single_review (lib := Demo.lib) (Some "en") card = Ok (Some r')
    /\ language r' = Some "en".
Proof.
  eexists _, _, _. split; [reflexivity|]. repeat split; reflexivity.
Qed.

(** C9. With [max_items = 0] and a first page that has one review, the
    run ends with one record accumulated: the cap is tested after the
    record has been appended, so a cap of zero (or less) is exceeded by
    one. *)
Theorem cap_of_zero_is_exceeded :
  exists result,
    scrape_reviews (lib := Demo.lib) 0 None 3 5 "https://h.example/one" 0%nat
    = Some result
    /\ List.length (reviews result) = 1%nat
    /\ ~ (Z.of_nat (List.length (reviews result)) <= 0).
Proof.
  eexists. split; [reflexivity|]. split; [reflexivity|]. simpl. lia.
Qed.

(** C2, refuted.  On a page with one review card and no count to observe,
    the strategies of [_extract_hotel_stats] leave [totalReviews] unset,
    and [parse] returns it set to 1, the number of its records. *)
Lemma parse_sets_count_of_page :
  (exists observed,
     _extract_hotel_stats (lib := Demo.lib)
       (BeautifulSoup (PyLib := Demo.lib) "https://h.example/one") = Ok observed
     /\ totalReviews observed = None)
  /\ exists stats reviews,
       parse (lib := Demo.lib) None "https://h.example/one" = Ok (stats, reviews)
       /\ List.length reviews = 1%nat
       /\ totalReviews stats = Some 1
       /\ totalReviews stats <> None.
Proof.
  split.
  - eexists. split; reflexivity.
  - eexists _, _. split; [reflexivity|]. repeat split; try reflexivity. discriminate.
Qed.

(** C6, refuted.  A document with two blocks of structured data: the
    first an object with an empty ["@graph"] and no ["@type"] (so it has no
    lodging type), the second a Hotel whose aggregate rating has
    [reviewCount] 42.  Reading the type of the first block raises
    [IndexError]; the scan ends there, and [parse] returns the number of
    records, 0, not 42. *)
Lemma graph_block_ends_the_scan :
  map (fun script => json_loads (PyLib := Demo.lib) (script_payload script))
      (ld_json_scripts (BeautifulSoup (PyLib := Demo.lib) "https://h.example/graph"))
  = [ Ok (JDict [("@graph", JList [])]);
      Ok (JDict [("@type", JStr "Hotel");
                 ("aggregateRating", JDict [("reviewCount", JInt 42)])]) ]
  /\ jsonld_data_type [("@graph", JList [])] = Raise IndexError
  /\ exists stats reviews,
       parse (lib := Demo.lib) None "https://h.example/graph" = Ok (stats, reviews)
       /\ totalReviews stats = Some 0
       /\ totalReviews stats <> Some 42.
Proof.
  split; [reflexivity|]. split; [reflexivity|].
  eexists _, _. split; [reflexivity|]. split; [reflexivity|]. discriminate.
Qed.

(** C5, refuted.  A card whose one image has the source
    http://:80/a.jpg: [urlparse] gives it the scheme http and the network
    location :80, which has a port and no host, and the source is among
    the photos. *)
Lemma hostless_photo_is_emitted :
  photo_sources Sample.hostless_card = ["http://:80/a.jpg"]
  /\ urlparse (lib := Demo.lib) "http://:80/a.jpg" = Ok ("http", ":80")
  /\ Url.hostname ":80" = None
  /\ ~ has_scheme_and_host (lib := Demo.lib) "http://:80/a.jpg"
  /\ _parse_photos (lib := Demo.lib) Sample.hostless_card = Ok ["http://:80/a.jpg"].
Proof.
  split; [reflexivity|]. split; [reflexivity|]. split; [reflexivity|].
  split; [|reflexivity].
  intros (scheme & netloc & host & Hparse & _ & Hhost).
  vm_compute in Hparse. injection Hparse as <- <-. discriminate Hhost.
Qed.

(* ===================================================================== *)
(** ** The theorems at concrete documents *)
(* ===================================================================== *)

Lemma parse_derives_totalReviews_witness :
  exists observed stats reviews_,
    _extract_hotel_stats (lib := Demo.lib)
      (BeautifulSoup (PyLib := Demo.lib) "https://h.example/one") = Ok observed
    /\ parse (lib := Demo.lib) None "https://h.example/one" = Ok (stats, reviews_)
    /\ totalReviews observed = None
    /\ totalReviews stats = Some (Z.of_nat (List.length reviews_)).
Proof.
  destruct (proj1 (parse_derives_totalReviews (lib := Demo.lib) None 10 3)
              "https://h.example/one")
    as (observed & stats & reviews_ & Hobs & Hparse & Hnone & _).
  exists observed, stats, reviews_.
  assert (totalReviews observed = None) as Hunset.
  { vm_compute in Hobs. injection Hobs as <-. reflexivity. }
  repeat split; [exact Hobs | exact Hparse | exact Hunset | exact (Hnone Hunset)].
Defined.

Lemma empty_cards_are_dropped_witness :
  review_cards (BeautifulSoup (PyLib := Demo.lib) "https://h.example/mixed")
  = [Demo.card_at Demo.mixed_page 0; Demo.card_at Demo.mixed_page 1]
  /\ _parse_single_review (lib := Demo.lib) None (Demo.card_at Demo.mixed_page 0)
     = Ok None
  /\ exists r,
       _parse_single_review (lib := Demo.lib) None (Demo.card_at Demo.mixed_page 1)
       = Ok (Some r)
       /\ title r = "Great".
Proof.
  destruct (empty_cards_are_dropped (lib := Demo.lib) None) as (Hempty & Htitled & _).
  split; [reflexivity|]. split.
  - apply Hempty; reflexivity.
  - destruct (Htitled (Demo.card_at Demo.mixed_page 1)) as (r & Hr & _ & Ht).
    + vm_compute. discriminate.
    + exists r. split; [exact Hr|]. rewrite Ht. reflexivity.
Defined.

Lemma photos_absolute_first_seen_witness :
  photo_sources Demo.photo_card
  = ["/img/a.jpg"; "https://x.com/b.jpg"; "https://x.com/b.jpg"]
  /\ ~ absolute_url (lib := Demo.lib) "/img/a.jpg"
  /\ _parse_photos (lib := Demo.lib) Demo.photo_card = Ok ["https://x.com/b.jpg"].
Proof.
  split; [reflexivity|].
  apply (proj2 (proj2 (photos_absolute_first_seen (lib := Demo.lib))) Demo.photo_card).
  reflexivity.
Defined.

Lemma first_lodging_count_wins_witness :
  exists stats reviews_,
    parse (lib := Demo.lib) None "https://h.example/organization" = Ok (stats, reviews_)
    /\ totalReviews stats = Some 42.
Proof.
  apply (proj1 (first_lodging_count_wins (lib := Demo.lib) None)
           "https://h.example/organization"
           [Demo.ld_json "organization"] (Demo.ld_json "hotel42") []
           (JDict [("@type", JStr "Hotel");
                   ("aggregateRating", JDict [("reviewCount", JInt 42)])])
           []
           [("@type", JStr "Hotel"); ("aggregateRating", JDict [("reviewCount", JInt 42)])]
           []
           [("reviewCount", JInt 42)] 42).
  - reflexivity.
  - apply Forall_cons. split; [|apply Forall_nil_2].
    exists (JDict [("@type", JStr "Organization")]). split; [reflexivity|].
    apply Forall_cons. split; [|apply Forall_nil_2].
    exists (JStr "Organization"). split; reflexivity.
  - reflexivity.
  - reflexivity.
  - apply Forall_nil_2.
  - split; [|reflexivity]. exists (JStr "Hotel"). split; reflexivity.
  - reflexivity.
  - lia.
Defined.

Lemma no_url_fetched_twice_witness :
  exists r,
    iter_pages_next (lib := Demo.lib) 3
      (GenYielded "https://h.example/reviews?page=2" "https://h.example/reviews?page=2"
         ({["https://h.example/reviews?page=2"]} ∪ ({["https://h.example/reviews"]} ∪ ∅)))
      2%nat = Ok r
    /\ yielded r = None /\ fetched r = None /\ resumed r = GenDone.
Proof.
  apply (proj1 (proj2 (no_url_fetched_twice (lib := Demo.lib) 3))
           "https://h.example/reviews?page=2" "https://h.example/reviews?page=2"
           _ 2%nat "https://h.example/reviews").
  - reflexivity.
  - apply elem_of_union_r, elem_of_union_l, elem_of_singleton. reflexivity.
Defined.

Lemma falsy_reviewCount_falls_back_witness :
  _populate_stats_from_jsonld
    (JDict [("@type", JStr "Hotel");
            ("aggregateRating",
             JDict [("reviewCount", JInt 0); ("ratingCount", JInt 17)])])
    {| totalReviews := None; scores := ∅ |}
  = Ok (set_totalReviews (Some 17) {| totalReviews := None; scores := ∅ |}).
Proof.
  destruct (falsy_reviewCount_falls_back (lib := Demo.lib) None) as (_ & _ & Hblock & _).
  destruct (Hblock
              [("@type", JStr "Hotel");
               ("aggregateRating",
                JDict [("reviewCount", JInt 0); ("ratingCount", JInt 17)])]
              [("reviewCount", JInt 0); ("ratingCount", JInt 17)]
              {| totalReviews := None; scores := ∅ |}) as [Hfall _].
  - split; [|reflexivity]. exists (JStr "Hotel"). split; reflexivity.
  - reflexivity.
  - apply (Hfall 17); reflexivity.
Defined.

(* ===================================================================== *)
(** ** Text utilities *)
(* ===================================================================== *)

Section TextFacts.

Lemma app_empty_l (s : string) : "" +:+ s = s.
Proof. reflexivity. Qed.

Lemma app_cons (c : ascii) (a b : string) : String c a +:+ b = String c (a +:+ b).
Proof. reflexivity. Qed.

Lemma app_empty_r (s : string) : s +:+ "" = s.
Proof. induction s as [|c s IH]; [done|]. by rewrite app_cons, IH. Qed.

Lemma rev_app_rev_app (a b c : string) :
  String.rev_app (String.rev_app a b) c = String.rev_app b (a +:+ c).
Proof.
  revert b c. induction a as [|x a IH]; intros b c; simpl; [done|].
  by rewrite IH.
Qed.

Lemma all_chars_rev_app p a b :
  all_chars p a -> all_chars p b -> all_chars p (String.rev_app a b).
Proof.
  revert b. induction a as [|x a IH]; intros b Ha Hb; simpl in *; [done|].
  destruct Ha as [Hx Ha]. apply IH; [done|]. by split.
Qed.

Lemma rev_app_not_empty a b : b <> "" -> String.rev_app a b <> "".
Proof.
  revert b. induction a as [|x a IH]; intros b Hb; simpl; [done|]. by apply IH.
Qed.

(** The words [split] gives are words. *)
Lemma split_go_words s :
  forall cur,
    (forall acc, cur = Some acc -> word acc) ->
    Forall word (PyStr.split_go cur s).
Proof.
  induction s as [|c s IH]; intros cur Hcur; simpl.
  - destruct cur as [acc|]; [|constructor].
    destruct (Hcur acc eq_refl) as [Hne Hall].
    constructor; [|constructor]. split.
    + destruct acc; [done|]. unfold String.rev. simpl. by apply rev_app_not_empty.
    + unfold String.rev. by apply all_chars_rev_app.
  - destruct (PyStr.isspace c) eqn:Hc.
    + destruct cur as [acc|]; [|by apply IH].
      destruct (Hcur acc eq_refl) as [Hne Hall].
      constructor; [|by apply IH]. split.
      * destruct acc; [done|]. unfold String.rev. simpl. by apply rev_app_not_empty.
      * unfold String.rev. by apply all_chars_rev_app.
    + assert (not_space c = true) as Hns by (unfold not_space; by rewrite Hc).
      destruct cur as [acc|]; apply IH; intros acc' [= <-].
      * destruct (Hcur acc eq_refl) as [_ Hall]. split; [done|]. by split.
      * split; [done|]. by split.
Qed.

Lemma split_go_word_prefix w :
  all_chars not_space w ->
  forall acc s,
    PyStr.split_go (Some acc) (w +:+ s) = PyStr.split_go (Some (String.rev_app w acc)) s.
Proof.
  induction w as [|c w IH]; intros Hw acc s; [done|].
  destruct Hw as [Hc Hw]. rewrite app_cons. simpl.
  unfold not_space in Hc. apply negb_true_iff in Hc. rewrite Hc. by apply IH.
Qed.

Lemma split_go_one_word w s :
  word w ->
  PyStr.split_go None (w +:+ s) = PyStr.split_go (Some (String.rev w)) s.
Proof.
  intros [Hne Hw]. destruct w as [|c w]; [done|]. destruct Hw as [Hc Hw].
  rewrite app_cons. simpl.
  unfold not_space in Hc. apply negb_true_iff in Hc. rewrite Hc.
  by rewrite (split_go_word_prefix w Hw).
Qed.

Lemma rev_rev (w : string) : String.rev (String.rev w) = w.
Proof. unfold String.rev. by rewrite rev_app_rev_app, app_empty_r. Qed.

Lemma split_go_space acc s :
  PyStr.split_go (Some acc) (" " +:+ s) = String.rev acc :: PyStr.split_go None s.
Proof. reflexivity. Qed.

(** Splitting a text of words joined by single spaces gives the words. *)
Lemma split_join (ws : list string) :
  Forall word ws -> PyStr.split (PyStr.join " " ws) = ws.
Proof.
  unfold PyStr.split. induction 1 as [|w ws Hw Hws IH]; [done|].
  destruct ws as [|w2 ws].
  - simpl. rewrite <- (app_empty_r w) at 1. rewrite (split_go_one_word _ _ Hw).
    simpl. by rewrite rev_rev.
  - change (PyStr.join " " (w :: w2 :: ws)) with (w +:+ " " +:+ PyStr.join " " (w2 :: ws)).
    rewrite (split_go_one_word _ _ Hw).
    rewrite split_go_space, rev_rev. by rewrite IH.
Qed.

Lemma all_chars_impl (p q : ascii -> bool) s :
  (forall c, p c = true -> q c = true) -> all_chars p s -> all_chars q s.
Proof. intros Hpq. induction s as [|c s IH]; simpl; [done|]. intros [? ?]. auto. Qed.

Lemma all_chars_filter p s : all_chars p (PyStr.filter p s).
Proof.
  induction s as [|c s IH]; simpl; [done|].
  destruct (p c) eqn:E; simpl; auto.
Qed.

Lemma filter_all_chars p s : all_chars p s -> PyStr.filter p s = s.
Proof.
  induction s as [|c s IH]; simpl; [done|]. intros [-> Hs]. by rewrite IH.
Qed.

Lemma lstrip_all_chars p s :
  all_chars (fun c => negb (p c)) s -> PyStr.lstrip_by p s = s.
Proof. destruct s as [|c s]; simpl; [done|]. intros [Hc _]. apply negb_true_iff in Hc. by rewrite Hc. Qed.

Lemma rstrip_all_chars p s :
  all_chars (fun c => negb (p c)) s -> PyStr.rstrip_by p s = s.
Proof.
  induction s as [|c s IH]; simpl; [done|]. intros [Hc Hs].
  apply negb_true_iff in Hc. rewrite (IH Hs), Hc. by destruct s.
Qed.

Lemma strip_all_chars s : all_chars not_space s -> PyStr.strip s = s.
Proof.
  intros Hs. unfold PyStr.strip.
  rewrite (lstrip_all_chars PyStr.isspace s Hs). by apply rstrip_all_chars.
Qed.

End TextFacts.

Section SafeText.

(** X1. The text [_safe_text] gives for an element is in normal form: it
    is the words of the element's text joined by single spaces, each word
    not empty and free of whitespace; splitting it gives those words back,
    and normalising it again changes nothing.  It is empty exactly when
    the element's text has no word. *)
Theorem safe_text_normal_form (n : node) :
  let t := _safe_text (Some n) in
  let ws := PyStr.split (Dom.get_text_strip n) in
  Forall word ws
  /\ t = PyStr.join " " ws
  /\ PyStr.split t = ws
  /\ PyStr.join " " (PyStr.split t) = t
  /\ (t = "" <-> ws = []).
Proof.
  simpl.
  assert (Forall word (PyStr.split (Dom.get_text_strip n))) as Hws.
  { apply split_go_words. by intros acc. }
  split; [done|]. split; [done|].
  rewrite (split_join _ Hws). split; [done|]. split; [done|].
  destruct (PyStr.split (Dom.get_text_strip n)) as [|w ws]; [done|].
  split; [|done]. intros Hempty. exfalso.
  inversion Hws as [|? ? [Hne _] _]; subst.
  destruct ws as [|w2 ws]; simpl in Hempty; [done|].
  destruct w; [done|]. by rewrite app_cons in Hempty.
Qed.

End SafeText.

Section DigitsAndLabels.

Ltac by_cases_on_ascii c :=
  destruct c as [[] [] [] [] [] [] [] []]; try reflexivity; try discriminate.

Lemma decimal_is_digit c : PyStr.isdecimal c = true -> PyStr.isdigit c = true.
Proof. unfold PyStr.isdigit. by intros ->. Qed.

Lemma digit_is_not_int_space c :
  PyStr.isdigit c = true -> negb (PyInt.isspace c) = true.
Proof. by_cases_on_ascii c. Qed.

Lemma digit_val_range c : PyStr.isdecimal c = true -> 0 <= PyInt.digit_val c <= 9.
Proof.
  unfold PyStr.isdecimal, PyInt.digit_val. intros H.
  apply andb_true_iff in H as [H1 H2].
  apply N.leb_le in H1. apply N.leb_le in H2. lia.
Qed.

Lemma digit_is_no_sign c r :
  PyStr.isdigit c = true ->
  match String c r with
  | String "-"%char r' => (true, r')
  | String "+"%char r' => (false, r')
  | _ => (false, String c r)
  end = (false, String c r).
Proof. by_cases_on_ascii c. Qed.

Lemma digit_is_no_underscore c : PyStr.isdigit c = true -> Ascii.eqb c "_"%char = false.
Proof. by_cases_on_ascii c. Qed.

(** On a string of digits [int] reads the number when every digit is
    decimal, and stops at the first that is not. *)
Lemma digits_go_digits s :
  all_chars PyStr.isdigit s ->
  forall acc prev,
    PyInt.digits_go acc prev s =
      if every_char PyStr.isdecimal s then
        match s with
        | EmptyString => if prev then Some acc else None
        | _ => Some (decimal_from acc s)
        end
      else None.
Proof.
  induction s as [|c s IH]; intros Hs acc prev; [done|].
  destruct Hs as [Hc Hs]. cbn [PyInt.digits_go every_char].
  destruct (PyStr.isdecimal c) eqn:Ed; cbn [andb].
  - rewrite (IH Hs). destruct (every_char PyStr.isdecimal s); [|done]. by destruct s.
  - by rewrite (digit_is_no_underscore c Hc).
Qed.

Lemma every_char_all p s : every_char p s = true <-> all_chars p s.
Proof.
  induction s as [|c s IH]; simpl; [done|].
  rewrite andb_true_iff, IH. done.
Qed.

Lemma decimal_from_nonneg s :
  all_chars PyStr.isdecimal s -> forall acc, 0 <= acc -> 0 <= decimal_from acc s.
Proof.
  induction s as [|c s IH]; intros Hs acc Hacc; simpl; [done|].
  destruct Hs as [Hc Hs]. apply IH; [done|].
  pose proof (digit_val_range c Hc). lia.
Qed.

(** [int] of a non-empty string of digits. *)
Lemma of_str_digits s :
  all_chars PyStr.isdigit s -> s <> "" ->
  PyInt.of_str s =
    if every_char PyStr.isdecimal s then
      if (int_max_str_digits <? String.length s)%nat then None
      else Some (decimal_value s)
    else None.
Proof.
  intros Hs Hne. unfold PyInt.of_str.
  assert (all_chars (fun c => negb (PyInt.isspace c)) s) as Hclean
    by (eapply all_chars_impl; [apply digit_is_not_int_space | done]).
  rewrite (lstrip_all_chars PyInt.isspace s Hclean),
    (rstrip_all_chars PyInt.isspace s Hclean).
  destruct s as [|c r]; [done|]. pose proof Hs as [Hc _].
  rewrite (digit_is_no_sign c r Hc).
  rewrite (digits_go_digits _ Hs).
  destruct (every_char PyStr.isdecimal (String c r)) eqn:Edec.
  - apply every_char_all in Edec.
    unfold PyInt.count_digits. rewrite (filter_all_chars _ _ Edec).
    by destruct (int_max_str_digits <? String.length (String c r))%nat.
  - by destruct (int_max_str_digits <? PyInt.count_digits (String c r))%nat.
Qed.

(** X2. [_extract_int_from_text] never raises and reads the digits of the
    text as one number, whatever stands between them.  No digit gives no
    value.  A digit that is not decimal (a superscript two, three or one,
    which [str.isdigit] accepts and [int] rejects) gives no value, and so
    do more digits than [int] accepts.  Otherwise the value is the number
    the digits denote, which is never negative (a minus sign in the text
    is not read).  The result depends on the digits of the text only. *)
Theorem extract_int_joins_digits (text : string) :
  let digits := PyStr.filter PyStr.isdigit text in
  _extract_int_from_text text
  = Ok (if PyStr.is_empty digits then None
        else if negb (every_char PyStr.isdecimal digits) then None
        else if (int_max_str_digits <? String.length digits)%nat then None
             else Some (decimal_value digits))
  /\ (forall n, _extract_int_from_text text = Ok (Some n) -> 0 <= n)
  /\ _extract_int_from_text digits = _extract_int_from_text text.
Proof.
  cbn zeta.
  assert (forall t,
            _extract_int_from_text t
            = Ok (if PyStr.is_empty (PyStr.filter PyStr.isdigit t) then None
                  else if negb (every_char PyStr.isdecimal (PyStr.filter PyStr.isdigit t))
                  then None
                  else if (int_max_str_digits
                           <? String.length (PyStr.filter PyStr.isdigit t))%nat
                       then None
                       else Some (decimal_value (PyStr.filter PyStr.isdigit t)))) as Hspec.
  { intros t. rewrite _extract_int_from_text_spec. cbn zeta.
    destruct (PyStr.is_empty _) eqn:E; [done|].
    apply is_empty_false in E.
    rewrite (of_str_digits _ (all_chars_filter _ _) E).
    by destruct (every_char _ _). }
  split; [apply Hspec|]. split.
  - intros n. rewrite Hspec.
    destruct (PyStr.is_empty _); [done|].
    destruct (every_char _ _) eqn:Edec; [|done]. cbn [negb].
    destruct (_ <? _)%nat; [done|]. intros [= <-].
    apply decimal_from_nonneg; [by apply every_char_all | done].
  - rewrite !Hspec.
    by rewrite (filter_all_chars _ _ (all_chars_filter PyStr.isdigit text)).
Qed.

Lemma replace_one_char c s :
  PyStr.replace c "_" s
  = map_string (fun d => if Ascii.eqb c d then "_"%char else d) s.
Proof.
  induction s as [|d s IH]; simpl; [done|].
  destruct (Ascii.eqb c d); rewrite IH; reflexivity.
Qed.

Lemma lower_map s : PyStr.lower s = map_string PyStr.lower_char s.
Proof. induction s as [|c s IH]; simpl; [done|]. by rewrite IH. Qed.

Lemma map_string_compose f g s :
  map_string f (map_string g s) = map_string (fun c => f (g c)) s.
Proof. induction s as [|c s IH]; simpl; [done|]. by rewrite IH. Qed.

Lemma map_string_ext f g s :
  (forall c, f c = g c) -> map_string f s = map_string g s.
Proof. intros H. induction s as [|c s IH]; simpl; [done|]. by rewrite H, IH. Qed.

Lemma _normalize_score_label_map label :
  _normalize_score_label label = map_string key_char (PyStr.strip label).
Proof.
  unfold _normalize_score_label.
  by rewrite !replace_one_char, lower_map, !map_string_compose.
Qed.

Lemma all_chars_map_string p f s :
  (forall c, p (f c) = true) -> all_chars p (map_string f s).
Proof. intros H. induction s as [|c s IH]; simpl; [done|]. by split. Qed.

Lemma key_char_shape c :
  negb (Ascii.eqb (key_char c) " ") && negb (Ascii.eqb (key_char c) "-")
  && negb (is_upper (key_char c)) = true.
Proof. by_cases_on_ascii c. Qed.

Lemma key_char_idempotent c : key_char (key_char c) = key_char c.
Proof. by_cases_on_ascii c. Qed.

Lemma key_char_keeps_not_space c :
  PyStr.isspace c = false -> PyStr.isspace (key_char c) = false.
Proof. by_cases_on_ascii c. Qed.

Lemma lstrip_starts_clean s : starts_clean (PyStr.lstrip_by PyStr.isspace s).
Proof.
  induction s as [|c s IH]; simpl; [done|].
  destruct (PyStr.isspace c) eqn:E; [done | by simpl].
Qed.

Lemma rstrip_starts_clean s :
  starts_clean s -> starts_clean (PyStr.rstrip_by PyStr.isspace s).
Proof.
  destruct s as [|c s]; simpl; [done|]. intros Hc.
  destruct (PyStr.rstrip_by PyStr.isspace s); [by rewrite Hc | done].
Qed.

Lemma rstrip_idempotent p s :
  PyStr.rstrip_by p (PyStr.rstrip_by p s) = PyStr.rstrip_by p s.
Proof.
  induction s as [|c s IH]; simpl; [done|].
  destruct (PyStr.rstrip_by p s) as [|c' r'] eqn:E.
  - destruct (p c) eqn:Ec; simpl; [done|]. by rewrite Ec.
  - cbn [PyStr.rstrip_by]. cbn [PyStr.rstrip_by] in IH. by rewrite IH.
Qed.

Lemma starts_clean_lstrip s : starts_clean s -> PyStr.lstrip_by PyStr.isspace s = s.
Proof. destruct s as [|c s]; simpl; [done|]. by intros ->. Qed.

Lemma rstrip_map_string f s :
  (forall c, PyStr.isspace c = false -> PyStr.isspace (f c) = false) ->
  PyStr.rstrip_by PyStr.isspace s = s ->
  PyStr.rstrip_by PyStr.isspace (map_string f s) = map_string f s.
Proof.
  intros Hf. induction s as [|c s IH]; simpl; [done|].
  destruct (PyStr.rstrip_by PyStr.isspace s) as [|c' r'] eqn:E.
  - destruct (PyStr.isspace c) eqn:Ec; [done|]. intros [= <-]. simpl.
    by rewrite (Hf c Ec).
  - intros [= <-]. rewrite (IH eq_refl). by simpl.
Qed.

Lemma lstrip_map_string f s :
  (forall c, PyStr.isspace (f c) = PyStr.isspace c) ->
  PyStr.lstrip_by PyStr.isspace (map_string f s)
  = map_string f (PyStr.lstrip_by PyStr.isspace s).
Proof.
  intros Hf. induction s as [|c s IH]; simpl; [done|].
  rewrite Hf. by destruct (PyStr.isspace c).
Qed.

Lemma rstrip_commutes_map_string f s :
  (forall c, PyStr.isspace (f c) = PyStr.isspace c) ->
  PyStr.rstrip_by PyStr.isspace (map_string f s)
  = map_string f (PyStr.rstrip_by PyStr.isspace s).
Proof.
  intros Hf. induction s as [|c s IH]; simpl; [done|].
  rewrite IH, Hf.
  destruct (PyStr.rstrip_by PyStr.isspace s); simpl; [|done].
  by destruct (PyStr.isspace c).
Qed.

Lemma lower_char_keeps_space c : PyStr.isspace (PyStr.lower_char c) = PyStr.isspace c.
Proof. by_cases_on_ascii c. Qed.

Lemma key_char_lower c : key_char (PyStr.lower_char c) = key_char c.
Proof. by_cases_on_ascii c. Qed.

(** X3. A score key has no space, no hyphen and no upper-case letter, and
    is a key already: normalising it again gives the same key.  The case
    of the label does not matter: the label in lower case has the same
    key. *)
Theorem score_key_shape (label : string) :
  let key := _normalize_score_label label in
  all_chars (fun c => negb (Ascii.eqb c " ") && negb (Ascii.eqb c "-")
                      && negb (is_upper c)) key
  /\ _normalize_score_label key = key
  /\ _normalize_score_label (PyStr.lower label) = key.
Proof.
  cbn zeta. rewrite !_normalize_score_label_map. split; [|split].
  - apply all_chars_map_string, key_char_shape.
  - assert (PyStr.strip (map_string key_char (PyStr.strip label))
            = map_string key_char (PyStr.strip label)) as ->.
    { unfold PyStr.strip at 1.
      assert (starts_clean (map_string key_char (PyStr.strip label))) as Hstart.
      { pose proof (rstrip_starts_clean _ (lstrip_starts_clean label)) as H.
        fold (PyStr.strip label) in H.
        destruct (PyStr.strip label); simpl in *; [done|].
        by apply key_char_keeps_not_space. }
      rewrite (starts_clean_lstrip _ Hstart).
      apply rstrip_map_string; [apply key_char_keeps_not_space|].
      apply rstrip_idempotent. }
    rewrite map_string_compose. apply map_string_ext, key_char_idempotent.
  - rewrite lower_map. unfold PyStr.strip.
    rewrite (lstrip_map_string _ _ lower_char_keeps_space).
    rewrite (rstrip_commutes_map_string _ _ lower_char_keeps_space).
    rewrite map_string_compose. apply map_string_ext, key_char_lower.
Qed.

End DigitsAndLabels.

(* ===================================================================== *)
(** ** Hotel statistics: scores and the cascade for the total *)
(* ===================================================================== *)

Section HotelStatsFacts.

Context `{lib : PyLib}.
Variable language_hint : option string.

Lemma score_block_step_entry stats block :
  score_block_step stats block
  = Ok (match score_block_entry block with
        | Some (key, e) => set_score key e stats
        | None => stats
        end).
Proof.
  unfold score_block_step, score_block_entry, py_float.
  destruct (_ || _); [done|]. by destruct (float_of_str _).
Qed.

Lemma score_blocks_fold blocks stats :
  exists stats',
    for_each score_block_step blocks stats = Ok stats'
    /\ totalReviews stats' = totalReviews stats
    /\ scores stats'
       = foldl (fun m p => <[fst p := snd p]> m) (scores stats)
               (omap score_block_entry blocks).
Proof.
  revert stats. induction blocks as [|b blocks IH]; intros stats; csimpl.
  - by exists stats.
  - rewrite score_block_step_entry. simpl.
    destruct (score_block_entry b) as [[key e]|]; simpl.
    + destruct (IH (set_score key e stats)) as (s' & -> & Ht & Hs).
      exists s'. by rewrite Ht, Hs.
    + apply IH.
Qed.

Lemma foldl_insert_last (entries : list (string * ScoreEntry)) :
  forall (m : gmap string ScoreEntry) key,
    foldl (fun m p => <[fst p := snd p]> m) m entries !! key
    = match last_entry key entries with
      | Some e => Some e
      | None => m !! key
      end.
Proof.
  unfold last_entry.
  induction entries as [|[k e] entries IH]; intros m key; simpl; [done|].
  rewrite IH. case_bool_decide as Hk; simpl.
  - subst k.
    destruct (List.filter _ entries) as [|p ps] eqn:E; simpl.
    + by rewrite lookup_insert_eq.
    + change (last ((key, e) :: p :: ps)) with (last (p :: ps)).
      destruct (last (p :: ps)) eqn:El; simpl; [done|].
      by apply last_None in El.
  - destruct (last (List.filter _ entries)); simpl; [done|].
    by rewrite lookup_insert_ne.
Qed.

(** X4. The scores of a document: under each key stands the entry of the
    last score block with that key, in document order (a later block
    replaces an earlier one); a block without a label, without a value,
    or with a value [float] rejects stores nothing.  Every entry has a
    non-empty label as its translation, the key is the normalised label,
    and both bounds are unset. *)
Theorem scores_last_block_wins (soup : node) :
  exists observed,
    _extract_hotel_stats soup = Ok observed
    /\ (forall key,
          scores observed !! key
          = last_entry key (omap score_block_entry (score_blocks soup)))
    /\ (forall key e,
          scores observed !! key = Some e ->
          translation e <> ""
          /\ key = _normalize_score_label (translation e)
          /\ bounds_lower e = None /\ bounds_higher e = None
          /\ exists block,
               block ∈ score_blocks soup
               /\ score_block_entry block = Some (key, e)).
Proof.
  destruct (_extract_hotel_stats_unfold soup) as (a1 & a2 & obs & H1 & H2 & H3 & E).
  exists obs. split; [done|].
  assert (forall key,
            scores obs !! key
            = last_entry key (omap score_block_entry (score_blocks soup))) as Hlast.
  { intros key.
    destruct (score_blocks_fold (score_blocks soup) a2) as (s' & Hs' & _ & Hsc).
    unfold score_blocks in Hs'. rewrite H3 in Hs'. injection Hs' as <-.
    rewrite Hsc, foldl_insert_last.
    destruct (last_entry _ _); [done|].
    apply strategy2_scores in H2. rewrite H2, <- H1, scan_scripts_scores.
    apply lookup_empty. }
  split; [done|].
  intros key e. rewrite Hlast. unfold last_entry.
  destruct (last _) as [[k e']|] eqn:El; [|done]. simpl. intros [= <-].
  apply last_Some_elem_of in El.
  apply list_elem_of_In, filter_In in El as [Hin Hk].
  apply bool_decide_eq_true in Hk. simpl in Hk. subst k.
  apply list_elem_of_In, list_elem_of_omap in Hin as (block & Hblock & Hentry).
  assert (translation e' <> "" /\ key = _normalize_score_label (translation e')
          /\ bounds_lower e' = None /\ bounds_higher e' = None) as Hshape.
  { revert Hentry. unfold score_block_entry.
    destruct (PyStr.is_empty (_safe_text (Dom.find (testid "review-subscore-title") block)))
      eqn:El1; [done|].
    destruct (PyStr.is_empty (_safe_text (Dom.find (testid "review-subscore-value") block)));
      [done|].
    cbn [orb]. destruct (float_of_str _); [|done]. intros [= <- <-]. simpl.
    by apply is_empty_false in El1. }
  destruct Hshape as (? & ? & ? & ?). repeat split; try done. by exists block.
Qed.

Lemma derived_total (observed : HotelStatistics) (k : Z) :
  totalReviews (if is_None (totalReviews observed)
                then set_totalReviews (Some k) observed else observed)
  = match totalReviews observed with
    | Some n => Some n
    | None => Some k
    end.
Proof. by destruct (totalReviews observed) eqn:E; simpl. Qed.

(** X5. The total [parse] returns is the first of three that exists: the
    count strategy 1 stored from structured data, else the number the
    digits of the subtitle element denote, else the number of records of
    the page.  A subtitle without digits gives way to the number of
    records, and no later source replaces an earlier one. *)
Theorem total_reviews_cascade (html : string) :
  let soup := BeautifulSoup html in
  let after1 :=
    fst (scan_scripts (ld_json_scripts soup) {| totalReviews := None; scores := ∅ |}) in
  exists stats reviews_,
    parse language_hint html = Ok (stats, reviews_)
    /\ totalReviews stats
       = match totalReviews after1 with
         | Some n => Some n
         | None =>
             match Dom.find (testid "review-score-subtitle") soup with
             | Some total_node =>
                 match _extract_int_from_text (_safe_text (Some total_node)) with
                 | Ok (Some n) => Some n
                 | _ => Some (Z.of_nat (List.length reviews_))
                 end
             | None => Some (Z.of_nat (List.length reviews_))
             end
         end.
Proof.
  cbn zeta.
  destruct (parse_spec language_hint html) as (observed & Hobs & Hparse).
  destruct (_extract_hotel_stats_unfold (BeautifulSoup html))
    as (a1 & a2 & obs & E1 & E2 & E3 & E).
  rewrite E in Hobs. injection Hobs as ->.
  eexists _, _. split; [exact Hparse|]. cbn zeta.
  apply score_blocks_total in E3. rewrite E1.
  rewrite derived_total, E3. clear Hparse E E3.
  revert E2. unfold strategy2.
  destruct (totalReviews a1) as [n|] eqn:Ea1; simpl.
  - intros [= <-]. by rewrite Ea1.
  - destruct (Dom.find (testid "review-score-subtitle") (BeautifulSoup html)).
    + destruct (_extract_int_from_text _) as [[m|]|e]; simpl; try done;
        by intros [= <-].
    + intros [= <-]. by rewrite Ea1.
Qed.

End HotelStatsFacts.

(* ===================================================================== *)
(** ** The parser returns, and sets only what it has read *)
(* ===================================================================== *)

Section BestEffort.

Context `{lib : PyLib}.
Variable language_hint : option string.

Lemma or_None_of_found (found : option node) :
  match found with
  | Some n => or_None (_safe_text (Some n))
  | None => None
  end = or_None (_safe_text found).
Proof. by destruct found. Qed.

Lemma _parse_score_read c sc :
  _parse_score c = Ok sc ->
  sc = (if PyStr.is_empty (_safe_text (score_element c)) then None
        else float_of_str (PyStr.replace ","%char "." (_safe_text (score_element c)))).
Proof.
  unfold _parse_score. fold (score_element c).
  destruct (PyStr.is_empty _); [by intros [= <-]|].
  unfold py_float. destruct (float_of_str _); simpl; by intros [= <-].
Qed.

Lemma _parse_review_date_read c rd :
  _parse_review_date c = Ok rd ->
  rd = match Dom.find (Dom.is_tag "time") c with
       | Some time_node =>
           match Dom.get "datetime" time_node with
           | Some dt_val =>
               match iso_timestamp (PyStr.replace "Z"%char "+00:00" dt_val) with
               | Ok t => Some t
               | Raise _ => None
               end
           | None => None
           end
       | None => None
       end.
Proof.
  unfold _parse_review_date.
  destruct (Dom.find (Dom.is_tag "time") c) as [time_node|]; simpl.
  - destruct (Dom.get "datetime" time_node) as [dt_val|]; simpl.
    + destruct (iso_timestamp _) as [t|e]; simpl.
      * by intros [= <-].
      * unfold any_Exception. simpl. destruct (PyStr.is_empty _); by intros [= <-].
    + destruct (PyStr.is_empty _); by intros [= <-].
  - destruct (PyStr.is_empty _); by intros [= <-].
Qed.

Lemma _parse_booking_info_nights c bk :
  _parse_booking_info c = Ok bk ->
  nights bk
  = match Dom.find (testid "review-stay-date") c with
    | Some stay_node =>
        let digits := PyStr.filter PyStr.isdigit (_safe_text (Some stay_node)) in
        if PyStr.is_empty digits then None else PyInt.of_str digits
    | None => None
    end.
Proof.
  unfold _parse_booking_info.
  destruct (Dom.find (testid "review-stay-date") c) as [stay|]; simpl.
  - rewrite _extract_int_from_text_spec. simpl. by intros [= <-].
  - by intros [= <-].
Qed.

Lemma language_from_a_source (card : tag_in_context) (l : string) :
  or_str (_parse_language card) language_hint = Some l ->
  Some l ∈ language_sources language_hint card.
Proof.
  unfold _parse_language, language_sources, Dom.has_attr.
  destruct (Dom.get "lang" (card_node card)) as [x|] eqn:Elang.
  - unfold or_str. destruct (PyStr.is_empty x).
    + intros ->. set_solver.
    + intros [= ->]. set_solver.
  - destruct (or_str (Dom.get "data-review-language" (card_node card)) None)
      as [d|] eqn:Edata.
    + assert (Dom.get "data-review-language" (card_node card) = Some d) as ->.
      { revert Edata. unfold or_str.
        destruct (Dom.get "data-review-language" (card_node card)) as [y|]; [|done].
        by destruct (PyStr.is_empty y). }
      unfold or_str. destruct (PyStr.is_empty d).
      * intros ->. set_solver.
      * intros [= ->]. set_solver.
    + destruct (Dom.find_parent "html" card) as [html|].
      * destruct (Dom.get "lang" html) as [h|] eqn:Eh.
        -- unfold or_str. destruct (PyStr.is_empty h).
           ++ intros ->. set_solver.
           ++ intros [= ->]. set_solver.
        -- simpl. intros ->. set_solver.
      * simpl. intros ->. set_solver.
Qed.

Lemma photos_are_sources c ph p :
  _parse_photos c = Ok ph -> p ∈ ph -> p ∈ photo_sources c.
Proof.
  rewrite _parse_photos_spec. intros [= <-].
  unfold first_seen. rewrite <- (app_nil_l (first_seen_after _ _)).
  rewrite <- (unique_loop_first_seen _ ∅ [] []) by set_solver.
  rewrite unique_loop_elem.
  intros [H|[H _]]; [by apply elem_of_nil in H|].
  apply list_elem_of_In, filter_In in H as [H _]. by apply list_elem_of_In.
Qed.

Lemma record_read_from_card card r :
  _parse_single_review language_hint card = Ok (Some r) ->
  read_from_card language_hint card r.
Proof.
  destruct (_parse_single_review_returns language_hint card)
    as (sc & rd & bk & ph & Hsc & Hrd & Hbk & Hph & ->).
  simpl. destruct (_ && _); [done|]. intros [= <-].
  unfold read_from_card. cbn zeta. simpl.
  destruct (_parse_booking_info_fields _ _ Hbk) as (Hroom & Hin & Hout & Hcust & _).
  split; [by apply _parse_score_read|].
  split; [by apply _parse_review_date_read|].
  split; [done|]. split; [done|].
  split; [apply or_None_of_found|].
  split; [rewrite Hroom; apply or_None_of_found|].
  split; [rewrite Hcust; apply or_None_of_found|].
  split; [by apply _parse_booking_info_nights|].
  split; [done|]. split; [done|].
  split; [apply language_from_a_source|].
  intros p. by apply photos_are_sources.
Qed.

Lemma stored_score_from_block soup observed key e :
  _extract_hotel_stats soup = Ok observed ->
  scores observed !! key = Some e ->
  exists block,
    block ∈ score_blocks soup /\ score_block_entry block = Some (key, e).
Proof.
  intros Hobs.
  destruct (_extract_hotel_stats_unfold soup) as (a1 & a2 & obs & H1 & H2 & H3 & E).
  rewrite E in Hobs. injection Hobs as ->.
  destruct (score_blocks_fold (score_blocks soup) a2) as (s' & Hs' & _ & Hsc).
  unfold score_blocks in Hs'. rewrite H3 in Hs'. injection Hs' as <-.
  rewrite Hsc, foldl_insert_last.
  apply strategy2_scores in H2.
  unfold last_entry.
  destruct (last _) as [[k e']|] eqn:El; simpl.
  - intros [= <-]. apply last_Some_elem_of in El.
    apply list_elem_of_In, filter_In in El as [Hin Hk].
    apply bool_decide_eq_true in Hk. simpl in Hk. subst k.
    by apply list_elem_of_In, list_elem_of_omap in Hin.
  - rewrite H2, <- H1, scan_scripts_scores. simpl. intros H. by apply lookup_empty_Some in H.
Qed.

(** C1. For every input text, [parse] returns a pair of statistics and
    reviews and raises nothing.  Every record it returns was read from a
    review card of the document; each optional field of the record holds
    what the card gives for it and is unset where the card has no element
    to read it from or the reader rejects what the element holds: nothing
    is guessed.  Every score entry was read from a score block, and with
    no score block the scores stay empty.  The total is the exception: it
    is never unset, and where no count was observed it is the number of
    records returned. *)
Theorem parse_returns_best_effort (html : string) :
  exists observed stats reviews,
    _extract_hotel_stats (BeautifulSoup html) = Ok observed
    /\ parse language_hint html = Ok (stats, reviews)
    /\ scores stats = scores observed
    /\ (Dom.select (testid "review-subscore") (BeautifulSoup html) = [] ->
        scores stats = ∅)
    /\ (forall key e,
          scores stats !! key = Some e ->
          exists block,
            block ∈ score_blocks (BeautifulSoup html)
            /\ score_block_entry block = Some (key, e))
    /\ totalReviews stats
       = match totalReviews observed with
         | Some n => Some n
         | None => Some (Z.of_nat (List.length reviews))
         end
    /\ totalReviews stats <> None
    /\ Forall (fun r =>
                 exists card,
                   card ∈ review_cards (BeautifulSoup html)
                   /\ _parse_single_review language_hint card = Ok (Some r)
                   /\ unset_when_absent language_hint card r
                   /\ read_from_card language_hint card r)
              reviews.
Proof.
  destruct (parse_spec language_hint html) as (observed & Hobs & Hparse).
  eexists observed, _, _. split; [exact Hobs|]. split; [exact Hparse|]. cbn zeta.
  assert (scores (if is_None (totalReviews observed)
                  then set_totalReviews
                         (Some (Z.of_nat (List.length
                            (omap (review_of language_hint)
                               (review_cards (BeautifulSoup html)))))) observed
                  else observed) = scores observed) as Hscores
    by (by destruct (is_None _)).
  split; [exact Hscores|]. split; [|split; [|split; [|split]]].
  - intros Hsel. rewrite Hscores. exact (no_score_blocks_no_scores _ _ Hsel Hobs).
  - intros key e. rewrite Hscores. by apply stored_score_from_block.
  - apply derived_total.
  - rewrite derived_total. by destruct (totalReviews observed).
  - apply Forall_forall. intros r Hr.
    apply list_elem_of_omap in Hr as (card & Hcard & Hrev).
    apply review_of_Some in Hrev.
    exists card. split; [done|]. split; [done|].
    split; [by apply record_unset_when_absent | by apply record_read_from_card].
Qed.

End BestEffort.

(** C1, refuted.  In a text that is no page at all the parser finds
    nothing to read a count from, and [parse] returns the total set, to
    0. *)
Lemma garbage_gets_a_total :
  BeautifulSoup (PyLib := Demo.lib) "%PDF-1.7 not a page" = Demo.empty_page
  /\ _extract_hotel_stats (lib := Demo.lib) Demo.empty_page
     = Ok {| totalReviews := None; scores := ∅ |}
  /\ parse (lib := Demo.lib) None "%PDF-1.7 not a page"
     = Ok ({| totalReviews := Some 0; scores := ∅ |}, []).
Proof. repeat split; reflexivity. Qed.

Lemma parse_returns_best_effort_witness :
  exists stats reviews,
    parse (lib := Sample.lib) None "https://s.example/dated" = Ok (stats, reviews)
    /\ totalReviews stats <> None
    /\ totalReviews stats = Some 1
    /\ Forall (fun r => score r = None
                        /\ reviewDate r = Some 1661472000
                        /\ guest_name (guest r) = Some "Ann"
                        /\ guest_country (guest r) = None)
              reviews.
Proof.
  destruct (parse_returns_best_effort (lib := Sample.lib) None "https://s.example/dated")
    as (observed & stats & reviews & _ & Hparse & _ & _ & _ & _ & Hset & _).
  exists stats, reviews. split; [exact Hparse|]. split; [exact Hset|].
  vm_compute in Hparse. injection Hparse as <- <-.
  split; [reflexivity|].
  apply Forall_cons. split; [|apply Forall_nil_2]. repeat split; reflexivity.
Defined.

(* ===================================================================== *)
(** ** Review cards: what the fields can be *)
(* ===================================================================== *)

Section CardFacts.

Context `{lib : PyLib}.
Variable language_hint : option string.

(** X6. The review date of a card is set only from its first [time]
    element: exactly when that element has a [datetime] attribute whose
    value, with each Z written as +00:00, the ISO parser accepts; the
    date is then that timestamp.  The text of a review-date element never
    sets it. *)
Theorem review_date_only_from_time_element (card : node) (t : Z) :
  _parse_review_date card = Ok (Some t)
  <-> exists time_node dt_val,
        Dom.find (Dom.is_tag "time") card = Some time_node
        /\ Dom.get "datetime" time_node = Some dt_val
        /\ iso_timestamp (PyStr.replace "Z"%char "+00:00" dt_val) = Ok t.
Proof.
  unfold _parse_review_date. split.
  - destruct (Dom.find (Dom.is_tag "time") card) as [time_node|]; simpl.
    + destruct (Dom.get "datetime" time_node) as [dt_val|] eqn:Edt; simpl.
      * destruct (iso_timestamp _) as [t'|e] eqn:E; simpl.
        -- intros [= <-]. by exists time_node, dt_val.
        -- unfold any_Exception. simpl. by destruct (PyStr.is_empty _).
      * by destruct (PyStr.is_empty _).
    + by destruct (PyStr.is_empty _).
  - intros (time_node & dt_val & -> & Hdt & Hiso). simpl. rewrite Hdt, Hiso. done.
Qed.

Lemma or_None_not_empty s : or_None s <> Some "".
Proof. unfold or_None. destruct s; simpl; congruence. Qed.

Lemma or_str_not_empty a b : or_str a b = Some "" -> b = Some "".
Proof.
  unfold or_str. destruct a as [s|]; [|done].
  destruct s; simpl; [done | congruence].
Qed.

(** X7. In a record no optional text field holds the empty string: the
    guest's name, country and type, the room type and the customer type
    are unset or not empty, and so is the language, unless the hint given
    to the parser is itself the empty string. *)
Theorem optional_texts_are_never_empty (card : tag_in_context) (r : ReviewRecord) :
  _parse_single_review language_hint card = Ok (Some r) ->
  guest_name (guest r) <> Some ""
  /\ guest_country (guest r) <> Some ""
  /\ guest_type (guest r) <> Some ""
  /\ roomType (booking r) <> Some ""
  /\ customerType (booking r) <> Some ""
  /\ (language r = Some "" -> language_hint = Some "").
Proof.
  destruct (_parse_single_review_returns language_hint card)
    as (sc & rd & bk & ph & _ & _ & Hbk & _ & ->).
  simpl. destruct (_ && _); [done|]. intros [= <-]. simpl.
  destruct (_parse_booking_info_fields _ _ Hbk) as (Hroom & _ & _ & Hcust & _).
  rewrite Hroom, Hcust. unfold _parse_guest_info. simpl.
  repeat split; try apply or_None_not_empty.
  - destruct (Dom.find (testid "reviewer-type") _); [apply or_None_not_empty | done].
  - destruct (Dom.find (testid "review-room-type") _); [apply or_None_not_empty | done].
  - destruct (Dom.find (testid "review-customer-type") _); [apply or_None_not_empty | done].
  - apply or_str_not_empty.
Qed.

Lemma head_filter_Some {A} (p : A -> bool) (l : list A) (x : A) :
  In x l -> p x = true -> exists y, head (List.filter p l) = Some y.
Proof.
  intros Hin Hp. destruct (List.filter p l) as [|y ys] eqn:E; [|by exists y].
  assert (In x (List.filter p l)) as H by (apply filter_In; done).
  rewrite E in H. destruct H.
Qed.

(** X8. A card in which some paragraph has text always gives a record,
    and the record has a positive or a negative content.  When neither
    of the two explicit elements gives text, the positive content is the
    text of the first paragraph that has one. *)
Theorem paragraph_text_makes_a_record (card : tag_in_context) (p : node) :
  p ∈ Dom.find_all (Dom.is_tag "p") (card_node card) ->
  _safe_text (Some p) <> "" ->
  exists r,
    _parse_single_review language_hint card = Ok (Some r)
    /\ (positiveContent r <> "" \/ negativeContent r <> "")
    /\ (_safe_text (Dom.find (testid "review-positive-text") (card_node card)) = "" ->
        _safe_text (Dom.find (testid "review-negative-text") (card_node card)) = "" ->
        exists first_,
          head (List.filter (fun q => negb (PyStr.is_empty (_safe_text (Some q))))
                  (Dom.find_all (Dom.is_tag "p") (card_node card))) = Some first_
          /\ positiveContent r = _safe_text (Some first_)
          /\ positiveContent r <> "").
Proof.
  intros Hp Htext.
  destruct (_parse_single_review_returns language_hint card)
    as (sc & rd & bk & ph & _ & _ & _ & _ & E).
  set (paragraphs :=
         List.filter (fun q => negb (PyStr.is_empty (_safe_text (Some q))))
           (Dom.find_all (Dom.is_tag "p") (card_node card))).
  assert (exists first_ rest, paragraphs = first_ :: rest
                              /\ _safe_text (Some first_) <> "") as (f & rest & Hpar & Hf).
  { destruct paragraphs as [|f rest] eqn:Epar.
    - exfalso. assert (In p paragraphs) as Hin.
      { apply filter_In. split; [by apply list_elem_of_In|].
        apply negb_true_iff. by apply is_empty_false. }
      rewrite Epar in Hin. destruct Hin.
    - exists f, rest. split; [done|].
      assert (In f paragraphs) as Hin by (rewrite Epar; by left).
      apply filter_In in Hin as [_ Hne]. apply negb_true_iff in Hne.
      by apply is_empty_false. }
  assert (let pn := _parse_review_text (card_node card) in
          (fst pn <> "" \/ snd pn <> "")
          /\ (_safe_text (Dom.find (testid "review-positive-text") (card_node card)) = "" ->
              _safe_text (Dom.find (testid "review-negative-text") (card_node card)) = "" ->
              fst pn = _safe_text (Some f))) as [Hsome Hfallback].
  { unfold _parse_review_text. fold paragraphs. rewrite Hpar.
    destruct (Dom.find (testid "review-positive-text") (card_node card)) as [pos|];
      destruct (Dom.find (testid "review-negative-text") (card_node card)) as [neg|];
      cbn zeta.
    all: repeat match goal with
           | |- context [PyStr.is_empty ?x] =>
               let E := fresh "E" in destruct (PyStr.is_empty x) eqn:E
           end; cbn [andb fst snd].
    all: repeat match goal with
           | H : PyStr.is_empty _ = true |- _ => apply is_empty_true in H
           | H : PyStr.is_empty _ = false |- _ => apply is_empty_false in H
           end.
    all: destruct rest; cbn [fst snd]; split; try tauto; try (intros; congruence);
      try (by left); try (by right). }
  rewrite E. cbn zeta.
  destruct (PyStr.is_empty (fst _) && PyStr.is_empty (snd _)
            && PyStr.is_empty (_parse_title _)) eqn:Edrop.
  - exfalso. apply andb_true_iff in Edrop as [Edrop _].
    apply andb_true_iff in Edrop as [E1 E2].
    apply is_empty_true in E1. apply is_empty_true in E2. tauto.
  - eexists. split; [done|]. simpl. split; [exact Hsome|].
    intros H1 H2. exists f. fold paragraphs. rewrite Hpar.
    split; [done|]. rewrite (Hfallback H1 H2). by split.
Qed.

End CardFacts.

(* ===================================================================== *)
(** ** Structured data: what a block can change *)
(* ===================================================================== *)

Section JsonLdFacts.

Context `{lib : PyLib}.

(** X9. A block of structured data changes the statistics in one way
    only: it stores a total, while none is stored, read with [int] from
    the [reviewCount] (or [ratingCount]) of the aggregate-rating object
    that the lodging object itself carries.  Scores are never touched, a
    stored total is never replaced, and an aggregate rating that sits
    anywhere else (inside a member of ["@graph"], say) is not read. *)
Theorem jsonld_sets_the_total_only (item : json) (stats stats' : HotelStatistics) :
  _populate_stats_from_jsonld item stats = Ok stats' ->
  stats' = stats
  \/ exists d a n,
       item = JDict d
       /\ lodging_with_aggregate d a
       /\ totalReviews stats = None
       /\ Json.to_int (Json.or_ (Json.get "reviewCount" a) (Json.get "ratingCount" a))
          = Ok n
       /\ stats' = set_totalReviews (Some n) stats.
Proof.
  unfold _populate_stats_from_jsonld. destruct item as [| | | | |?|d]; try (intros [= <-]; by left).
  destruct (jsonld_data_type d) as [t|e] eqn:Et; simpl; [|done].
  destruct (Json.is_lodging_type t) eqn:Hl; simpl; [|intros [= <-]; by left].
  destruct (Json.or_ (Json.get "aggregateRating" d) (JDict [])) as [| | | | | |a] eqn:Ea;
    try (intros [= <-]; by left).
  unfold Json.or_ in Ea at 1.
  destruct (Json.truthy (Json.get "aggregateRating" d)) eqn:Hagg.
  - destruct (Json.truthy (Json.or_ (Json.get "reviewCount" a) (Json.get "ratingCount" a)))
      eqn:Ht; cbn [andb]; [|intros [= <-]; by left].
    destruct (totalReviews stats) eqn:Hs; cbn [is_None]; [intros [= <-]; by left|].
    destruct (Json.to_int _) as [n|e] eqn:Hn; simpl.
    + intros [= <-]. right. exists d, a, n. repeat split; try done. by exists t.
    + destruct (_ || _); [intros [= <-]; by left | done].
  - injection Ea as <-. simpl. intros [= <-]. by left.
Qed.

Lemma to_int_raises v e :
  Json.to_int v = Raise e ->
  e = TypeError \/ e = ValueError \/ (e = OverflowError /\ exists b, v = JFloat (FInf b)).
Proof.
  destruct v as [| | |[q|b|]|s| |]; simpl; try (intros [= <-]; auto); try done.
  - right. right. split; [done|]. by exists b.
  - destruct (PyInt.of_str s); [done|]. intros [= <-]. auto.
Qed.

(** X10. A lodging entity whose count [int] cannot read (a string such as
    "1,234", a list, a NaN) stores nothing and does not stop the scan:
    the blocks after it are read as if it were not there.  The one count
    that stops the scan is an infinite number, on which [int] raises
    [OverflowError]. *)
Theorem unreadable_count_is_skipped
    (script : node) (rest : list node) (d a : list (string * json))
    (stats : HotelStatistics) (e : exn) :
  json_loads (script_payload script) = Ok (JDict d) ->
  lodging_with_aggregate d a ->
  Json.to_int (Json.or_ (Json.get "reviewCount" a) (Json.get "ratingCount" a)) = Raise e ->
  (e <> OverflowError ->
   _populate_stats_from_jsonld (JDict d) stats = Ok stats
   /\ scan_scripts (script :: rest) stats = scan_scripts rest stats)
  /\ (e = OverflowError ->
      exists b,
        Json.or_ (Json.get "reviewCount" a) (Json.get "ratingCount" a) = JFloat (FInf b)
        /\ (totalReviews stats = None ->
            scan_scripts (script :: rest) stats = (stats, Raise OverflowError))).
Proof.
  intros Hload Hl Hint.
  rewrite (scan_scripts_cons_dict _ _ _ _ Hload), (populate_lodging d a stats Hl).
  cbn zeta. rewrite Hint. cbn [exc_bind try_except].
  destruct (to_int_raises _ _ Hint) as [->|[->|[-> [b Hb]]]].
  - split; [|done]. intros _. cbn [is_TypeError is_ValueError orb]. by destruct (_ && _).
  - split; [|done]. intros _. cbn [is_TypeError is_ValueError orb]. by destruct (_ && _).
  - split; [done|]. intros _. exists b. split; [done|].
    intros ->. rewrite Hb. by simpl.
Qed.

End JsonLdFacts.

(* ===================================================================== *)
(** ** Pagination: where the next URL comes from, and when the run ends *)
(* ===================================================================== *)

Section NextPage.

Context `{lib : PyLib}.

Lemma find_Some (p : node -> bool) (n x : node) :
  Dom.find p n = Some x -> x ∈ Dom.descendants n /\ p x = true.
Proof.
  unfold Dom.find, Dom.find_all. intros H.
  assert (In x (List.filter p (Dom.descendants n))) as Hin.
  { destruct (List.filter p (Dom.descendants n)); [done|].
    injection H as ->. by left. }
  apply filter_In in Hin as [Hin Hp]. split; [by apply list_elem_of_In | done].
Qed.

Lemma href_of_Some link href :
  href_of link = Some href ->
  exists n, link = Some n /\ Dom.get "href" n = Some href /\ href <> "".
Proof.
  unfold href_of. destruct link as [n|]; [|done]. unfold or_str.
  destruct (Dom.get "href" n) as [h|] eqn:E; [|done].
  destruct (PyStr.is_empty h) eqn:Eh; [done|]. intros [= <-].
  exists n. repeat split; try done. by apply is_empty_false.
Qed.

Lemma next_from_labels_Some anchors current_url u :
  next_from_labels anchors current_url = Ok (Some u) ->
  exists a href,
    a ∈ anchors /\ Dom.get "href" a = Some href /\ href <> ""
    /\ urljoin current_url href = Ok u.
Proof.
  induction anchors as [|a anchors IH]; simpl; [done|].
  assert (next_from_labels anchors current_url = Ok (Some u) ->
          exists a0 href,
            a0 ∈ a :: anchors /\ Dom.get "href" a0 = Some href /\ href <> ""
            /\ urljoin current_url href = Ok u) as Hrest.
  { intros H. destruct (IH H) as (a0 & href & Hin & ?). exists a0, href.
    split; [by right | done]. }
  destruct (_ || _); [|done].
  destruct (or_str (Dom.get "href" a) None) as [href|] eqn:E; [|done].
  destruct (urljoin current_url href) as [u'|e] eqn:Eu; simpl; [|done].
  intros [= <-]. exists a, href.
  destruct (href_of_Some (Some a) href E) as (n & [= <-] & Hget & Hne).
  split; [by left | done].
Qed.

Lemma next_from_labels_no_href anchors current_url :
  (forall a, a ∈ anchors -> or_str (Dom.get "href" a) None = None) ->
  next_from_labels anchors current_url = Ok None.
Proof.
  induction anchors as [|a anchors IH]; intros H; simpl; [done|].
  rewrite (H a) by (by left).
  assert (next_from_labels anchors current_url = Ok None) as ->
    by (apply IH; intros a0 Ha0; apply H; by right).
  by destruct (_ || _).
Qed.

(** X11. The next URL is always made from a link of the page: whichever
    strategy finds it, it is [urljoin] of the current URL and the
    non-empty [href] of an [a] element of the document.  A page none of
    whose [a] elements has a non-empty [href] has no next URL. *)
Theorem next_url_comes_from_a_link (html current_url : string) :
  (forall u,
     _find_next_page_url html current_url = Ok (Some u) ->
     exists a href,
       a ∈ Dom.descendants (BeautifulSoup html)
       /\ Dom.is_tag "a" a = true
       /\ Dom.get "href" a = Some href /\ href <> ""
       /\ urljoin current_url href = Ok u)
  /\ ((forall a, a ∈ Dom.descendants (BeautifulSoup html) ->
                 Dom.is_tag "a" a = true ->
                 or_str (Dom.get "href" a) None = None) ->
      _find_next_page_url html current_url = Ok None).
Proof.
  unfold _find_next_page_url. split.
  - intros u.
    destruct (href_of (Dom.find _ (BeautifulSoup html))) as [href|] eqn:E1.
    + destruct (href_of_Some _ _ E1) as (n & Hfind & Hget & Hne).
      apply find_Some in Hfind as [Hin Hp]. apply andb_true_iff in Hp as [Htag _].
      destruct (urljoin current_url href) as [u'|e] eqn:Eu; simpl; [|done].
      intros [= <-]. by exists n, href.
    + destruct (next_from_labels _ current_url) as [[u'|]|e] eqn:E2; simpl; [| |done].
      * intros [= <-].
        destruct (next_from_labels_Some _ _ _ E2) as (a & href & Hin & Hget & Hne & Hu).
        apply list_elem_of_In, filter_In in Hin as [Hin Htag].
        exists a, href. split; [by apply list_elem_of_In | done].
      * destruct (Dom.find (Dom.attr_is "data-testid" "review-paginator-next") _)
          as [btn|] eqn:E3; [|done].
        case_bool_decide as Hname; [|done].
        destruct (href_of (Some btn)) as [href|] eqn:E4; [|done].
        destruct (href_of_Some _ _ E4) as (n & [= <-] & Hget & Hne).
        apply find_Some in E3 as [Hin _].
        destruct (urljoin current_url href) as [u'|e] eqn:Eu; simpl; [|done].
        intros [= <-]. exists btn, href. repeat split; try done.
        destruct btn as [|nm attrs ch]; simpl in *; [done|].
        injection Hname as ->. unfold PyStr.eqb. by apply bool_decide_eq_true.
  - intros Hnone.
    assert (forall link,
              (forall n, link = Some n ->
                         n ∈ Dom.descendants (BeautifulSoup html)
                         /\ Dom.is_tag "a" n = true) ->
              href_of link = None) as Hhref.
    { intros [n|] Hn; [|done]. simpl. destruct (Hn n eq_refl). by apply Hnone. }
    rewrite Hhref.
    2:{ intros n Hn. apply find_Some in Hn as [Hin Hp].
        apply andb_true_iff in Hp as [Htag _]. done. }
    rewrite next_from_labels_no_href.
    2:{ intros a Ha. apply list_elem_of_In, filter_In in Ha as [Hin Htag].
        apply Hnone; [by apply list_elem_of_In | done]. }
    simpl.
    destruct (Dom.find (Dom.attr_is "data-testid" "review-paginator-next") _)
      as [btn|] eqn:E3; [|done].
    case_bool_decide as Hname; [|done].
    rewrite Hhref; [done|]. intros n [= <-].
    apply find_Some in E3 as [Hin _]. split; [done|].
    destruct btn as [|nm attrs ch]; simpl in *; [done|].
    injection Hname as ->. unfold PyStr.eqb. by apply bool_decide_eq_true.
Qed.

End NextPage.

Section RunFacts.

Context `{lib : PyLib}.
Variable max_items : Z.
Variable language : option string.
Variable max_retries : Z.

(** X12. A run whose first page cannot be fetched, because every attempt
    fails or the page comes back empty, ends at once with no review and a
    total of 0; it raises nothing.  With [max_retries] zero or negative
    that is every run: [_fetch] makes no request at all. *)
Theorem unfetched_first_page_gives_empty_result (hotel_url : string) (w : World) (fuel : nat) :
  (max_retries <= 0 -> _fetch max_retries hotel_url w = (None, w))
  /\ ((fst (_fetch max_retries hotel_url w) = None
       \/ fst (_fetch max_retries hotel_url w) = Some "") ->
      scrape_reviews max_items language max_retries (S fuel) hotel_url w
      = Some empty_result).
Proof.
  split.
  - intros H. unfold _fetch. by replace (Z.to_nat max_retries) with O by lia.
  - intros H. unfold scrape_reviews. simpl. unfold iter_pages_loop.
    destruct (negb (PyStr.is_empty hotel_url) && _); [|done].
    destruct (_fetch max_retries hotel_url w) as [[html|] w']; simpl in *.
    + destruct H as [H|H]; [done|]. injection H as ->. done.
    + done.
Qed.









(** What the inner loop appends: the reviews of the page up to the cap,
    and at least one. *)
Lemma append_reviews_take (page_reviews : list ReviewRecord) :
  forall all_reviews,
    let room := Z.to_nat (Z.max 1 (max_items - Z.of_nat (List.length all_reviews))) in
    append_reviews max_items page_reviews all_reviews
    = (all_reviews ++ take room page_reviews,
       if (room <=? List.length page_reviews)%nat then Raise StopIteration else Ok tt).
Proof.
  induction page_reviews as [|r rest IH]; intros all_reviews; cbn zeta.
  - simpl. rewrite take_nil, app_nil_r.
    destruct (Z.to_nat _ <=? 0)%nat eqn:E; [|done]. apply Nat.leb_le in E. lia.
  - cbn [append_reviews].
    destruct (Z.of_nat (List.length (all_reviews ++ [r])) >=? max_items) eqn:E.
    + rewrite Z.geb_leb in E. apply Z.leb_le in E.
      rewrite length_app in E. simpl in E.
      replace (Z.to_nat (Z.max 1 (max_items - Z.of_nat (List.length all_reviews))))
        with 1%nat by lia.
      reflexivity.
    + rewrite Z.geb_leb in E. apply Z.leb_gt in E.
      rewrite IH. cbn zeta. rewrite length_app in *. simpl in *.
      replace (Z.to_nat (Z.max 1 (max_items - Z.of_nat (List.length all_reviews))))
        with (S (Z.to_nat
                   (Z.max 1 (max_items
                             - Z.of_nat (List.length all_reviews + 1))))) by lia.
      simpl. by rewrite <- app_assoc.
Qed.

(** X14. The reviews of a page are appended in order to those already
    held, which are never dropped or reordered.  From a page the run takes
    the first [max_items - held] reviews, but never fewer than one, and
    stops the pagination exactly when the page has that many; so a run
    that starts below a cap of one or more never ends above it. *)
Theorem reviews_accumulate_up_to_the_cap :
  (forall page_reviews held,
     let room := Z.to_nat (Z.max 1 (max_items - Z.of_nat (List.length held))) in
     fst (append_reviews max_items page_reviews held) = held ++ take room page_reviews
     /\ (snd (append_reviews max_items page_reviews held) = Raise StopIteration
         <-> (room <= List.length page_reviews)%nat))
  /\ (1 <= max_items ->
      forall fuel hotel_url w result,
        scrape_reviews max_items language max_retries fuel hotel_url w = Some result ->
        Z.of_nat (List.length (reviews result)) <= max_items).
Proof.
  split.
  - intros page_reviews held. cbn zeta. rewrite append_reviews_take. cbn zeta. simpl.
    split; [done|].
    destruct (_ <=? _)%nat eqn:E.
    + apply Nat.leb_le in E. by split.
    + apply Nat.leb_gt in E. split; [done | lia].
  - intros Hpos fuel hotel_url w result. unfold scrape_reviews.
    destruct (pages_loop _ _ _ _ _ _ _) as [st|] eqn:E; [|done].
    intros [= <-]. simpl.
    apply (pages_loop_cap max_items language max_retries _ _ _ _ _ Hpos) in E; [done|].
    simpl. lia.
Qed.

End RunFacts.

Section RunStatistics.

Context `{lib : PyLib}.
Variable max_items : Z.
Variable language : option string.
Variable max_retries : Z.

(** The loop keeps the statistics it has and only appends reviews. *)
Lemma pages_loop_keeps fuel :
  forall g w st st',
    pages_loop max_items language max_retries fuel g w st = Some st' ->
    (forall s, hotel_stats st = Some s -> hotel_stats st' = Some s)
    /\ exists later, all_reviews st' = all_reviews st ++ later.
Proof.
  induction fuel as [|fuel IH]; intros g w st st'; simpl; [done|].
  assert (forall s, hotel_stats st = Some s -> hotel_stats st = Some s
                    /\ exists later, all_reviews st = all_reviews st ++ later) as Hsame.
  { intros s Hs. split; [done|]. exists []. by rewrite app_nil_r. }
  assert ((forall s, hotel_stats st = Some s -> hotel_stats st = Some s)
          /\ exists later, all_reviews st = all_reviews st ++ later) as Hstay.
  { split; [done|]. exists []. by rewrite app_nil_r. }
  destruct (iter_pages_next max_retries g w) as [r|e]; [|by intros [= <-]].
  destruct (yielded r) as [page_html|]; [|by intros [= <-]].
  unfold page_body.
  destruct (parse language page_html) as [[parsed_stats page_reviews]|e];
    [|by intros [= <-]].
  rewrite append_reviews_take. cbn zeta.
  set (room := Z.to_nat (Z.max 1 (max_items - Z.of_nat (List.length (all_reviews st))))).
  destruct (room <=? List.length page_reviews)%nat.
  - intros [= <-]. simpl. split.
    + by intros s ->.
    + by eexists.
  - intros Hrest. destruct (IH _ _ _ _ Hrest) as [Hstats [later Hlater]]. simpl in *.
    split.
    + intros s Hs. apply Hstats. by rewrite Hs.
    + exists (take room page_reviews ++ later). by rewrite Hlater, <- app_assoc.
Qed.

(** X21. The statistics of a run are those of its first page: the
    statistics of later pages are parsed and dropped, so a total that
    [parse] derived is the number of records of the first page, not of the
    run.  The reviews of the run start with those of the first page, up to
    the cap. *)
Theorem statistics_come_from_the_first_page
    (fuel : nat) (hotel_url : string) (w : World) (result : scrape_result)
    (html : string) (stats : HotelStatistics) (page_reviews : list ReviewRecord) :
  yielded (iter_pages_loop max_retries hotel_url ∅ w) = Some html ->
  parse language html = Ok (stats, page_reviews) ->
  scrape_reviews max_items language max_retries fuel hotel_url w = Some result ->
  hotelStats result = stats
  /\ exists later,
       reviews result = take (Z.to_nat (Z.max 1 max_items)) page_reviews ++ later.
Proof.
  intros Hyield Hparse. unfold scrape_reviews.
  destruct (pages_loop _ _ _ _ _ _ _) as [st|] eqn:Hloop; [|done]. intros [= <-].
  destruct fuel as [|fuel]; [done|]. simpl in Hloop. rewrite Hyield in Hloop.
  unfold page_body in Hloop. rewrite Hparse, append_reviews_take in Hloop.
  cbn zeta in Hloop. cbn [all_reviews hotel_stats] in Hloop.
  replace (max_items - Z.of_nat (List.length (@nil ReviewRecord))) with max_items
    in Hloop by (simpl; lia).
  rewrite app_nil_l in Hloop.
  destruct (_ <=? _)%nat.
  - injection Hloop as <-. unfold finish. simpl. split; [done|].
    exists []. by rewrite app_nil_r.
  - destruct (pages_loop_keeps _ _ _ _ _ Hloop) as [Hstats [later Hlater]].
    unfold finish. simpl in *. rewrite (Hstats stats eq_refl). split; [done|].
    by exists later.
Qed.

End RunStatistics.

Section FetchFacts.

Context `{lib : PyLib}.

Lemma fetch_attempts_more (n extra : nat) (url : string) :
  forall w text w',
    fetch_attempts n url w = (Some text, w') ->
    fetch_attempts (n + extra) url w = (Some text, w').
Proof.
  induction n as [|n IH]; intros w text w'; simpl; [done|].
  destruct (session_get url w) as [[t|] w1]; [done|]. apply IH.
Qed.

Lemma fetch_attempts_first (n : nat) (url : string) :
  forall w,
    fst (session_get url w) <> None ->
    fetch_attempts (S n) url w = session_get url w.
Proof.
  intros w. simpl. by destruct (session_get url w) as [[t|] w1].
Qed.

(** X22. Retrying is monotone and stops at the first answer.  A page
    that [_fetch] gets within [max_retries] attempts it gets, with the same
    text and the same state of the network after it, under any larger
    [max_retries]; and when the first request succeeds, it is the only
    request made, whatever [max_retries] of one or more is set. *)
Theorem more_retries_fetch_the_same_page
    (max_retries more : Z) (url : string) (w w' : World) (text : string) :
  _fetch max_retries url w = (Some text, w') ->
  max_retries <= more ->
  _fetch more url w = (Some text, w')
  /\ 1 <= max_retries
  /\ (fst (session_get url w) <> None -> session_get url w = (Some text, w')).
Proof.
  unfold _fetch. intros Hfetch Hmore.
  assert (1 <= max_retries) as Hpos.
  { destruct (Z.to_nat max_retries) eqn:E; [done | lia]. }
  split; [|split; [done|]].
  - replace (Z.to_nat more)
      with (Z.to_nat max_retries + (Z.to_nat more - Z.to_nat max_retries))%nat by lia.
    by apply fetch_attempts_more.
  - intros Hfirst. replace (Z.to_nat max_retries) with (S (Z.to_nat max_retries - 1)) in Hfetch by lia.
    by rewrite (fetch_attempts_first _ _ _ Hfirst) in Hfetch.
Qed.

End FetchFacts.

(* ===================================================================== *)
(** ** The configuration *)
(* ===================================================================== *)

Section MergeConfigFacts.

Variable repr : json -> string.

Lemma or_truthy a b : Json.truthy (Json.or_ a b) = Json.truthy a || Json.truthy b.
Proof. unfold Json.or_. by destruct (Json.truthy a) eqn:E; rewrite ?E. Qed.

(** X15. [merge_config] raises [ValueError] on a missing hotel URL,
    whatever else is given: when the argument and both keys of the input
    file are missing or empty, it never returns.  When it returns, the URL is not
    empty, the output path and the formats are not empty either (each has
    a default), the settings are passed on unchanged, and the cap is
    whatever integer was given: no range is checked. *)
Theorem merge_config_result (settings : json) (input_cfg : list (string * json))
    (args : Namespace) :
  let no_url :=
    negb (Json.truthy (Main.of_arg (args_hotel_url args)))
    && negb (Json.truthy (Json.get "hotelUrl" input_cfg))
    && negb (Json.truthy (Json.get "hotel_url" input_cfg)) in
  (no_url = true -> Main.merge_config repr settings input_cfg args = Raise ValueError)
  /\ (forall cfg,
        Main.merge_config repr settings input_cfg args = Ok cfg ->
        no_url = false
        /\ Json.truthy (cfg_hotel_url cfg) = true
        /\ Json.truthy (cfg_output_path cfg) = true
        /\ Json.truthy (cfg_formats cfg) = true
        /\ cfg_settings cfg = settings
        /\ (forall n, args_max_items args = Some n -> cfg_max_items cfg = n)).
Proof.
  cbn zeta. unfold Main.merge_config.
  rewrite !or_truthy.
  destruct (Json.truthy (Main.of_arg (args_hotel_url args))) eqn:E1;
    destruct (Json.truthy (Json.get "hotelUrl" input_cfg)) eqn:E2;
    destruct (Json.truthy (Json.get "hotel_url" input_cfg)) eqn:E3;
    cbn [negb andb orb]; (split; [done|]); try done.
  all: intros cfg.
  all: destruct (match args_max_items args with Some _ => _ | None => _ end)
         as [mi|e] eqn:Emi; [|done]; cbn [exc_bind].
  all: destruct (Json.to_int mi) as [n|e] eqn:En; [|done]; cbn [exc_bind].
  all: destruct (Main.method_get_default "output" (JDict []) settings)
         as [output_cfg|e]; [|done]; cbn [exc_bind].
  all: destruct (if Json.truthy (Main.of_arg (args_output args)) then _ else _)
         as [out|e] eqn:Eout; [|done]; cbn [exc_bind].
  all: destruct (match args_formats args with Some _ => _ | None => _ end)
         as [fm|e] eqn:Efm; [|done]; cbn [exc_bind].
  all: intros [= <-]; cbn [cfg_hotel_url cfg_output_path cfg_formats cfg_settings
                           cfg_max_items].
  all: assert (Json.truthy out = true) as Hout
         by (revert Eout;
             destruct (Json.truthy (Main.of_arg (args_output args))) eqn:Ea;
             [intros [= <-]; done|];
             destruct (Json.truthy (Json.get "outputPath" input_cfg)) eqn:Eb;
             [intros [= <-]; done|];
             destruct (Json.method_get "path" output_cfg) as [path|?];
             [|done]; cbn [exc_bind]; intros [= <-];
             rewrite or_truthy; apply orb_true_r).
  all: assert (Json.truthy (if Json.truthy fm then fm else JList [JStr "json"]) = true)
         as Hfm by (destruct (Json.truthy fm) eqn:Ef; done).
  all: assert (forall k, args_max_items args = Some k -> n = k) as Hmax
         by (intros k Hk; rewrite Hk in Emi; injection Emi as <-;
             simpl in En; congruence).
  all: rewrite ?or_truthy, ?E1, ?E2, ?E3; repeat split; done.
Qed.

Lemma strip_idempotent s : PyStr.strip (PyStr.strip s) = PyStr.strip s.
Proof.
  unfold PyStr.strip at 1.
  rewrite (starts_clean_lstrip (PyStr.strip s)
             (rstrip_starts_clean _ (lstrip_starts_clean s))).
  apply rstrip_idempotent.
Qed.

Lemma lower_not_empty s : s <> "" -> PyStr.lower s <> "".
Proof. by destruct s. Qed.

(** X16. What is given on the command line wins over both files: with a
    hotel URL, a cap, an output path and formats on the command line, and
    settings that are an object whose [output] is an object or absent,
    [merge_config] returns exactly these, whatever the input file holds.
    The cap is kept as given, zero and negative numbers included.  The
    formats are the comma-separated names, stripped and in lower case,
    blank ones dropped, unknown ones kept; if all are blank the one
    format is json. *)
Theorem command_line_wins (settings_fields : list (string * json))
    (input_cfg : list (string * json)) (args : Namespace)
    (url out given : string) (n : Z) :
  args_hotel_url args = Some url -> url <> "" ->
  args_max_items args = Some n ->
  args_output args = Some out -> out <> "" ->
  args_formats args = Some given -> given <> "" ->
  (exists output_fields,
     Json.get_default "output" (JDict []) settings_fields = JDict output_fields) ->
  exists cfg,
    Main.merge_config repr (JDict settings_fields) input_cfg args = Ok cfg
    /\ cfg_hotel_url cfg = JStr url
    /\ cfg_max_items cfg = n
    /\ cfg_output_path cfg = JStr out
    /\ cfg_formats cfg
       = (match Main.cli_formats given with
          | [] => JList [JStr "json"]
          | names => JList (map JStr names)
          end)
    /\ Forall (fun name => name <> "" /\ PyStr.lower name = name
                           /\ PyStr.strip name = name)
              (Main.cli_formats given).
Proof.
  intros Hurl Hurl_ne Hmax Hout Hout_ne Hfm Hfm_ne (output_fields & Hcfg).
  unfold Main.merge_config. rewrite Hurl, Hmax, Hout, Hfm. simpl Main.of_arg.
  assert (Json.truthy (JStr url) = true) as Hu
    by (simpl; apply negb_true_iff; by apply is_empty_false).
  assert (Json.truthy (JStr out) = true) as Ho
    by (simpl; apply negb_true_iff; by apply is_empty_false).
  cbn zeta. rewrite or_truthy, Hu. cbn [orb negb exc_bind Json.to_int].
  unfold Main.method_get_default at 1. rewrite Hcfg. cbn [exc_bind]. rewrite Ho.
  cbn [exc_bind]. apply is_empty_false in Hfm_ne. rewrite Hfm_ne. cbn [exc_bind].
  eexists. split; [reflexivity|]. cbn [cfg_hotel_url cfg_max_items cfg_output_path
                                        cfg_formats].
  repeat split.
  - unfold Json.or_ at 1. by rewrite Hu.
  - by destruct (Main.cli_formats given).
  - unfold Main.cli_formats. apply Forall_forall. intros name Hname.
    apply list_elem_of_In, in_map_iff in Hname as (fmt & <- & Hin).
    apply filter_In in Hin as [_ Hne]. apply negb_true_iff, is_empty_false in Hne.
    split; [by apply lower_not_empty|]. split.
    + rewrite !lower_map, map_string_compose. apply map_string_ext.
      intros c. by destruct c as [[] [] [] [] [] [] [] []].
    + rewrite lower_map. unfold PyStr.strip at 1.
      rewrite (lstrip_map_string _ _ lower_char_keeps_space).
      rewrite (rstrip_commutes_map_string _ _ lower_char_keeps_space).
      f_equal. exact (strip_idempotent fmt).
Qed.

End MergeConfigFacts.

(* ===================================================================== *)
(** ** The exporter: output paths *)
(* ===================================================================== *)

Section ExporterFacts.

Lemma string_of_list_ascii_app (a b : list ascii) :
  string_of_list_ascii (a ++ b) = string_of_list_ascii a +:+ string_of_list_ascii b.
Proof. induction a as [|c a IH]; simpl; [done|]. by rewrite IH. Qed.

Lemma all_chars_of_list p (l : list ascii) :
  Forall (fun c => p c = true) l -> all_chars p (string_of_list_ascii l).
Proof. induction 1; simpl; [done | by split]. Qed.

Lemma rfind_None c l : Exporter.rfind c l = None -> c ∉ l.
Proof.
  induction l as [|x l IH]; simpl; [intros _; apply not_elem_of_nil|].
  destruct (Exporter.rfind c l); [done|].
  destruct (Ascii.eqb x c) eqn:E; [done|]. intros _.
  apply Ascii.eqb_neq in E. rewrite elem_of_cons. intros [->|H]; [done|].
  by apply IH.
Qed.

Lemma rfind_Some c l i :
  Exporter.rfind c l = Some i -> l !! i = Some c /\ c ∉ drop (S i) l.
Proof.
  revert i. induction l as [|x l IH]; intros i; simpl; [done|].
  destruct (Exporter.rfind c l) as [j|] eqn:E.
  - intros [= <-]. simpl. by apply IH.
  - destruct (Ascii.eqb x c) eqn:Ex; [|done]. intros [= <-]. simpl.
    apply Ascii.eqb_eq in Ex as ->. split; [done|]. rewrite drop_0.
    by apply rfind_None.
Qed.

Lemma not_in_later_drop {A} (x : A) (l : list A) (n m : nat) :
  (n <= m)%nat -> x ∉ drop n l -> x ∉ drop m l.
Proof.
  intros Hnm Hn Hm. apply Hn.
  replace m with (n + (m - n))%nat in Hm by lia.
  rewrite <- drop_drop in Hm. by apply (subseteq_drop (m - n) (drop n l)).
Qed.

Lemma splitext_app (p : string) :
  fst (Exporter.splitext p) +:+ snd (Exporter.splitext p) = p.
Proof.
  unfold Exporter.splitext.
  destruct (Exporter.rfind "."%char _) as [dot|]; [|apply app_empty_r].
  destruct (_ && _); [|apply app_empty_r]. simpl.
  rewrite <- string_of_list_ascii_app, take_drop.
  apply string_of_list_ascii_of_string.
Qed.

(** X17. [splitext] cuts a path in two without losing a character: root
    and extension joined give the path back.  The extension is empty or
    is a dot followed by characters among which there is neither a dot nor
    a slash: it lies in the last component and starts at its last dot. *)
Theorem splitext_round_trip (p : string) :
  let '(root, ext) := Exporter.splitext p in
  root +:+ ext = p
  /\ (ext = ""
      \/ exists tail,
           ext = String "."%char tail
           /\ all_chars (fun c => negb (Ascii.eqb c "."%char)
                                  && negb (Ascii.eqb c "/"%char)) tail).
Proof.
  unfold Exporter.splitext.
  set (l := list_ascii_of_string p).
  destruct (Exporter.rfind "."%char l) as [dot|] eqn:Edot;
    [|split; [apply app_empty_r | by left]].
  destruct ((_ <=? dot)%nat && _) eqn:Econd;
    [|split; [apply app_empty_r | by left]].
  apply andb_true_iff in Econd as [Hle _]. apply Nat.leb_le in Hle.
  apply rfind_Some in Edot as [Hdot Hlast].
  split.
  - rewrite <- string_of_list_ascii_app, take_drop.
    apply string_of_list_ascii_of_string.
  - right. exists (string_of_list_ascii (drop (S dot) l)). split.
    + by rewrite (drop_S _ _ _ Hdot).
    + apply all_chars_of_list, Forall_forall. intros c Hc.
      apply andb_true_iff. split; apply negb_true_iff, Ascii.eqb_neq; intros ->.
      * done.
      * destruct (Exporter.rfind "/"%char l) as [sep|] eqn:Esep.
        -- apply rfind_Some in Esep as [_ Hsep].
           apply (not_in_later_drop _ _ (S sep) (S dot)) in Hsep; [done | lia].
        -- apply rfind_None in Esep. apply Esep.
           by apply (subseteq_drop (S dot) l).
Qed.


Lemma derive_paths_fold (base root ext : string) (formats : list string) (key : string) :
  Exporter.splitext base = (root, ext) ->
  forall m : gmap string string,
    foldl
      (fun paths fmt =>
         let fmt_lower := PyStr.lower fmt in
         if PyStr.eqb fmt_lower "json" then
           <["json" := if PyStr.eqb ext ".json" || PyStr.is_empty ext
                       then base else root +:+ ".json"]> paths
         else if PyStr.eqb fmt_lower "csv" then
           <["csv" := if PyStr.eqb ext ".csv" || PyStr.is_empty ext
                      then base else root +:+ ".csv"]> paths
         else if PyStr.eqb fmt_lower "xlsx" || PyStr.eqb fmt_lower "excel" then
           <["xlsx" := if (PyStr.eqb ext ".xlsx" || PyStr.eqb ext ".xls")
                          || PyStr.is_empty ext
                       then base else root +:+ ".xlsx"]> paths
         else paths)
      m formats !! key
    = if format_wanted key formats then Some (Exporter.target base key) else m !! key.
Proof.
  intros Hsplit. unfold Exporter.target. rewrite Hsplit.
  induction formats as [|fmt formats IH]; intros m; [done|].
  cbn [foldl format_wanted existsb]. rewrite IH. fold (format_wanted key formats).
  destruct (format_wanted key formats); [by rewrite orb_true_r|].
  rewrite orb_false_r. unfold Exporter.format_key. cbn zeta.
  destruct (PyStr.eqb (PyStr.lower fmt) "json") eqn:E1.
  { case_bool_decide as Hk.
    - injection Hk as <-. by rewrite lookup_insert_eq.
    - rewrite lookup_insert_ne; [done | congruence]. }
  destruct (PyStr.eqb (PyStr.lower fmt) "csv") eqn:E2.
  { case_bool_decide as Hk.
    - injection Hk as <-. by rewrite lookup_insert_eq.
    - rewrite lookup_insert_ne; [done | congruence]. }
  destruct (PyStr.eqb (PyStr.lower fmt) "xlsx" || PyStr.eqb (PyStr.lower fmt) "excel").
  { case_bool_decide as Hk.
    - injection Hk as <-. by rewrite lookup_insert_eq.
    - rewrite lookup_insert_ne; [done | congruence]. }
  by rewrite bool_decide_eq_false_2.
Qed.

Lemma derive_paths_lookup (base : string) (formats : list string) (key : string) :
  Exporter._derive_paths base formats !! key
  = if format_wanted key formats then Some (Exporter.target base key) else None.
Proof.
  unfold Exporter._derive_paths.
  destruct (Exporter.splitext base) as [root ext] eqn:Hsplit.
  by rewrite (derive_paths_fold base root ext formats key Hsplit ∅).
Qed.

Lemma format_wanted_known key formats :
  format_wanted key formats = true -> key = "json" \/ key = "csv" \/ key = "xlsx".
Proof.
  unfold format_wanted. intros H. apply existsb_exists in H as (fmt & _ & H).
  apply bool_decide_eq_true in H. revert H. unfold Exporter.format_key.
  destruct (PyStr.eqb (PyStr.lower fmt) "json"); [intros [= <-]; auto|].
  destruct (PyStr.eqb (PyStr.lower fmt) "csv"); [intros [= <-]; auto|].
  destruct (PyStr.eqb (PyStr.lower fmt) "xlsx" || PyStr.eqb (PyStr.lower fmt) "excel");
    [intros [= <-]; auto | done].
Qed.

Lemma target_shape (base : string) (key : string) :
  key = "json" \/ key = "csv" \/ key = "xlsx" ->
  (snd (Exporter.splitext base) = "" -> Exporter.target base key = base)
  /\ (snd (Exporter.splitext base) <> "" ->
      exists suffix,
        Exporter.target base key = fst (Exporter.splitext base) +:+ suffix
        /\ (key = "json" -> suffix = ".json")
        /\ (key = "csv" -> suffix = ".csv")
        /\ (key = "xlsx" -> suffix = ".xlsx" \/ suffix = ".xls")).
Proof.
  intros Hkey. pose proof (splitext_app base) as Happ.
  unfold Exporter.target. destruct (Exporter.splitext base) as [root ext].
  simpl in *. split.
  - intros ->. by rewrite orb_true_r.
  - intros Hext. apply is_empty_false in Hext. rewrite Hext, orb_false_r.
    unfold PyStr.eqb.
    destruct Hkey as [-> | [-> | ->]]; cbn [bool_decide decide_rel].
    + rewrite (bool_decide_eq_false_2 ("json" = "xlsx")) by done.
      case_bool_decide as He.
      * exists ".json". rewrite <- Happ. change ("." +:+ "json") with ".json" in He.
        rewrite He. repeat split; done.
      * exists ".json". repeat split; done.
    + rewrite (bool_decide_eq_false_2 ("csv" = "xlsx")) by done.
      case_bool_decide as He.
      * exists ".csv". rewrite <- Happ. change ("." +:+ "csv") with ".csv" in He.
        rewrite He. repeat split; done.
      * exists ".csv". repeat split; done.
    + rewrite (bool_decide_eq_true_2 ("xlsx" = "xlsx")) by done.
      case_bool_decide as He1; [|case_bool_decide as He2]; cbn [orb].
      * exists ".xlsx". rewrite <- Happ, He1. repeat split; try done. by left.
      * exists ".xls". rewrite <- Happ, He2. repeat split; try done. by right.
      * exists ".xlsx". repeat split; try done. by left.
Qed.

(** X18. The output paths.  A path is derived for a key exactly when some
    requested format is filed under it (json, csv, and xlsx for both xlsx
    and excel, in any case of letters); other names are ignored, and
    neither the order nor the repetition of the formats matters.  When
    the base path has an extension the paths of different keys differ;
    when it has none, every key gets the base path itself, so all
    requested formats are written to one and the same file. *)
Theorem derived_paths (base : string) (formats : list string) :
  let paths := Exporter._derive_paths base formats in
  (forall key,
     paths !! key
     = if format_wanted key formats then Some (Exporter.target base key) else None)
  /\ (forall key p, paths !! key = Some p -> key = "json" \/ key = "csv" \/ key = "xlsx")
  /\ (snd (Exporter.splitext base) = "" ->
      forall key p, paths !! key = Some p -> p = base)
  /\ (snd (Exporter.splitext base) <> "" ->
      forall key1 key2 p,
        paths !! key1 = Some p -> paths !! key2 = Some p -> key1 = key2).
Proof.
  cbn zeta.
  assert (forall key p,
            Exporter._derive_paths base formats !! key = Some p ->
            (key = "json" \/ key = "csv" \/ key = "xlsx")
            /\ p = Exporter.target base key) as Hkeys.
  { intros key p. rewrite derive_paths_lookup.
    destruct (format_wanted key formats) eqn:E; [|done]. intros [= <-].
    split; [exact (format_wanted_known _ _ E) | done]. }
  split; [apply derive_paths_lookup|]. split; [intros key p H; exact (proj1 (Hkeys _ _ H))|].
  split.
  - intros Hext key p H. apply Hkeys in H as [Hk ->].
    by apply (target_shape base key Hk).
  - intros Hext key1 key2 p H1 H2.
    apply Hkeys in H1 as [Hk1 ->]. apply Hkeys in H2 as [Hk2 Heq].
    destruct (proj2 (target_shape base key1 Hk1) Hext) as (s1 & E1 & J1 & C1 & X1).
    destruct (proj2 (target_shape base key2 Hk2) Hext) as (s2 & E2 & J2 & C2 & X2).
    rewrite E1, E2 in Heq. apply (inj (String.app _)) in Heq.
    destruct Hk1 as [-> | [-> | ->]]; destruct Hk2 as [-> | [-> | ->]]; try done;
      repeat match goal with
        | H : ?k = ?k -> _ |- _ => specialize (H eq_refl)
        end;
      repeat match goal with
        | H : _ \/ _ |- _ => destruct H
        end; subst; discriminate.
Qed.

Context `{files : FileLib}.

Lemma first_key_wanted formats key :
  Exporter.first_key formats = Some key -> format_wanted key formats = true.
Proof.
  unfold Exporter.first_key, format_wanted.
  induction formats as [|fmt formats IH]; csimpl; [done|].
  destruct (Exporter.format_key (PyStr.lower fmt)) as [k|] eqn:E; simpl.
  - intros [= ->]. by rewrite bool_decide_eq_true_2.
  - intros H. rewrite (IH H). by rewrite ?orb_true_r.
Qed.

Lemma first_key_None formats :
  Exporter.first_key formats = None
  <-> Forall (fun fmt => Exporter.format_key (PyStr.lower fmt) = None) formats.
Proof.
  unfold Exporter.first_key.
  induction formats as [|fmt formats IH]; csimpl; [by split|].
  destruct (Exporter.format_key (PyStr.lower fmt)) as [k|] eqn:E; simpl.
  - split; [done|]. intros H. inversion H; congruence.
  - rewrite IH. split; [by constructor | by inversion 1].
Qed.

Lemma derive_paths_empty base formats :
  Exporter._derive_paths base formats = ∅
  <-> Forall (fun fmt => Exporter.format_key (PyStr.lower fmt) = None) formats.
Proof.
  rewrite map_empty. split.
  - intros Hnone. apply Forall_forall. intros fmt Hfmt.
    destruct (Exporter.format_key (PyStr.lower fmt)) as [key|] eqn:E; [|done].
    specialize (Hnone key). rewrite derive_paths_lookup in Hnone.
    assert (format_wanted key formats = true) as Hw.
    { apply existsb_exists. exists fmt. split; [by apply list_elem_of_In|].
      by apply bool_decide_eq_true. }
    by rewrite Hw in Hnone.
  - intros Hall key. rewrite derive_paths_lookup.
    destruct (format_wanted key formats) eqn:E; [|done].
    apply existsb_exists in E as (fmt & Hin & Hk).
    apply bool_decide_eq_true in Hk.
    rewrite Forall_forall in Hall. rewrite Hall in Hk; [done|].
    by apply list_elem_of_In.
Qed.

Lemma and_then_nothing (rest : Files -> exc unit * Files) fs :
  and_then nothing rest fs = rest fs.
Proof. reflexivity. Qed.

(** X19. [export_dataset] raises [ValueError] before any file operation
    when none of the requested formats is a known name (an empty list
    included).  Otherwise it does, in this order and up to the first that
    raises, [makedirs] on the directory of the path of the first known
    format (or on [.]), then one write for each key that is wanted, JSON,
    CSV and Excel, to the path derived for the key; an operation that
    raises ends the export with its exception, whatever its class.  With
    a base path without extension every one of these writes goes to the
    base path. *)
Theorem export_needs_a_known_format
    (hotel_stats : HotelStatistics) (reviews_ : list ReviewRecord)
    (base : string) (formats : list string) (fs : Files) :
  (Forall (fun fmt => Exporter.format_key (PyStr.lower fmt) = None) formats ->
   Exporter.export_dataset hotel_stats reviews_ base formats fs = (Raise ValueError, fs))
  /\ (forall key,
        Exporter.first_key formats = Some key ->
        Exporter.export_dataset hotel_stats reviews_ base formats fs
        = run_ops hotel_stats reviews_
            (OpMakedirs (directory_of base key) :: writes_of base formats) fs)
  /\ (Exporter.first_key formats = None
      <-> Forall (fun fmt => Exporter.format_key (PyStr.lower fmt) = None) formats)
  /\ (snd (Exporter.splitext base) = "" ->
      forall op, op ∈ writes_of base formats ->
                 op = OpJson base \/ op = OpCsv base \/ op = OpExcel base).
Proof.
  split; [|split; [|split]].
  - intros Hall. unfold Exporter.export_dataset. cbn zeta.
    by rewrite bool_decide_eq_true_2 by (by apply derive_paths_empty).
  - intros key Hkey. unfold Exporter.export_dataset, Exporter.first_path. cbn zeta.
    pose proof (first_key_wanted _ _ Hkey) as Hw.
    rewrite bool_decide_eq_false_2.
    2:{ rewrite derive_paths_empty, <- first_key_None. congruence. }
    rewrite Hkey, !derive_paths_lookup, Hw.
    unfold writes_of, directory_of. cbn [run_ops run_op].
    unfold and_then.
    destruct (makedirs _ fs) as [[[]|e] fs1]; [|done].
    destruct (format_wanted "json" formats); cbn [app run_ops run_op nothing].
    + destruct (dump_json _ _ _ fs1) as [[[]|e] fs2]; [|done].
      destruct (format_wanted "csv" formats); cbn [app run_ops run_op nothing].
      * destruct (to_csv _ _ _ fs2) as [[[]|e] fs3]; [|done].
        destruct (format_wanted "xlsx" formats); cbn [app run_ops run_op nothing]; [|done].
        by destruct (to_excel _ _ _ fs3) as [[[]|e] fs4].
      * destruct (format_wanted "xlsx" formats); cbn [app run_ops run_op nothing]; [|done].
        by destruct (to_excel _ _ _ fs2) as [[[]|e] fs4].
    + destruct (format_wanted "csv" formats); cbn [app run_ops run_op nothing].
      * destruct (to_csv _ _ _ fs1) as [[[]|e] fs3]; [|done].
        destruct (format_wanted "xlsx" formats); cbn [app run_ops run_op nothing]; [|done].
        by destruct (to_excel _ _ _ fs3) as [[[]|e] fs4].
      * destruct (format_wanted "xlsx" formats); cbn [app run_ops run_op nothing]; [|done].
        by destruct (to_excel _ _ _ fs1) as [[[]|e] fs4].
  - apply first_key_None.
  - intros Hext op. unfold writes_of. rewrite !elem_of_app.
    assert (forall key, key = "json" \/ key = "csv" \/ key = "xlsx" ->
                        Exporter.target base key = base) as Hbase.
    { intros key Hk. by apply (target_shape base key Hk). }
    rewrite !Hbase by auto.
    intros [H|[H|H]]; destruct (format_wanted _ formats) in H;
      try (by apply elem_of_nil in H); apply list_elem_of_singleton in H; auto.
Qed.

Lemma semicolon_free_prefix (p q x y : string) :
  all_chars (fun c => negb (Ascii.eqb c ";"%char)) p ->
  all_chars (fun c => negb (Ascii.eqb c ";"%char)) q ->
  p +:+ String ";"%char x = q +:+ String ";"%char y -> p = q /\ x = y.
Proof.
  revert q. induction p as [|c p IH]; intros [|d q]; simpl.
  - intros _ _ [= ->]. done.
  - intros _ [Hd _] [= <- _]. done.
  - intros [Hc _] _ [= -> _]. done.
  - intros [_ Hp] [_ Hq] [= -> H]. destruct (IH q Hp Hq H) as [-> ->]. done.
Qed.

Lemma semicolon_free_whole (p q y : string) :
  all_chars (fun c => negb (Ascii.eqb c ";"%char)) p ->
  p <> q +:+ String ";"%char y.
Proof.
  revert q. induction p as [|c p IH]; intros [|d q]; simpl; try done.
  - intros [Hc _] [= -> _]. done.
  - intros [_ Hp] [= _ H]. by apply (IH q).
Qed.

Lemma join_column_safe (l1 l2 : list string) :
  Forall column_safe l1 -> Forall column_safe l2 ->
  PyStr.join ";" l1 = PyStr.join ";" l2 -> l1 = l2.
Proof.
  intros H1. revert l2. induction H1 as [|p l1 [Hp Sp] H1 IH]; intros l2 H2.
  - destruct H2 as [|q l2 [Hq Sq] H2]; [done|].
    destruct l2; simpl; [by intros <-|]. by destruct q.
  - destruct H2 as [|q l2 [Hq Sq] H2].
    + destruct l1; simpl; [by intros ->|]. by destruct p.
    + destruct l1 as [|p' l1], l2 as [|q' l2].
      * simpl. by intros ->.
      * intros H. exfalso.
        exact (semicolon_free_whole p q (PyStr.join ";" (q' :: l2)) Sp H).
      * intros H. exfalso. symmetry in H.
        exact (semicolon_free_whole q p (PyStr.join ";" (p' :: l1)) Sq H).
      * intros H.
        change (p +:+ String ";"%char (PyStr.join ";" (p' :: l1))
                = q +:+ String ";"%char (PyStr.join ";" (q' :: l2))) in H.
        apply semicolon_free_prefix in H as [-> H]; [|done..].
        f_equal. by apply IH.
Qed.

(** X20. The [photos] column of a flattened review is the sources joined
    by semicolons.  For reviews whose sources are not empty and hold no
    semicolon the column determines the list: equal columns come from
    equal lists.  A source that holds a semicolon breaks this: the column
    of the one source [a;b] is that of the two sources [a] and [b]. *)
Theorem photos_column_keeps_the_list (r1 r2 : ReviewRecord) :
  (Forall column_safe (photos r1) -> Forall column_safe (photos r2) ->
   Exporter.photos_column r1 = Exporter.photos_column r2 -> photos r1 = photos r2)
  /\ (forall a b,
        photos r1 = [a +:+ ";" +:+ b] -> photos r2 = [a; b] ->
        Exporter.photos_column r1 = Exporter.photos_column r2).
Proof.
  unfold Exporter.photos_column. split.
  - apply join_column_safe.
  - intros a b -> ->. reflexivity.
Qed.

End ExporterFacts.

(* ===================================================================== *)
(** ** The further properties at concrete inputs *)
(* ===================================================================== *)

Lemma extract_int_joins_digits_witness :
  _extract_int_from_text "Stayed 2 nights in August 2022" = Ok (Some 22022)
  /\ 0 <= 22022
  /\ _extract_int_from_text ("room 25 m" +:+ String "178"%char "") = Ok None.
Proof.
  split; [reflexivity|]. split.
  - apply (proj1 (proj2 (extract_int_joins_digits "Stayed 2 nights in August 2022"))
             22022).
    reflexivity.
  - rewrite (proj1 (extract_int_joins_digits ("room 25 m" +:+ String "178"%char ""))).
    reflexivity.
Defined.

Lemma scores_last_block_wins_witness :
  exists observed e,
    _extract_hotel_stats (lib := Sample.lib) Sample.scores_page = Ok observed
    /\ scores observed !! "staff" = Some e
    /\ entry_score e = FFin (91 # 10)
    /\ translation e = "staff"
    /\ "staff" = _normalize_score_label (translation e)
    /\ scores observed !! "comfort" = None.
Proof.
  destruct (scores_last_block_wins (lib := Sample.lib) Sample.scores_page)
    as (observed & Hobs & Hlast & Hshape).
  exists observed,
    {| entry_score := FFin (91 # 10); translation := "staff";
       bounds_lower := None; bounds_higher := None |}.
  assert (scores observed !! "staff"
          = Some {| entry_score := FFin (91 # 10); translation := "staff";
                    bounds_lower := None; bounds_higher := None |}) as Hstaff
    by (rewrite Hlast; reflexivity).
  split; [exact Hobs|]. split; [exact Hstaff|].
  split; [reflexivity|]. split; [reflexivity|].
  split; [exact (proj1 (proj2 (Hshape _ _ Hstaff)))|].
  rewrite Hlast. reflexivity.
Defined.

Lemma review_date_only_from_time_element_witness :
  _parse_review_date (lib := Sample.lib) Sample.dated_card = Ok (Some 1661472000).
Proof.
  apply (proj2 (review_date_only_from_time_element (lib := Sample.lib)
                  Sample.dated_card 1661472000)).
  exists (NElem "time" [("datetime", "2022-08-26T00:00:00Z")]
            [Demo.text "26 August 2022"]), "2022-08-26T00:00:00Z".
  split; [reflexivity|]. split; reflexivity.
Defined.

Lemma optional_texts_are_never_empty_witness :
  exists r,
    _parse_single_review (lib := Sample.lib) None (Demo.card_at Sample.dated_page 0)
    = Ok (Some r)
    /\ guest_name (guest r) = Some "Ann"
    /\ guest_country (guest r) = None
    /\ guest_country (guest r) <> Some "".
Proof.
  destruct (_parse_single_review (lib := Sample.lib) None
              (Demo.card_at Sample.dated_page 0)) as [[r|]|e] eqn:E;
    [|vm_compute in E; discriminate..].
  exists r.
  destruct (optional_texts_are_never_empty (lib := Sample.lib) None
              (Demo.card_at Sample.dated_page 0) r E) as (_ & Hcountry & _).
  vm_compute in E. injection E as <-.
  split; [reflexivity|]. split; [reflexivity|]. split; [reflexivity | exact Hcountry].
Defined.

Lemma paragraph_text_makes_a_record_witness :
  exists r,
    _parse_single_review (lib := Sample.lib) None (Demo.card_at Sample.dated_page 0)
    = Ok (Some r)
    /\ (positiveContent r <> "" \/ negativeContent r <> "")
    /\ positiveContent r = "Nice rooms".
Proof.
  destruct (paragraph_text_makes_a_record (lib := Sample.lib) None
              (Demo.card_at Sample.dated_page 0) (NElem "p" [] [Demo.text "Noisy"]))
    as (r & Hr & Hcontent & Hfirst).
  - apply list_elem_of_In. vm_compute. auto 10.
  - vm_compute. discriminate.
  - exists r. split; [exact Hr|]. split; [exact Hcontent|].
    destruct Hfirst as (first_ & Hhead & Hpos & _); [reflexivity | reflexivity |].
    vm_compute in Hhead. injection Hhead as <-. rewrite Hpos. reflexivity.
Defined.

Lemma jsonld_sets_the_total_only_witness :
  set_totalReviews (Some 42) {| totalReviews := None; scores := ∅ |}
  = {| totalReviews := None; scores := ∅ |}
  \/ exists d a n,
       JDict [("@type", JStr "Hotel");
              ("aggregateRating", JDict [("reviewCount", JInt 42)])] = JDict d
       /\ lodging_with_aggregate d a
       /\ totalReviews {| totalReviews := None; scores := ∅ |} = None
       /\ Json.to_int (Json.or_ (Json.get "reviewCount" a) (Json.get "ratingCount" a))
          = Ok n
       /\ set_totalReviews (Some 42) {| totalReviews := None; scores := ∅ |}
          = set_totalReviews (Some n) {| totalReviews := None; scores := ∅ |}.
Proof.
  apply (jsonld_sets_the_total_only
           (JDict [("@type", JStr "Hotel");
                   ("aggregateRating", JDict [("reviewCount", JInt 42)])])
           {| totalReviews := None; scores := ∅ |}
           (set_totalReviews (Some 42) {| totalReviews := None; scores := ∅ |})).
  reflexivity.
Defined.

Lemma unreadable_count_is_skipped_witness :
  scan_scripts (lib := Sample.lib)
    [Demo.ld_json "hotel_comma"; Demo.ld_json "hotel42"]
    {| totalReviews := None; scores := ∅ |}
  = scan_scripts (lib := Sample.lib) [Demo.ld_json "hotel42"]
      {| totalReviews := None; scores := ∅ |}
  /\ totalReviews
       (fst (scan_scripts (lib := Sample.lib)
               [Demo.ld_json "hotel_comma"; Demo.ld_json "hotel42"]
               {| totalReviews := None; scores := ∅ |})) = Some 42.
Proof.
  destruct (unreadable_count_is_skipped (lib := Sample.lib)
              (Demo.ld_json "hotel_comma") [Demo.ld_json "hotel42"]
              [("@type", JStr "Hotel");
               ("aggregateRating", JDict [("reviewCount", JStr "1,234")])]
              [("reviewCount", JStr "1,234")]
              {| totalReviews := None; scores := ∅ |} ValueError) as [Hskip _].
  - reflexivity.
  - split; [|reflexivity]. exists (JStr "Hotel"). split; reflexivity.
  - reflexivity.
  - destruct Hskip as [_ Hscan]; [discriminate|].
    split; [exact Hscan|]. rewrite Hscan. reflexivity.
Defined.

Lemma next_url_comes_from_a_link_witness :
  (exists a href,
     a ∈ Dom.descendants (BeautifulSoup (PyLib := Demo.lib) "https://h.example/reviews")
     /\ Dom.is_tag "a" a = true
     /\ Dom.get "href" a = Some href /\ href <> ""
     /\ urljoin (PyLib := Demo.lib) "https://h.example/reviews" href
        = Ok "https://h.example/reviews?page=2")
  /\ _find_next_page_url (lib := Demo.lib) "https://h.example/one" "https://h.example/one"
     = Ok None.
Proof.
  split.
  - apply (proj1 (next_url_comes_from_a_link (lib := Demo.lib)
                    "https://h.example/reviews" "https://h.example/reviews")).
    reflexivity.
  - apply (proj2 (next_url_comes_from_a_link (lib := Demo.lib)
                    "https://h.example/one" "https://h.example/one")).
    intros a Ha. apply list_elem_of_In in Ha. vm_compute in Ha.
    repeat (destruct Ha as [<-|Ha]; [vm_compute; intros; congruence|]).
    destruct Ha.
Defined.

Lemma unfetched_first_page_gives_empty_result_witness :
  _fetch (lib := Demo.lib) 0 "https://h.example/reviews" 0%nat = (None, 0%nat)
  /\ scrape_reviews (lib := Demo.lib) 10 None 0 1 "https://h.example/reviews" 0%nat
     = Some empty_result.
Proof.
  destruct (unfetched_first_page_gives_empty_result (lib := Demo.lib) 10 None 0
              "https://h.example/reviews" 0%nat 0%nat) as [Hfetch Hrun].
  split; [apply Hfetch; lia | apply Hrun; left; reflexivity].
Defined.


Lemma linking_parser_reads_any_text (html : string) :
  html <> "" ->
  _find_next_page_url (lib := Sample.linking_lib) html html = Ok (Some html).
Proof.
  intros Hne. unfold _find_next_page_url. destruct html as [|c r]; [done|]. reflexivity.
Qed.


Lemma reviews_accumulate_up_to_the_cap_witness :
  exists result,
    scrape_reviews (lib := Demo.lib) 1 None 3 5 "https://h.example/reviews" 0%nat
    = Some result
    /\ Z.of_nat (List.length (reviews result)) <= 1.
Proof.
  destruct (scrape_reviews (lib := Demo.lib) 1 None 3 5 "https://h.example/reviews" 0%nat)
    as [result|] eqn:Hrun; [|vm_compute in Hrun; discriminate].
  exists result. split; [reflexivity|].
  apply (proj2 (reviews_accumulate_up_to_the_cap (lib := Demo.lib) 1 None 3)
           ltac:(lia) 5%nat "https://h.example/reviews" 0%nat result Hrun).
Defined.

Lemma merge_config_result_witness :
  Main.merge_config (fun _ => "") (JDict []) [("hotelUrl", JStr "")]
    {| args_hotel_url := None; args_max_items := None; args_language := None;
       args_output := None; args_formats := None |}
  = Raise ValueError
  /\ exists cfg,
       Main.merge_config (fun _ => "") (JDict [])
         [("hotelUrl", JStr "https://h.example/reviews")]
         {| args_hotel_url := None; args_max_items := Some (-5); args_language := None;
            args_output := None; args_formats := None |}
       = Ok cfg
       /\ Json.truthy (cfg_output_path cfg) = true
       /\ Json.truthy (cfg_formats cfg) = true
       /\ cfg_max_items cfg = -5.
Proof.
  split.
  - apply (proj1 (merge_config_result (fun _ => "") (JDict []) [("hotelUrl", JStr "")]
                    {| args_hotel_url := None; args_max_items := None;
                       args_language := None; args_output := None;
                       args_formats := None |})).
    reflexivity.
  - eexists. split; [reflexivity|].
    destruct (proj2 (merge_config_result (fun _ => "") (JDict [])
                       [("hotelUrl", JStr "https://h.example/reviews")]
                       {| args_hotel_url := None; args_max_items := Some (-5);
                          args_language := None; args_output := None;
                          args_formats := None |}) _ eq_refl)
      as (_ & _ & Hout & Hformats & _ & Hmax).
    split; [exact Hout|]. split; [exact Hformats|]. apply Hmax. reflexivity.
Defined.

Lemma command_line_wins_witness :
  exists cfg,
    Main.merge_config (fun _ => "")
      (JDict [("output", JDict [("path", JStr "data/settings.json")])])
      [("hotelUrl", JStr "https://h.example/one"); ("maxItems", JInt 7);
       ("outputPath", JStr "data/input.json"); ("formats", JList [JStr "xlsx"])]
      {| args_hotel_url := Some "https://h.example/reviews"; args_max_items := Some 0;
         args_language := None; args_output := Some "out";
         args_formats := Some "JSON, ,Csv" |}
    = Ok cfg
    /\ cfg_hotel_url cfg = JStr "https://h.example/reviews"
    /\ cfg_max_items cfg = 0
    /\ cfg_output_path cfg = JStr "out"
    /\ cfg_formats cfg = JList [JStr "json"; JStr "csv"].
Proof.
  destruct (command_line_wins (fun _ => "")
              [("output", JDict [("path", JStr "data/settings.json")])]
              [("hotelUrl", JStr "https://h.example/one"); ("maxItems", JInt 7);
               ("outputPath", JStr "data/input.json"); ("formats", JList [JStr "xlsx"])]
              {| args_hotel_url := Some "https://h.example/reviews";
                 args_max_items := Some 0; args_language := None;
                 args_output := Some "out"; args_formats := Some "JSON, ,Csv" |}
              "https://h.example/reviews" "out" "JSON, ,Csv" 0)
    as (cfg & Hcfg & Hurl & Hmax & Hout & Hformats & _);
    try reflexivity; try discriminate.
  - exists [("path", JStr "data/settings.json")]. reflexivity.
  - exists cfg. split; [exact Hcfg|]. split; [exact Hurl|]. split; [exact Hmax|].
    split; [exact Hout | exact Hformats].
Defined.

Lemma derived_paths_witness :
  Exporter._derive_paths "data/out.json" ["JSON"; "excel"; "pdf"] !! "xlsx"
  = Some "data/out.xlsx"
  /\ Exporter._derive_paths "data/out" ["json"; "csv"] !! "csv" = Some "data/out"
  /\ Exporter._derive_paths "data/out" ["json"; "csv"] !! "json" = Some "data/out".
Proof.
  destruct (derived_paths "data/out.json" ["JSON"; "excel"; "pdf"]) as (Hlookup & _).
  destruct (derived_paths "data/out" ["json"; "csv"]) as (Hplain & _ & Hsame & _).
  split; [rewrite Hlookup; reflexivity|].
  assert (forall key,
            format_wanted key ["json"; "csv"] = true ->
            Exporter._derive_paths "data/out" ["json"; "csv"] !! key = Some "data/out")
    as Hbase.
  { intros key Hkey.
    destruct (Exporter._derive_paths "data/out" ["json"; "csv"] !! key) as [p|] eqn:E.
    - f_equal. apply (Hsame eq_refl key p E).
    - rewrite Hplain, Hkey in E. discriminate. }
  split; apply Hbase; reflexivity.
Defined.

Lemma export_needs_a_known_format_witness :
  Exporter.export_dataset (files := Sample.picky_files)
    {| totalReviews := Some 0; scores := ∅ |} [] "data/out.json" ["pdf"; ""] []
  = (Raise ValueError, [])
  /\ Exporter.export_dataset (files := Sample.picky_files)
       {| totalReviews := Some 0; scores := ∅ |} [] "data/out.json" ["csv"; "JSON"] []
     = (Ok tt, [("makedirs", "data"); ("json", "data/out.json"); ("csv", "data/out.csv")])
  /\ Exporter.export_dataset (files := Sample.picky_files)
       {| totalReviews := Some 0; scores := ∅ |} [] "data/out" ["json"; "xlsx"] []
     = (Raise ValueError, [("makedirs", "data"); ("json", "data/out")]).
Proof.
  split; [|split].
  - apply (proj1 (export_needs_a_known_format (files := Sample.picky_files)
                    {| totalReviews := Some 0; scores := ∅ |} []
                    "data/out.json" ["pdf"; ""] [])).
    repeat (apply Forall_cons; split; [reflexivity|]). apply Forall_nil_2.
  - rewrite (proj1 (proj2 (export_needs_a_known_format (files := Sample.picky_files)
                             {| totalReviews := Some 0; scores := ∅ |} []
                             "data/out.json" ["csv"; "JSON"] [])) "csv" eq_refl).
    reflexivity.
  - rewrite (proj1 (proj2 (export_needs_a_known_format (files := Sample.picky_files)
                             {| totalReviews := Some 0; scores := ∅ |} []
                             "data/out" ["json"; "xlsx"] [])) "json" eq_refl).
    reflexivity.
Defined.

Lemma photos_column_keeps_the_list_witness :
  photos (Sample.record_with_photos ["https://x.com/a.jpg"; "https://x.com/b.jpg"])
  = photos (Sample.record_with_photos ["https://x.com/a.jpg"; "https://x.com/b.jpg"])
  /\ Exporter.photos_column (Sample.record_with_photos ["https://x.com/a.jpg;b"])
     = Exporter.photos_column (Sample.record_with_photos ["https://x.com/a.jpg"; "b"]).
Proof.
  split.
  - apply (proj1 (photos_column_keeps_the_list
                    (Sample.record_with_photos
                       ["https://x.com/a.jpg"; "https://x.com/b.jpg"])
                    (Sample.record_with_photos
                       ["https://x.com/a.jpg"; "https://x.com/b.jpg"]))).
    + repeat (apply Forall_cons; split;
              [split; [discriminate | vm_compute; tauto]|]).
      apply Forall_nil_2.
    + repeat (apply Forall_cons; split;
              [split; [discriminate | vm_compute; tauto]|]).
      apply Forall_nil_2.
    + reflexivity.
  - apply (proj2 (photos_column_keeps_the_list
                    (Sample.record_with_photos ["https://x.com/a.jpg;b"])
                    (Sample.record_with_photos ["https://x.com/a.jpg"; "b"]))
             "https://x.com/a.jpg" "b"); reflexivity.
Defined.

Lemma statistics_come_from_the_first_page_witness :
  exists result,
    scrape_reviews (lib := Demo.lib) 10 None 3 5 "https://h.example/reviews" 0%nat
    = Some result
    /\ totalReviews (hotelStats result) = Some 1
    /\ List.length (reviews result) = 2%nat.
Proof.
  destruct (scrape_reviews (lib := Demo.lib) 10 None 3 5 "https://h.example/reviews" 0%nat)
    as [result|] eqn:Hrun; [|vm_compute in Hrun; discriminate].
  destruct (parse (lib := Demo.lib) None "https://h.example/reviews")
    as [[stats page_reviews]|e] eqn:Hparse; [|vm_compute in Hparse; discriminate].
  destruct (statistics_come_from_the_first_page (lib := Demo.lib) 10 None 3 5
              "https://h.example/reviews" 0%nat result "https://h.example/reviews"
              stats page_reviews eq_refl Hparse Hrun) as [Hstats _].
  exists result. split; [reflexivity|]. rewrite Hstats.
  vm_compute in Hparse. injection Hparse as <- _.
  split; [reflexivity|].
  vm_compute in Hrun. injection Hrun as <-. reflexivity.
Defined.

Lemma more_retries_fetch_the_same_page_witness :
  _fetch (lib := Demo.lib) 3 "https://h.example/reviews" 0%nat
  = (Some "https://h.example/reviews", 1%nat)
  /\ 1 <= 1.
Proof.
  destruct (more_retries_fetch_the_same_page (lib := Demo.lib) 1 3
              "https://h.example/reviews" 0%nat 1%nat "https://h.example/reviews")
    as (Hsame & Hpos & _); [reflexivity | lia |].
  split; [exact Hsame | exact Hpos].
Defined.
